(** * TaskBuddy gamification core: a shallow embedding and its properties

    The development follows the gamification code of the repository
    (level system, streak system, bonus calculator, leaderboard,
    achievement engine) and the [points_ledger] balance trigger of the
    database schema.

    Conventions of the embedding.
    - A JavaScript [number] that carries a fraction (multipliers, bonus
      percentages, hours) is an IEEE 754 binary64 value, modelled with the
      Standard Library's [spec_float] at precision 53 and maximal exponent
      1024, so that rounding is the rounding of the running program.
    - Counters, identifiers of days, XP amounts, levels and SQL [INT]
      columns are integers, modelled in [Z].
    - A [Date] is modelled by its time value (milliseconds since the epoch).
    - Database tables are lists of rows in insertion order. *)

From Stdlib Require Import ZArith List Bool Lia String SpecFloat Permutation Sorted.
From stdpp Require Import gmap strings list sorting.

Local Open Scope Z_scope.

(** ** JavaScript numbers *)

Module JsNumber.

Definition number : Type := spec_float.

Definition prec : Z := 53.
Definition emax : Z := 1024.

(** The number denoted by an integer literal (exact below 2^53). *)
Definition num (z : Z) : number := binary_normalize prec emax z 0 false.

Definition add : number -> number -> number := SFadd prec emax.
Definition sub : number -> number -> number := SFsub prec emax.
Definition mul : number -> number -> number := SFmul prec emax.
Definition div : number -> number -> number := SFdiv prec emax.

(** A decimal literal [n / d] (such as [0.05 = 5 / 100]) denotes the double
    nearest to the quotient, which is what the correctly rounded division of
    the two exactly representable integers yields. *)
Definition dec (n d : Z) : number := div (num n) (num d).

(** Relational operators: every comparison with [NaN] is false. *)
Definition le (x y : number) : bool := SFleb x y.
Definition gt (x y : number) : bool := SFltb y x.
Definition ge (x y : number) : bool := SFleb y x.

(** [===] on numbers. *)
Definition strict_eq (x y : number) : bool := SFeqb x y.

(** SameValueZero, the comparison of [Array.prototype.includes]. *)
Definition sameValueZero (x y : number) : bool :=
  match x, y with
  | S754_nan, S754_nan => true
  | _, _ => SFeqb x y
  end.

Definition includes (l : list number) (x : number) : bool :=
  existsb (fun y => sameValueZero y x) l.

(** [Math.min] of two arguments: [NaN] if either is, [-0] below [+0]. *)
Definition Math_min (x y : number) : number :=
  match x, y with
  | S754_nan, _ | _, S754_nan => S754_nan
  | S754_zero sx, S754_zero sy => S754_zero (sx || sy)
  | _, _ => if SFltb y x then y else x
  end.

(** [Math.round]: the integer nearest to [x], ties towards +infinity; the
    sign of a zero result is the sign of [x].  For a finite
    [x = (-1)^s * m * 2^e] with [e < 0] the result is
    [floor (x + 1/2) = floor ((2 * (+-m) + 2^(-e)) / 2^(1-e))]. *)
Definition Math_round (x : number) : number :=
  match x with
  | S754_finite s m e =>
      if 0 <=? e then x
      else
        let n := (2 * cond_Zopp s (Zpos m) + 2 ^ (- e)) / 2 ^ (1 - e) in
        if n =? 0 then S754_zero s else num n
  | _ => x
  end.

(** The integer a number denotes, when it denotes one. *)
Definition to_Z (x : number) : option Z :=
  match x with
  | S754_zero _ => Some 0
  | S754_finite s m e =>
      if 0 <=? e then Some (cond_Zopp s (Zpos m) * 2 ^ e)
      else if (Zpos m) mod 2 ^ (- e) =? 0
           then Some (cond_Zopp s (Zpos m) / 2 ^ (- e))
           else None
  | _ => None
  end.

End JsNumber.

Import JsNumber.

Declare Scope js_scope.
Delimit Scope js_scope with js.
Infix "+" := add : js_scope.
Infix "-" := sub : js_scope.
Infix "*" := mul : js_scope.
Infix "/" := div : js_scope.
Infix ">=" := ge : js_scope.

(** ** Completion of a call *)

(** A call either returns a value or throws.  [ValidationError] is the
    error class of the application's input validation; [TypeError] is the
    language's own, thrown on reading a property of [null]. *)
Inductive JsError : Type :=
  | TypeError
  | ValidationError.

Inductive completion (A : Type) : Type :=
  | Normal (v : A)
  | Throw (e : JsError).

Arguments Normal {A} v.
Arguments Throw {A} e.

(** The completion of a call to a function whose body contains no [throw]
    and calls nothing that throws. *)
Definition returns {A : Type} (v : A) : completion A := Normal v.

Definition rejects {A : Type} (c : completion A) : Prop :=
  exists e, c = Throw e.

(** ** lib/gamification/bonusCalculator.ts *)

Module BonusCalculator.

Definition STREAK_MULTIPLIER : number := dec 5 100.
Definition MAX_STREAK_BONUS : number := dec 25 10.
Definition STREAK_MILESTONES : list number :=
  map num [3; 7; 14; 30; 60; 100].

Record Breakdown : Type := {
  base : number;
  streak : number;
  milestone : number
}.

Record PointsBreakdown : Type := {
  basePoints : number;
  streakMultiplier : number;
  streakBonus : number;
  milestoneBonus : number;
  totalPoints : number;
  breakdown : Breakdown
}.

Definition calculateStreakBonus (basePoints streakDays : number) : PointsBreakdown :=
  let multiplier :=
    Math_min (num 1 + streakDays * STREAK_MULTIPLIER)%js MAX_STREAK_BONUS in
  let bonusPoints := Math_round (basePoints * (multiplier - num 1))%js in
  let totalPoints := (basePoints + bonusPoints)%js in
  let milestoneBonus :=
    if includes STREAK_MILESTONES streakDays
    then (streakDays * num 5)%js
    else num 0 in
  {| basePoints := basePoints;
     streakMultiplier := multiplier;
     streakBonus := bonusPoints;
     milestoneBonus := milestoneBonus;
     totalPoints := (totalPoints + milestoneBonus)%js;
     breakdown := {| base := basePoints;
                     streak := bonusPoints;
                     milestone := milestoneBonus |} |}.

(** [dueDate] and [completedAt] are the time values of the two [Date]
    arguments. *)
Definition calculateEarlyCompletionBonus
  (basePoints dueDate completedAt : number) : number :=
  if (completedAt >= dueDate)%js then num 0
  else
    let hoursEarly := ((dueDate - completedAt) / num (1000 * 60 * 60))%js in
    if (hoursEarly >= num 48)%js then Math_round (basePoints * dec 25 100)%js
    else if (hoursEarly >= num 24)%js then Math_round (basePoints * dec 15 100)%js
    else if (hoursEarly >= num 12)%js then Math_round (basePoints * dec 10 100)%js
    else if (hoursEarly >= num 6)%js then Math_round (basePoints * dec 5 100)%js
    else num 0.

End BonusCalculator.

(** ** lib/gamification/levelSystem.ts *)

Module LevelSystem.

Definition BASE_XP : Z := 100.
Definition MAX_LEVEL : Z := 100.

(** [GROWTH_FACTOR] is 1.5.  On an integer [level >= 1] the value
    [Math.floor (BASE_XP * Math.pow (level, 1.5))] is the integer part of
    the square root of [BASE_XP^2 * level^3]. *)
Definition xpRequiredForLevel (level : Z) : Z :=
  if level <=? 0 then 0
  else Z.sqrt (BASE_XP ^ 2 * level ^ 3).

(** The [for (i = ...; i <= level; i++)] loop with [n] iterations left. *)
Fixpoint cumulativeLoop (n : nat) (i total : Z) : Z :=
  match n with
  | O => total
  | S n' => cumulativeLoop n' (i + 1) (total + xpRequiredForLevel i)
  end.

Definition cumulativeXpForLevel (level : Z) : Z :=
  cumulativeLoop (Z.to_nat level) 1 0.

(** The [while (level < MAX_LEVEL)] loop.  [n] bounds the number of
    iterations; [levelLoop_exit] shows that [MAX_LEVEL - level] iterations
    always reach the exit of the loop. *)
Fixpoint levelLoop (n : nat) (level remainingXp : Z) : Z * Z :=
  match n with
  | O => (level, remainingXp)
  | S n' =>
      if level <? MAX_LEVEL then
        let required := xpRequiredForLevel level in
        if remainingXp <? required then (level, remainingXp)
        else levelLoop n' (level + 1) (remainingXp - required)
      else (level, remainingXp)
  end.

Record LevelInfo : Type := {
  level : Z;
  currentXp : Z;
  xpToNext : Z;
  progress : number
}.

Definition levelFromXp (totalXp : Z) : LevelInfo :=
  let '(level, remainingXp) :=
    levelLoop (Z.to_nat (MAX_LEVEL - 1)) 1 totalXp in
  let xpToNext := xpRequiredForLevel level in
  let progress :=
    Math_min (num remainingXp / num xpToNext * num 100)%js (num 100) in
  {| level := level;
     currentXp := remainingXp;
     xpToNext := xpToNext;
     progress := Math_round progress |}.

End LevelSystem.

(** ** Arrays and database rows *)

(** [Array.prototype.sort] with the comparator [(a, b) => key b - key a],
    and a query's [sort ({field: -1})]: a stable sort into descending key
    order, here by insertion. *)
Section SortDesc.

Context {A : Type}.
Variable key : A -> Z.

Fixpoint insert_desc (x : A) (l : list A) : list A :=
  match l with
  | [] => [x]
  | y :: l' => if key y <=? key x then x :: y :: l' else y :: insert_desc x l'
  end.

Fixpoint sort_desc (l : list A) : list A :=
  match l with
  | [] => []
  | x :: l' => insert_desc x (sort_desc l')
  end.

End SortDesc.

(** Rows of [task_assignments], with the category of the joined task. *)
Module TaskAssignment.

Record t : Type := {
  child_id : string;
  status : string;
  approved_at : option Z;
  task_category : string
}.

End TaskAssignment.

(** ** lib/gamification/streakSystem.ts *)

Module StreakSystem.

Record StreakConfig : Type := {
  gracePeriodHours : Z;
  timezoneOffset : Z;
  minimumTasksPerDay : Z
}.

Definition DEFAULT_CONFIG : StreakConfig :=
  {| gracePeriodHours := 4; timezoneOffset := 0; minimumTasksPerDay := 1 |}.

(** [Partial<StreakConfig>] and the constructor's
    [{ ...DEFAULT_CONFIG, ...config }]. *)
Record PartialStreakConfig : Type := {
  gracePeriodHours_opt : option Z;
  timezoneOffset_opt : option Z;
  minimumTasksPerDay_opt : option Z
}.

Definition StreakCalculator (config : PartialStreakConfig) : StreakConfig :=
  {| gracePeriodHours :=
       default (gracePeriodHours DEFAULT_CONFIG) (gracePeriodHours_opt config);
     timezoneOffset :=
       default (timezoneOffset DEFAULT_CONFIG) (timezoneOffset_opt config);
     minimumTasksPerDay :=
       default (minimumTasksPerDay DEFAULT_CONFIG) (minimumTasksPerDay_opt config) |}.

Definition MS_PER_HOUR : Z := 60 * 60 * 1000.
Definition MS_PER_DAY : Z := 24 * MS_PER_HOUR.

(** The UTC calendar date of an instant, which is what
    [toISOString ().split ('T')[0]] prints: dates are identified by their
    number of days since 1970-01-01, so that the date before [d] is
    [d - 1]. *)
Definition utcDate (t : Z) : Z := t / MS_PER_DAY.

(** [checkDate.setDate (checkDate.getDate () - 1)]: the same wall-clock time
    one calendar day earlier; the clock of the process keeps a fixed offset
    to UTC, so this is 24 hours earlier. *)
Definition previousDay (t : Z) : Z := t - MS_PER_DAY.

Record StreakResult : Type := {
  currentStreak : Z;
  streakAtRisk : bool;
  completedToday : Z;
  requiredDaily : Z
}.

Section Calculator.

Variable config : StreakConfig.

Definition getStreakDay (timestamp : Z) : Z :=
  let adjusted := timestamp - gracePeriodHours config * 60 * 60 * 1000 in
  utcDate adjusted.

(** The [approved_at] values of the rows selected by
    [find ({child_id, status: 'approved', approved_at: {$gte: since}})
       .sort ({approved_at: -1})]. *)
Definition find_approved_since
  (taskAssignments : list TaskAssignment.t) (childId : string) (since : Z) : list Z :=
  sort_desc (fun t => t)
    (omap (fun a =>
       if (TaskAssignment.child_id a =? childId)%string
          && (TaskAssignment.status a =? "approved")%string
       then match TaskAssignment.approved_at a with
            | Some t => if since <=? t then Some t else None
            | None => None
            end
       else None) taskAssignments).

(** The [for (const completion of completions)] loop over the [Map]. *)
Definition groupByDay (completions : list Z) : gmap Z Z :=
  fold_left
    (fun (completionsByDay : gmap Z Z) approved_at =>
       let day := getStreakDay approved_at in
       <[day := default 0 (completionsByDay !! day) + 1]> completionsByDay)
    completions ∅.

Section Walk.

Variable completionsByDay : gmap Z Z.

(** The instant returned by [new Date ()] during the call. *)
Variable now : Z.

Definition isToday (day : Z) : bool := day =? getStreakDay now.

(** The [while (true)] loop; [None] when [fuel] iterations do not reach the
    [break]. *)
Fixpoint streakLoop (fuel : nat) (currentStreak checkDate checkDay : Z) : option Z :=
  match fuel with
  | O => None
  | S fuel' =>
      let tasksOnDay := default 0 (completionsByDay !! checkDay) in
      if minimumTasksPerDay config <=? tasksOnDay then
        let checkDate' := previousDay checkDate in
        streakLoop fuel' (currentStreak + 1) checkDate' (getStreakDay checkDate')
      else if (currentStreak =? 0) && isToday checkDay then
        let checkDate' := previousDay checkDate in
        streakLoop fuel' currentStreak checkDate' (getStreakDay checkDate')
      else Some currentStreak
  end.

End Walk.

(** [calculateStreak] at the instant [now].  The loop is given two more
    iterations than there are completions in the window; with
    [minimumTasksPerDay >= 1] that always reaches the [break]
    ([calculateStreak_returns]). *)
Definition calculateStreak
  (taskAssignments : list TaskAssignment.t) (now : Z) (childId : string)
  : option StreakResult :=
  let ninetyDaysAgo := now - 90 * MS_PER_DAY in
  let completions := find_approved_since taskAssignments childId ninetyDaysAgo in
  let completionsByDay := groupByDay completions in
  match streakLoop completionsByDay now
          (S (S (length completions))) 0 now (getStreakDay now) with
  | None => None
  | Some currentStreak =>
      let todayCount := default 0 (completionsByDay !! getStreakDay now) in
      let streakAtRisk :=
        (0 <? currentStreak) && (todayCount <? minimumTasksPerDay config) in
      Some {| currentStreak := currentStreak;
              streakAtRisk := streakAtRisk;
              completedToday := todayCount;
              requiredDaily := minimumTasksPerDay config |}
  end.

End Calculator.

End StreakSystem.

(** ** The database *)

(** Rows of [points_ledger]. *)
Module PointsLedger.

(** The values admitted by the [CHECK] constraint of [transaction_type]. *)
Inductive TransactionType : Type :=
  | earned
  | redeemed
  | bonus
  | penalty
  | adjustment.

Definition TransactionType_eqb (a b : TransactionType) : bool :=
  match a, b with
  | earned, earned | redeemed, redeemed | bonus, bonus
  | penalty, penalty | adjustment, adjustment => true
  | _, _ => false
  end.

Record t : Type := {
  child_id : string;
  transaction_type : TransactionType;
  points_amount : Z;
  balance_after : Z;
  reference_type : option string;
  created_at : Z
}.

(** Errors raised while a row is inserted. *)
Inductive SqlError : Type :=
  | Points_balance_mismatch
  | Integer_out_of_range.

(** The range of the SQL type [INT]. *)
Definition in_INT (z : Z) : bool := (- 2 ^ 31 <=? z) && (z <? 2 ^ 31).

(** [SELECT COALESCE (SUM (points_amount), 0) FROM points_ledger
     WHERE child_id = ...]. *)
Definition sum_points_amount (points_ledger : list t) (childId : string) : Z :=
  fold_right Z.add 0
    (map points_amount
       (List.filter (fun r => (child_id r =? childId)%string) points_ledger)).

(** The trigger function.  It runs [BEFORE INSERT], hence on the table as it
    is before [NEW] is added; the sum is stored into an [INT] variable. *)
Definition validate_points_balance (points_ledger : list t) (NEW : t) : SqlError + t :=
  let calculated_balance := sum_points_amount points_ledger (child_id NEW) in
  if negb (in_INT calculated_balance) then inl Integer_out_of_range
  else if negb (balance_after NEW =? calculated_balance) then inl Points_balance_mismatch
  else inr NEW.

(** [INSERT INTO points_ledger] of one row under the trigger
    [check_points_balance]: the table after the statement, and the error
    when the statement failed. *)
Definition insert (points_ledger : list t) (row : t) : list t * option SqlError :=
  match validate_points_balance points_ledger row with
  | inr NEW => (points_ledger ++ [NEW], None)
  | inl e => (points_ledger, Some e)
  end.

End PointsLedger.

Module User.

Record t : Type := {
  id : string;
  family_id : string;
  role : string;
  is_active : bool;
  first_name : string;
  avatar_url : option string
}.

End User.

Module ChildProfile.

Record t : Type := {
  user_id : string;
  current_streak_days : Z;
  total_tasks_completed : Z;
  total_points_earned : Z
}.

End ChildProfile.

Module Achievement.

(** [unlock_criteria_config], a JSON object. *)
Record Config : Type := {
  category : option string;
  before_time : option string
}.

Record t : Type := {
  id : string;
  name : string;
  unlock_criteria_type : string;
  unlock_criteria_value : Z;
  unlock_criteria_config : option Config;
  is_system_achievement : bool;
  points_reward : Z
}.

End Achievement.

Module ChildAchievement.

Record t : Type := {
  child_id : string;
  achievement_id : string;
  unlocked_at : Z
}.

End ChildAchievement.

Module Notification.

Record t : Type := {
  user_id : string;
  type : string;
  title : string;
  message : string
}.

End Notification.

(** The collections behind [db], and the notifications handed to
    [notificationService.send] so far. *)
Record Db : Type := {
  users : list User.t;
  childProfiles : list ChildProfile.t;
  taskAssignments : list TaskAssignment.t;
  pointsLedger : list PointsLedger.t;
  achievements : list Achievement.t;
  childAchievements : list ChildAchievement.t;
  notifications : list Notification.t
}.

(** ** Achievement System Logic *)

Module AchievementEngine.

(** Asynchronous methods run to completion one after the other: a
    computation takes the database to a completion and a database. *)
Definition M (A : Type) : Type := Db -> completion A * Db.

Definition ret {A : Type} (v : A) : M A := fun db => (Normal v, db).

Definition throw {A : Type} (e : JsError) : M A := fun db => (Throw e, db).

Definition bind {A B : Type} (m : M A) (k : A -> M B) : M B :=
  fun db =>
    match m db with
    | (Normal v, db') => k v db'
    | (Throw e, db') => (Throw e, db')
    end.

Notation "'await' x ':=' m 'in' k" := (bind m (fun x => k))
  (at level 10, x name, m at level 100, k at level 200).
Notation "'perform' m 'in' k" := (bind m (fun _ => k))
  (at level 10, m at level 100, k at level 200).

Definition get : M Db := fun db => (Normal db, db).

Definition put (db : Db) : M unit := fun _ => (Normal tt, db).

(** The event passed along with a check. *)
Record AchievementEvent : Type := {
  event_type : string;
  taskCategory : string
}.

(** [db.taskAssignments.count ({child_id, status: 'approved',
     'task.category': category})]. *)
Definition count_category (childId : string) (category : option string) : M Z :=
  await db := get in
  ret (Z.of_nat (length (List.filter
    (fun a =>
       (TaskAssignment.child_id a =? childId)%string
       && (TaskAssignment.status a =? "approved")%string
       && match category with
          | Some c => (TaskAssignment.task_category a =? c)%string
          | None => false
          end)
    (taskAssignments db)))).

(** Reading a field of the profile; the profile is [None] when [findOne]
    found none, and reading a field of it throws. *)
Definition read {A : Type} (child : option ChildProfile.t) (field : ChildProfile.t -> A)
  : M A :=
  match child with
  | Some profile => ret (field profile)
  | None => throw TypeError
  end.

(** The [switch] on [unlock_criteria_type]; reading [.category] of an
    absent configuration throws. *)
Definition checkUnlockCriteria
  (child : option ChildProfile.t) (achievement : Achievement.t)
  (event : AchievementEvent) : M bool :=
  let type := Achievement.unlock_criteria_type achievement in
  let value := Achievement.unlock_criteria_value achievement in
  if (type =? "streak_days")%string then
    await current_streak_days := read child ChildProfile.current_streak_days in
    ret (value <=? current_streak_days)
  else if (type =? "tasks_completed")%string then
    await total_tasks_completed := read child ChildProfile.total_tasks_completed in
    ret (value <=? total_tasks_completed)
  else if (type =? "points_earned")%string then
    await total_points_earned := read child ChildProfile.total_points_earned in
    ret (value <=? total_points_earned)
  else if (type =? "category_master")%string then
    await user_id := read child ChildProfile.user_id in
    match Achievement.unlock_criteria_config achievement with
    | None => throw TypeError
    | Some config =>
        await categoryCount := count_category user_id (Achievement.category config) in
        ret (value <=? categoryCount)
    end
  else ret false.

Definition findOne_childAchievement (childId achievementId : string)
  : M (option ChildAchievement.t) :=
  await db := get in
  ret (List.find
         (fun r => (ChildAchievement.child_id r =? childId)%string
                   && (ChildAchievement.achievement_id r =? achievementId)%string)
         (childAchievements db)).

Definition insert_childAchievement (row : ChildAchievement.t) : M unit :=
  await db := get in
  put {| users := users db; childProfiles := childProfiles db;
         taskAssignments := taskAssignments db; pointsLedger := pointsLedger db;
         achievements := achievements db;
         childAchievements := childAchievements db ++ [row];
         notifications := notifications db |}.

Definition findById_achievement (achievementId : string) : M (option Achievement.t) :=
  await db := get in
  ret (List.find (fun a => (Achievement.id a =? achievementId)%string)
         (achievements db)).

(** Modelled from the spec: [awardPoints] is called by [unlockAchievement]
    but is not part of the source.  Following the specification of the
    first unlock, it appends one ledger entry of type [bonus] with reference
    type [achievement_unlock], whose [balance_after] is the child's prior
    balance plus the amount. *)
Definition awardPoints (now : Z) (childId : string) (points : Z) (reason : string)
  : M unit :=
  await db := get in
  let entry :=
    {| PointsLedger.child_id := childId;
       PointsLedger.transaction_type := PointsLedger.bonus;
       PointsLedger.points_amount := points;
       PointsLedger.balance_after :=
         PointsLedger.sum_points_amount (pointsLedger db) childId + points;
       PointsLedger.reference_type := Some reason;
       PointsLedger.created_at := now |} in
  put {| users := users db; childProfiles := childProfiles db;
         taskAssignments := taskAssignments db;
         pointsLedger := pointsLedger db ++ [entry];
         achievements := achievements db;
         childAchievements := childAchievements db;
         notifications := notifications db |}.

(** The double quote character. *)
Definition dquote : string := String (Ascii.ascii_of_nat 34) EmptyString.

(** Modelled from the spec: [notificationService.send] is not part of the
    source; the notification handed to it is recorded, so that duplicate
    notifications can be counted. *)
Definition send (n : Notification.t) : M unit :=
  await db := get in
  put {| users := users db; childProfiles := childProfiles db;
         taskAssignments := taskAssignments db; pointsLedger := pointsLedger db;
         achievements := achievements db;
         childAchievements := childAchievements db;
         notifications := notifications db ++ [n] |}.

(** [now] is the instant returned by [new Date ()]. *)
Definition unlockAchievement (now : Z) (childId achievementId : string) : M unit :=
  await existing := findOne_childAchievement childId achievementId in
  match existing with
  | Some _ => ret tt
  | None =>
      perform insert_childAchievement
        {| ChildAchievement.child_id := childId;
           ChildAchievement.achievement_id := achievementId;
           ChildAchievement.unlocked_at := now |} in
      await found := findById_achievement achievementId in
      match found with
      | None => throw TypeError
      | Some achievement =>
          perform (if 0 <? Achievement.points_reward achievement
                 then awardPoints now childId
                        (Achievement.points_reward achievement) "achievement_unlock"
                 else ret tt) in
          send {| Notification.user_id := childId;
                  Notification.type := "achievement_unlocked";
                  Notification.title := "🏆 Achievement Unlocked!";
                  Notification.message :=
                    "You earned " ++ dquote ++ Achievement.name achievement
                    ++ dquote ++ "!" |}
      end
  end.

Definition findOne_childProfile (childId : string) : M (option ChildProfile.t) :=
  await db := get in
  ret (List.find (fun p => (ChildProfile.user_id p =? childId)%string)
         (childProfiles db)).

(** The [for (const achievement of achievements)] loop. *)
Fixpoint checkEach (now : Z) (childId : string) (child : option ChildProfile.t)
  (event : AchievementEvent) (l : list Achievement.t) : M unit :=
  match l with
  | [] => ret tt
  | achievement :: l' =>
      await unlocked := checkUnlockCriteria child achievement event in
      perform (if unlocked : bool
               then unlockAchievement now childId (Achievement.id achievement)
               else ret tt) in
      checkEach now childId child event l'
  end.

Definition checkAchievements (now : Z) (childId : string) (event : AchievementEvent)
  : M unit :=
  await child := findOne_childProfile childId in
  await db := get in
  checkEach now childId child event
    (List.filter Achievement.is_system_achievement (achievements db)).

(** The pre-built achievements, with the fields the engine reads; the
    identifiers stand for the keys the database generates. *)
Definition SYSTEM_ACHIEVEMENTS : list Achievement.t :=
  [ {| Achievement.id := "first-steps"; Achievement.name := "First Steps";
       Achievement.unlock_criteria_type := "tasks_completed";
       Achievement.unlock_criteria_value := 1;
       Achievement.unlock_criteria_config := None;
       Achievement.is_system_achievement := true;
       Achievement.points_reward := 10 |};
    {| Achievement.id := "task-warrior"; Achievement.name := "Task Warrior";
       Achievement.unlock_criteria_type := "tasks_completed";
       Achievement.unlock_criteria_value := 100;
       Achievement.unlock_criteria_config := None;
       Achievement.is_system_achievement := true;
       Achievement.points_reward := 100 |};
    {| Achievement.id := "week-strong"; Achievement.name := "Week Strong";
       Achievement.unlock_criteria_type := "streak_days";
       Achievement.unlock_criteria_value := 7;
       Achievement.unlock_criteria_config := None;
       Achievement.is_system_achievement := true;
       Achievement.points_reward := 50 |};
    {| Achievement.id := "cleaning-champion"; Achievement.name := "Cleaning Champion";
       Achievement.unlock_criteria_type := "category_master";
       Achievement.unlock_criteria_value := 25;
       Achievement.unlock_criteria_config :=
         Some {| Achievement.category := Some "cleaning";
                 Achievement.before_time := None |};
       Achievement.is_system_achievement := true;
       Achievement.points_reward := 50 |};
    {| Achievement.id := "early-bird"; Achievement.name := "Early Bird";
       Achievement.unlock_criteria_type := "time_based";
       Achievement.unlock_criteria_value := 10;
       Achievement.unlock_criteria_config :=
         Some {| Achievement.category := None;
                 Achievement.before_time := Some "08:00" |};
       Achievement.is_system_achievement := true;
       Achievement.points_reward := 75 |} ].

End AchievementEngine.

(** ** lib/gamification/leaderboard.ts *)

Module LeaderboardService.

(** Points, task counts, streaks and achievement counts are integers, and
    so are the weights below; sums and products of integers are exact in
    the arithmetic of the program, and [Math.round] leaves an integer as it
    is, so the score is computed in [Z]. *)
Record LeaderboardEntry : Type := {
  childId : string;
  childName : string;
  avatarUrl : option string;
  score : Z;
  rank : Z;
  weeklyPoints : Z;
  weeklyTasks : Z;
  currentStreak : Z;
  achievements : Z
}.

Record LeaderboardWeights : Type := {
  weeklyPoints_weight : Z;
  weeklyTasks_weight : Z;
  streakBonus : Z;
  achievementBonus : Z
}.

Definition DEFAULT_WEIGHTS : LeaderboardWeights :=
  {| weeklyPoints_weight := 1;
     weeklyTasks_weight := 5;
     streakBonus := 2;
     achievementBonus := 10 |}.

Inductive Period : Type :=
  | daily
  | weekly
  | monthly
  | all_time.

Record DateRange : Type := {
  range_start : Z;
  range_end : Z
}.

Definition in_range (r : DateRange) (t : Z) : bool :=
  (range_start r <=? t) && (t <=? range_end r).

Record ScoreData : Type := {
  data_weeklyPoints : Z;
  data_weeklyTasks : Z;
  data_currentStreak : Z;
  data_achievements : Z
}.

Section Service.

Variable weights : LeaderboardWeights.

(** [getDateRange] reads the clock and the time zone of the host; the range
    it returns for each period is a parameter here. *)
Variable getDateRange : Period -> DateRange.

Definition calculateScore (data : ScoreData) : Z :=
  data_weeklyPoints data * weeklyPoints_weight weights
  + data_weeklyTasks data * weeklyTasks_weight weights
  + data_currentStreak data * streakBonus weights
  + data_achievements data * achievementBonus weights.

(** The body of the [for (const child of children)] loop. *)
Definition entryOf (db : Db) (dateRange : DateRange) (child : User.t) : LeaderboardEntry :=
  let weeklyPoints :=
    fold_right Z.add 0
      (map PointsLedger.points_amount
         (List.filter
            (fun r =>
               (PointsLedger.child_id r =? User.id child)%string
               && PointsLedger.TransactionType_eqb
                    (PointsLedger.transaction_type r) PointsLedger.earned
               && in_range dateRange (PointsLedger.created_at r))
            (pointsLedger db))) in
  let weeklyTasks :=
    Z.of_nat (length
      (List.filter
         (fun a =>
            (TaskAssignment.child_id a =? User.id child)%string
            && (TaskAssignment.status a =? "approved")%string
            && match TaskAssignment.approved_at a with
               | Some t => in_range dateRange t
               | None => false
               end)
         (taskAssignments db))) in
  let profile :=
    List.find (fun p => (ChildProfile.user_id p =? User.id child)%string)
      (childProfiles db) in
  let currentStreak :=
    match profile with
    | Some p => ChildProfile.current_streak_days p
    | None => 0
    end in
  let achievements :=
    Z.of_nat (length
      (List.filter
         (fun r => (ChildAchievement.child_id r =? User.id child)%string)
         (childAchievements db))) in
  let score :=
    calculateScore {| data_weeklyPoints := weeklyPoints;
                      data_weeklyTasks := weeklyTasks;
                      data_currentStreak := currentStreak;
                      data_achievements := achievements |} in
  {| childId := User.id child;
     childName := User.first_name child;
     avatarUrl := User.avatar_url child;
     score := score;
     rank := 0;
     weeklyPoints := weeklyPoints;
     weeklyTasks := weeklyTasks;
     currentStreak := currentStreak;
     achievements := achievements |}.

Definition set_rank (entry : LeaderboardEntry) (r : Z) : LeaderboardEntry :=
  {| childId := childId entry;
     childName := childName entry;
     avatarUrl := avatarUrl entry;
     score := score entry;
     rank := r;
     weeklyPoints := weeklyPoints entry;
     weeklyTasks := weeklyTasks entry;
     currentStreak := currentStreak entry;
     achievements := achievements entry |}.

(** [entries.forEach ((entry, index) => { entry.rank = index + 1 })], from
    position [index] on. *)
Fixpoint assignRanks (index : Z) (entries : list LeaderboardEntry) : list LeaderboardEntry :=
  match entries with
  | [] => []
  | entry :: rest => set_rank entry (index + 1) :: assignRanks (index + 1) rest
  end.

(** The active children of the family, in the order the query yields
    them. *)
Definition activeChildren (db : Db) (familyId : string) : list User.t :=
  List.filter
    (fun u => (User.family_id u =? familyId)%string
              && (User.role u =? "child")%string
              && User.is_active u)
    (users db).

Definition getFamilyLeaderboard (db : Db) (familyId : string) (period : Period)
  : list LeaderboardEntry :=
  let dateRange := getDateRange period in
  let children := activeChildren db familyId in
  let entries := map (entryOf db dateRange) children in
  assignRanks 0 (sort_desc score entries).

End Service.

End LeaderboardService.

(** ** lib/gamification/levelSystem.ts: the XP of a task *)

Module TaskXp.

(** The values the column [difficulty] admits. *)
Inductive Difficulty : Type :=
  | easy
  | medium
  | hard.

(** The fields of a task that the function reads: the difficulty ([None]
    when the column is null) and the due date ([None] when there is none,
    otherwise the time value of [new Date (task.dueDate)]). *)
Record Task : Type := {
  difficulty : option Difficulty;
  dueDate : option number
}.

(** [baseXp[task.difficulty] || 15]. *)
Definition baseXp (d : option Difficulty) : number :=
  match d with
  | Some easy => num 10
  | Some medium => num 20
  | Some hard => num 35
  | None => num 15
  end.

(** [now] is the time value read from the clock during the call. *)
Definition calculateTaskXp (now : number) (task : Task) : number :=
  let xp := baseXp (difficulty task) in
  let xp :=
    match dueDate task with
    | Some due =>
        if SFltb now due then
          let hoursEarly := ((due - now) / num (1000 * 60 * 60))%js in
          if gt hoursEarly (num 24) then (xp * dec 125 100)%js
          else if gt hoursEarly (num 6) then (xp * dec 11 10)%js
          else xp
        else xp
    | None => xp
    end in
  Math_round xp.

End TaskXp.

(** ** Sample Data Constraints: the age group of a child profile *)

Module AgeGroups.

(** The values the column [age_group] admits besides null. *)
Inductive AgeGroup : Type :=
  | group_10_12
  | group_13_16.

Definition AgeGroup_eqb (a b : AgeGroup) : bool :=
  match a, b with
  | group_10_12, group_10_12 | group_13_16, group_13_16 => true
  | _, _ => false
  end.

(** The columns of [child_profiles] that the functions read and write. *)
Record row : Type := {
  user_id : string;
  date_of_birth : Z;
  age_group : option AgeGroup
}.

Section AtStatementTime.

(** [EXTRACT (YEAR FROM AGE (date_of_birth))] at the time of the
    statement: the full years since the date of birth. *)
Variable years_since : Z -> Z.

(** The [CASE] expression of both functions. *)
Definition age_group_of (date_of_birth : Z) : option AgeGroup :=
  let years := years_since date_of_birth in
  if (10 <=? years) && (years <=? 12) then Some group_10_12
  else if (13 <=? years) && (years <=? 16) then Some group_13_16
  else None.

(** The trigger function [update_age_group], run before each insert and
    update of a row. *)
Definition update_age_group (NEW : row) : row :=
  {| user_id := user_id NEW;
     date_of_birth := date_of_birth NEW;
     age_group := age_group_of (date_of_birth NEW) |}.

(** [a != b] in SQL: unknown ([None]) as soon as one side is null. *)
Definition sql_neq (a b : option AgeGroup) : option bool :=
  match a, b with
  | Some x, Some y => Some (negb (AgeGroup_eqb x y))
  | _, _ => None
  end.

(** [refresh_all_age_groups]: the [UPDATE] rewrites the rows for which the
    [WHERE] condition is true (not false, not unknown); each rewritten row
    passes through the trigger. *)
Definition refresh_all_age_groups (child_profiles : list row) : list row :=
  map (fun r =>
         match sql_neq (age_group r) (age_group_of (date_of_birth r)) with
         | Some true =>
             update_age_group
               {| user_id := user_id r;
                  date_of_birth := date_of_birth r;
                  age_group := age_group_of (date_of_birth r) |}
         | _ => r
         end)
      child_profiles.

(** [INSERT INTO child_profiles] of one row, through the trigger
    [set_age_group]. *)
Definition insert (child_profiles : list row) (NEW : row) : list row :=
  child_profiles ++ [update_age_group NEW].

End AtStatementTime.

End AgeGroups.

(** ** The Date object of the language, on a host at a fixed offset to UTC *)

Module JsDate.

(** Time values are milliseconds since 1 January 1970 UTC; the functions
    below are those by which the language defines the methods of [Date]. *)
Definition Day (t : Z) : Z := t / StreakSystem.MS_PER_DAY.

Definition TimeWithinDay (t : Z) : Z := t mod StreakSystem.MS_PER_DAY.

Definition DaysInYear (y : Z) : Z :=
  if negb (y mod 4 =? 0) then 365
  else if negb (y mod 100 =? 0) then 366
  else if negb (y mod 400 =? 0) then 365
  else 366.

Definition DayFromYear (y : Z) : Z :=
  365 * (y - 1970) + (y - 1969) / 4 - (y - 1901) / 100 + (y - 1601) / 400.

(** The largest year that starts on [day] or before it: one of the three
    years around the estimate from the mean length of a year. *)
Definition YearFromDay (day : Z) : Z :=
  let y := 1970 + 400 * day / 146097 in
  if DayFromYear (y + 1) <=? day then y + 1
  else if DayFromYear y <=? day then y
  else y - 1.

Definition YearFromTime (t : Z) : Z := YearFromDay (Day t).

Definition InLeapYear (t : Z) : Z :=
  if DaysInYear (YearFromTime t) =? 366 then 1 else 0.

Definition DayWithinYear (t : Z) : Z := Day t - DayFromYear (YearFromTime t).

(** Months are numbered from 0 (January) to 11. *)
Definition MonthFromTime (t : Z) : Z :=
  let d := DayWithinYear t in
  let leap := InLeapYear t in
  if d <? 31 then 0
  else if d <? 59 + leap then 1
  else if d <? 90 + leap then 2
  else if d <? 120 + leap then 3
  else if d <? 151 + leap then 4
  else if d <? 181 + leap then 5
  else if d <? 212 + leap then 6
  else if d <? 243 + leap then 7
  else if d <? 273 + leap then 8
  else if d <? 304 + leap then 9
  else if d <? 334 + leap then 10
  else 11.

Definition DateFromTime (t : Z) : Z :=
  let d := DayWithinYear t in
  let leap := InLeapYear t in
  match MonthFromTime t with
  | 0 => d + 1
  | 1 => d - 30
  | 2 => d - 58 - leap
  | 3 => d - 89 - leap
  | 4 => d - 119 - leap
  | 5 => d - 150 - leap
  | 6 => d - 180 - leap
  | 7 => d - 211 - leap
  | 8 => d - 242 - leap
  | 9 => d - 272 - leap
  | 10 => d - 303 - leap
  | _ => d - 333 - leap
  end.

Definition WeekDay (t : Z) : Z := (Day t + 4) mod 7.

Definition MakeTime (hour min sec ms : Z) : Z :=
  hour * StreakSystem.MS_PER_HOUR + min * 60000 + sec * 1000 + ms.

(** The day within a year on which month [mn] starts. *)
Definition DayFromMonth (mn leap : Z) : Z :=
  match mn with
  | 0 => 0
  | 1 => 31
  | 2 => 59 + leap
  | 3 => 90 + leap
  | 4 => 120 + leap
  | 5 => 151 + leap
  | 6 => 181 + leap
  | 7 => 212 + leap
  | 8 => 243 + leap
  | 9 => 273 + leap
  | 10 => 304 + leap
  | _ => 334 + leap
  end.

(** [MakeDay]: the day of the first of month [month mod 12] of the year
    [year + month / 12], moved by [date - 1] days; a month outside 0..11
    carries into the year, a date outside the month into the neighbouring
    months. *)
Definition MakeDay (year month date : Z) : Z :=
  let ym := year + month / 12 in
  let mn := month mod 12 in
  let leap := if DaysInYear ym =? 366 then 1 else 0 in
  DayFromYear ym + DayFromMonth mn leap + date - 1.

Definition MakeDate (day time : Z) : Z := day * StreakSystem.MS_PER_DAY + time.

Section Host.

(** The offset of the host's local time to UTC, in milliseconds; a zone
    that changes its offset during the year is outside this model. *)
Variable LocalTZA : Z.

Definition LocalTime (t : Z) : Z := t + LocalTZA.

Definition UTC (t : Z) : Z := t - LocalTZA.

Definition getDate (t : Z) : Z := DateFromTime (LocalTime t).

Definition getDay (t : Z) : Z := WeekDay (LocalTime t).

Definition getMonth (t : Z) : Z := MonthFromTime (LocalTime t).

Definition getFullYear (t : Z) : Z := YearFromTime (LocalTime t).

Definition setDate (t date : Z) : Z :=
  let t := LocalTime t in
  UTC (MakeDate (MakeDay (YearFromTime t) (MonthFromTime t) date)
                (TimeWithinDay t)).

Definition setHours (t hour min sec ms : Z) : Z :=
  let t := LocalTime t in
  UTC (MakeDate (Day t) (MakeTime hour min sec ms)).

Definition setFullYear (t year : Z) : Z :=
  let t := LocalTime t in
  UTC (MakeDate (MakeDay year (MonthFromTime t) (DateFromTime t))
                (TimeWithinDay t)).

End Host.

End JsDate.

(** ** lib/gamification/leaderboard.ts: the range of a period *)

Module LeaderboardDates.

Import JsDate LeaderboardService.

Section Host.

Variable LocalTZA : Z.

(** [getDateRange] reads the clock twice, first for [end] and then for
    [start]; the two readings are its first two arguments here. *)
Definition getDateRange (clock_end clock_start : Z) (period : Period)
  : DateRange :=
  let end_ := clock_end in
  let start := clock_start in
  let start :=
    match period with
    | daily => setHours LocalTZA start 0 0 0 0
    | weekly =>
        let start :=
          setDate LocalTZA start
                  (getDate LocalTZA start - getDay LocalTZA start) in
        setHours LocalTZA start 0 0 0 0
    | monthly =>
        let start := setDate LocalTZA start 1 in
        setHours LocalTZA start 0 0 0 0
    | all_time => setFullYear LocalTZA start 2020
    end in
  {| range_start := start; range_end := end_ |}.

End Host.

End LeaderboardDates.

(** ** Notions used to state the properties *)




(** The count that the criteria table names for [time_based]: the approved
    completions of the child whose time of day (UTC, in milliseconds after
    midnight) lies before the cutoff. *)
Definition completionsBeforeCutoff
  (taskAssignments : list TaskAssignment.t) (childId : string) (cutoff : Z) : Z :=
  Z.of_nat (length (List.filter
    (fun a =>
       (TaskAssignment.child_id a =? childId)%string
       && (TaskAssignment.status a =? "approved")%string
       && match TaskAssignment.approved_at a with
          | Some t => t mod StreakSystem.MS_PER_DAY <? cutoff
          | None => false
          end)
    taskAssignments)).

(** Calls of [unlockAchievement] for one child and achievement, one at each
    of the given instants. *)
Fixpoint unlock_calls (times : list Z) (childId achievementId : string)
  : AchievementEngine.M unit :=
  match times with
  | [] => AchievementEngine.ret tt
  | now :: later =>
      AchievementEngine.bind
        (AchievementEngine.unlockAchievement now childId achievementId)
        (fun _ => unlock_calls later childId achievementId)
  end.

(** The rows of [child_achievements] for one child and achievement. *)
Definition unlockedRecords (db : Db) (childId achievementId : string)
  : list ChildAchievement.t :=
  List.filter
    (fun r => (ChildAchievement.child_id r =? childId)%string
              && (ChildAchievement.achievement_id r =? achievementId)%string)
    (childAchievements db).

(** The record, the bonus entry and the notification of an unlock. *)
Definition unlock_record (now : Z) (childId achievementId : string)
  : ChildAchievement.t :=
  {| ChildAchievement.child_id := childId;
     ChildAchievement.achievement_id := achievementId;
     ChildAchievement.unlocked_at := now |}.

Definition unlock_bonus (db : Db) (now : Z) (childId : string)
  (achievement : Achievement.t) : PointsLedger.t :=
  {| PointsLedger.child_id := childId;
     PointsLedger.transaction_type := PointsLedger.bonus;
     PointsLedger.points_amount := Achievement.points_reward achievement;
     PointsLedger.balance_after :=
       PointsLedger.sum_points_amount (pointsLedger db) childId
       + Achievement.points_reward achievement;
     PointsLedger.reference_type := Some "achievement_unlock";
     PointsLedger.created_at := now |}.

Definition unlock_notification (childId : string) (achievement : Achievement.t)
  : Notification.t :=
  {| Notification.user_id := childId;
     Notification.type := "achievement_unlocked";
     Notification.title := "🏆 Achievement Unlocked!";
     Notification.message :=
       "You earned " ++ AchievementEngine.dquote ++ Achievement.name achievement
       ++ AchievementEngine.dquote ++ "!" |}.

(** The integer streaks 0 .. 200 and the milestone days, for the checks
    made by evaluation. *)
Definition streak_range : list Z := map Z.of_nat (seq 0 201).

Definition is_milestone (n : Z) : bool :=
  existsb (Z.eqb n) [3; 7; 14; 30; 60; 100].

Definition range_check (n : Z) : bool :=
  let r := BonusCalculator.calculateStreakBonus (num 100) (num n) in
  le (num 100) (BonusCalculator.totalPoints r)
  && negb (gt (BonusCalculator.streakMultiplier r) (dec 25 10))
  && match to_Z (BonusCalculator.milestoneBonus r) with
     | Some b => b =? (if is_milestone n then n * 5 else 0)
     | None => false
     end.

(** The timestamps of a list that fall on streak-day [d], and those that
    fall on [d] or earlier. *)
Definition on_day (config : StreakSystem.StreakConfig) (l : list Z) (d : Z) : Z :=
  Z.of_nat (length (List.filter (fun t => StreakSystem.getStreakDay config t =? d) l)).


(** A number that is not [NaN] and not below zero (a zero of either
    sign, a positive number or +infinity). *)
Definition nonnegative (x : number) : Prop :=
  match x with
  | S754_zero _ => True
  | S754_finite s _ _ => s = false
  | S754_infinity s => s = false
  | S754_nan => False
  end.

(** The database with another ledger table. *)
Definition set_pointsLedger (db : Db) (ledger : list PointsLedger.t) : Db :=
  {| users := users db; childProfiles := childProfiles db;
     taskAssignments := taskAssignments db;
     pointsLedger := ledger;
     achievements := achievements db;
     childAchievements := childAchievements db;
     notifications := notifications db |}.

(** [db'] is [db] with rows appended to [child_achievements],
    [points_ledger] and the notifications, and the same users, task
    assignments and catalog; the profiles are left open. *)
Definition appends_only (db db' : Db) : Prop :=
  users db' = users db
  /\ taskAssignments db' = taskAssignments db
  /\ achievements db' = achievements db
  /\ (exists added, childAchievements db' = childAchievements db ++ added)
  /\ (exists added, pointsLedger db' = pointsLedger db ++ added)
  /\ (exists added, notifications db' = notifications db ++ added).

(** The criteria types whose check reads the child's profile. *)
Definition reads_profile (achievement : Achievement.t) : bool :=
  existsb (String.eqb (Achievement.unlock_criteria_type achievement))
    ["streak_days"; "tasks_completed"; "points_earned"; "category_master"].

(** The achievements that [checkAchievements] iterates over. *)
Definition system_achievements (db : Db) : list Achievement.t :=
  List.filter Achievement.is_system_achievement (achievements db).

(** The ledger built from the empty table by one [INSERT] per row, in
    order; a rejected row leaves the table as it was. *)
Definition ledger_of (rows : list PointsLedger.t) : list PointsLedger.t :=
  fold_left (fun table row => fst (PointsLedger.insert table row)) rows [].

(** The XP a task can give, by difficulty: the base XP, the base with the
    10% bonus and the base with the 25% bonus, rounded. *)
Definition taskXp_values (d : option TaskXp.Difficulty) : Z * Z * Z :=
  match d with
  | Some TaskXp.easy => (10, 11, 13)
  | Some TaskXp.medium => (20, 22, 25)
  | Some TaskXp.hard => (35, 39, 44)
  | None => (15, 17, 19)
  end.

(** A sample clock for the age in years: days since the date of birth,
    divided by 365, on day 20000. *)
Definition sample_years_since (date_of_birth : Z) : Z :=
  (20000 - date_of_birth) / 365.

(** The number of days of month [mn] (0 to 11) in a year that has a leap
    day ([leap] = 1) or not ([leap] = 0). *)
Definition month_length (mn leap : Z) : Z :=
  match mn with
  | 1 => 28 + leap
  | 3 | 5 | 8 | 10 => 30
  | _ => 31
  end.

(** A time at local midnight on the host. *)
Definition local_midnight (LocalTZA t : Z) : Prop :=
  JsDate.TimeWithinDay (JsDate.LocalTime LocalTZA t) = 0.

(** The local day number of a time on the host. *)
Definition local_day (LocalTZA t : Z) : Z :=
  JsDate.Day (JsDate.LocalTime LocalTZA t).

(** The streak bonus over exact numbers, as its formulas are written: the
    multiplier in hundredths, [min (1 + streakDays * 0.05, 2.5)]; the bonus
    [basePoints * (multiplier - 1)] rounded to the nearest integer, a half
    upwards; the milestone bonus; their sum with the base. *)
Definition spec_multiplier_percent (streakDays : Z) : Z :=
  Z.min (100 + streakDays * 5) 250.

Definition spec_streakBonus (basePoints streakDays : Z) : Z :=
  (2 * basePoints * (spec_multiplier_percent streakDays - 100) + 100) / 200.

Definition spec_milestoneBonus (streakDays : Z) : Z :=
  if is_milestone streakDays then streakDays * 5 else 0.

Definition spec_totalPoints (basePoints streakDays : Z) : Z :=
  basePoints + spec_streakBonus basePoints streakDays
  + spec_milestoneBonus streakDays.

(** The integer base points 0 .. 100 and the streaks 0 .. 30, up to the
    cap of the multiplier, for the comparison made by evaluation: the
    multiplier of the program is the exact one to the nearest hundredth,
    its streak bonus is the exact one or one less, and its total is the sum
    of the base and its two bonuses. *)
Definition base_range : list Z := map Z.of_nat (seq 0 101).

Definition uncapped_range : list Z := map Z.of_nat (seq 0 31).

Definition exact_check (b n : Z) : bool :=
  let r := BonusCalculator.calculateStreakBonus (num b) (num n) in
  match to_Z (Math_round (BonusCalculator.streakMultiplier r * num 100)%js),
        to_Z (BonusCalculator.streakBonus r),
        to_Z (BonusCalculator.totalPoints r) with
  | Some m, Some sb, Some t =>
      (m =? spec_multiplier_percent n)
      && (spec_streakBonus b n - 1 <=? sb) && (sb <=? spec_streakBonus b n)
      && (t =? b + sb + spec_milestoneBonus n)
  | _, _, _ => false
  end.

(** From 30 days on the multiplier is the cap itself. *)
Definition cap_check (n : Z) : bool :=
  (n <? 30)
  || strict_eq
       (BonusCalculator.streakMultiplier
          (BonusCalculator.calculateStreakBonus (num 100) (num n)))
       (dec 25 10).


(** The users that a family's leaderboard ranks, and what it shows of each:
    the points of the child's ledger rows of type [earned] created within
    the range, the number of the child's approved assignments approved
    within the range, the streak of the child's first profile (0 without
    one) and the number of the child's unlock records. *)
Definition is_ranked (familyId : string) (u : User.t) : bool :=
  (User.family_id u =? familyId)%string
  && (User.role u =? "child")%string
  && User.is_active u.

Fixpoint earned_points (ledger : list PointsLedger.t)
  (r : LeaderboardService.DateRange) (child : string) : Z :=
  match ledger with
  | [] => 0
  | row :: rest =>
      match PointsLedger.transaction_type row with
      | PointsLedger.earned =>
          if (PointsLedger.child_id row =? child)%string
             && LeaderboardService.in_range r (PointsLedger.created_at row)
          then PointsLedger.points_amount row + earned_points rest r child
          else earned_points rest r child
      | _ => earned_points rest r child
      end
  end.

Fixpoint approved_tasks (assignments : list TaskAssignment.t)
  (r : LeaderboardService.DateRange) (child : string) : Z :=
  match assignments with
  | [] => 0
  | a :: rest =>
      match TaskAssignment.approved_at a with
      | Some t =>
          if (TaskAssignment.child_id a =? child)%string
             && (TaskAssignment.status a =? "approved")%string
             && LeaderboardService.in_range r t
          then 1 + approved_tasks rest r child
          else approved_tasks rest r child
      | None => approved_tasks rest r child
      end
  end.

Fixpoint streak_of (profiles : list ChildProfile.t) (child : string) : Z :=
  match profiles with
  | [] => 0
  | p :: rest =>
      if (ChildProfile.user_id p =? child)%string
      then ChildProfile.current_streak_days p
      else streak_of rest child
  end.

Fixpoint achievement_count (records : list ChildAchievement.t)
  (child : string) : Z :=
  match records with
  | [] => 0
  | r :: rest =>
      if (ChildAchievement.child_id r =? child)%string
      then 1 + achievement_count rest child
      else achievement_count rest child
  end.

(** The largest integer up to which every integer is a number of the
    program ([Number.MAX_SAFE_INTEGER]): sums and differences of integers
    that stay within it are exact. *)
Definition MAX_SAFE_INTEGER : Z := 2 ^ 53 - 1.

(** ** Sample data *)

Definition approved (childId : string) (t : Z) (category : string) : TaskAssignment.t :=
  {| TaskAssignment.child_id := childId;
     TaskAssignment.status := "approved";
     TaskAssignment.approved_at := Some t;
     TaskAssignment.task_category := category |}.

(** One completion at noon on each of the days 19000, 18999 and 18998, and
    an instant in the evening of day 19000. *)
Definition three_day_history : list TaskAssignment.t :=
  [ approved "child-1" (18998 * StreakSystem.MS_PER_DAY + 12 * StreakSystem.MS_PER_HOUR) "cleaning";
    approved "child-1" (18999 * StreakSystem.MS_PER_DAY + 12 * StreakSystem.MS_PER_HOUR) "cleaning";
    approved "child-1" (19000 * StreakSystem.MS_PER_DAY + 12 * StreakSystem.MS_PER_HOUR) "homework" ].

Definition evening_of_19000 : Z :=
  19000 * StreakSystem.MS_PER_DAY + 18 * StreakSystem.MS_PER_HOUR.

(** The first ledger entry of a child: 10 points earned, balance 10. *)
Definition first_entry : PointsLedger.t :=
  {| PointsLedger.child_id := "child-1";
     PointsLedger.transaction_type := PointsLedger.earned;
     PointsLedger.points_amount := 10;
     PointsLedger.balance_after := 10;
     PointsLedger.reference_type := Some "task_completion";
     PointsLedger.created_at := 0 |}.

(** Ten completions at 07:00 on ten consecutive days. *)
Definition early_history : list TaskAssignment.t :=
  map (fun d => approved "child-1"
                  ((19000 + Z.of_nat d) * StreakSystem.MS_PER_DAY
                   + 7 * StreakSystem.MS_PER_HOUR)
                  "cleaning")
      (seq 0 10).

Definition early_child : ChildProfile.t :=
  {| ChildProfile.user_id := "child-1";
     ChildProfile.current_streak_days := 10;
     ChildProfile.total_tasks_completed := 10;
     ChildProfile.total_points_earned := 200 |}.

Definition early_bird : Achievement.t :=
  {| Achievement.id := "early-bird"; Achievement.name := "Early Bird";
     Achievement.unlock_criteria_type := "time_based";
     Achievement.unlock_criteria_value := 10;
     Achievement.unlock_criteria_config :=
       Some {| Achievement.category := None;
               Achievement.before_time := Some "08:00" |};
     Achievement.is_system_achievement := true;
     Achievement.points_reward := 75 |}.

Definition task_approved : AchievementEngine.AchievementEvent :=
  {| AchievementEngine.event_type := "task_approved";
     AchievementEngine.taskCategory := "cleaning" |}.

Definition early_db : Db :=
  {| users := []; childProfiles := [early_child];
     taskAssignments := early_history;
     pointsLedger := []; achievements := AchievementEngine.SYSTEM_ACHIEVEMENTS;
     childAchievements := []; notifications := [] |}.



(** A family of two active children, Ben and Ada, with a deactivated child
    and a parent, beside a child of another family; the range of the period
    is 1000 .. 2000.  Ada has 30 points earned within the range (10 more
    before it, and a bonus of 50), one task approved within it, a streak of
    3 and one achievement: a score of 51.  Ben has 20 points, two tasks
    within the range (one after it, one pending), a streak of 7 and no
    achievement: a score of 44. *)
Definition user (id familyId role : string) (active : bool) (name : string)
  : User.t :=
  {| User.id := id; User.family_id := familyId; User.role := role;
     User.is_active := active; User.first_name := name;
     User.avatar_url := None |}.

Definition ledger_row (childId : string) (type : PointsLedger.TransactionType)
  (amount balance created : Z) : PointsLedger.t :=
  {| PointsLedger.child_id := childId;
     PointsLedger.transaction_type := type;
     PointsLedger.points_amount := amount;
     PointsLedger.balance_after := balance;
     PointsLedger.reference_type := None;
     PointsLedger.created_at := created |}.

Definition family_bonus_row : PointsLedger.t :=
  ledger_row "child-1" PointsLedger.bonus 50 40 1500.

Definition family_ledger_before : list PointsLedger.t :=
  [ ledger_row "child-1" PointsLedger.earned 10 0 500;
    ledger_row "child-2" PointsLedger.earned 20 0 1200;
    ledger_row "child-1" PointsLedger.earned 30 10 1500 ].

Definition family_ledger_after : list PointsLedger.t :=
  [ ledger_row "child-4" PointsLedger.earned 99 0 1500 ].

Definition family_db : Db :=
  {| users :=
       [ user "parent-1" "family-1" "parent" true "Pat";
         user "child-2" "family-1" "child" true "Ben";
         user "child-3" "family-1" "child" false "Cy";
         user "child-1" "family-1" "child" true "Ada";
         user "child-4" "family-2" "child" true "Dee" ];
     childProfiles :=
       [ {| ChildProfile.user_id := "child-1";
            ChildProfile.current_streak_days := 3;
            ChildProfile.total_tasks_completed := 2;
            ChildProfile.total_points_earned := 40 |};
         {| ChildProfile.user_id := "child-2";
            ChildProfile.current_streak_days := 7;
            ChildProfile.total_tasks_completed := 3;
            ChildProfile.total_points_earned := 20 |} ];
     taskAssignments :=
       [ approved "child-1" 1500 "cleaning";
         approved "child-2" 1100 "cleaning";
         approved "child-2" 1900 "homework";
         approved "child-2" 2500 "homework";
         {| TaskAssignment.child_id := "child-2";
            TaskAssignment.status := "pending";
            TaskAssignment.approved_at := None;
            TaskAssignment.task_category := "cleaning" |} ];
     pointsLedger :=
       family_ledger_before ++ family_bonus_row :: family_ledger_after;
     achievements := AchievementEngine.SYSTEM_ACHIEVEMENTS;
     childAchievements :=
       [ {| ChildAchievement.child_id := "child-1";
            ChildAchievement.achievement_id := "first-steps";
            ChildAchievement.unlocked_at := 1500 |} ];
     notifications := [] |}.

Definition family_range (period : LeaderboardService.Period)
  : LeaderboardService.DateRange :=
  {| LeaderboardService.range_start := 1000;
     LeaderboardService.range_end := 2000 |}.


(** * Properties *)

(** ** Level system *)

Section LevelSystemFacts.

Import LevelSystem.

Lemma xpRequiredForLevel_nonneg (l : Z) : 0 <= xpRequiredForLevel l.
Proof.
  unfold xpRequiredForLevel.
  destruct (l <=? 0); [lia | apply Z.sqrt_nonneg].
Qed.

Lemma xpRequiredForLevel_pos (l : Z) : 1 <= l -> 0 < xpRequiredForLevel l.
Proof.
  intros Hl. unfold xpRequiredForLevel, BASE_XP.
  destruct (Z.leb_spec l 0) as [H | _]; [lia |].
  apply Z.sqrt_pos.
  assert (0 < l ^ 3) by (apply Z.pow_pos_nonneg; lia).
  lia.
Qed.

Lemma cumulativeLoop_acc (n : nat) (i total : Z) :
  cumulativeLoop n i total = total + cumulativeLoop n i 0.
Proof.
  revert i total.
  induction n as [| n IH]; intros i total; simpl.
  - lia.
  - rewrite (IH (i + 1) (total + xpRequiredForLevel i)).
    rewrite (IH (i + 1) (0 + xpRequiredForLevel i)).
    lia.
Qed.

Lemma cumulativeLoop_nonneg (n : nat) (i : Z) : 0 <= cumulativeLoop n i 0.
Proof.
  revert i.
  induction n as [| n IH]; intros i; simpl; [lia |].
  rewrite cumulativeLoop_acc.
  pose proof (IH (i + 1)). pose proof (xpRequiredForLevel_nonneg i). lia.
Qed.

(** The loop of [levelFromXp] leaves through its exit: after
    [MAX_LEVEL - level] iterations at most, either the level cap is reached
    or the remainder is below the next requirement. *)
Lemma levelLoop_exit (n : nat) (l xp : Z) :
  MAX_LEVEL - l <= Z.of_nat n ->
  let '(l', xp') := levelLoop n l xp in
  MAX_LEVEL <= l' \/ xp' < xpRequiredForLevel l'.
Proof.
  revert l xp.
  induction n as [| n IH]; intros l xp Hn; simpl.
  - left. lia.
  - destruct (Z.ltb_spec l MAX_LEVEL) as [Hl | Hl]; [| left; lia].
    destruct (Z.ltb_spec xp (xpRequiredForLevel l)) as [Hxp | Hxp].
    + right. exact Hxp.
    + apply IH. lia.
Qed.

(** Fed with the XP of the levels [l .. l + n - 1] and a remainder [R] that
    does not complete level [l + n] (or with [l + n] the level cap), the
    loop climbs from level [l] to level [l + n] and leaves [R]. *)
Lemma levelLoop_cumulative (n fuel : nat) (l R : Z) :
  1 <= l ->
  l + Z.of_nat n <= MAX_LEVEL ->
  (n <= fuel)%nat ->
  0 <= R ->
  l + Z.of_nat n = MAX_LEVEL \/ R < xpRequiredForLevel (l + Z.of_nat n) ->
  levelLoop fuel l (cumulativeLoop n l 0 + R) = (l + Z.of_nat n, R).
Proof.
  revert fuel l.
  induction n as [| n IH]; intros fuel l Hl Hmax Hfuel HR Hstop.
  - cbn [cumulativeLoop]. replace (l + Z.of_nat 0) with l in * by lia.
    replace (0 + R) with R by lia.
    destruct fuel as [| fuel]; cbn [levelLoop]; [reflexivity |].
    destruct (Z.ltb_spec l MAX_LEVEL) as [Hlt | _]; [| reflexivity].
    destruct (Z.ltb_spec R (xpRequiredForLevel l)); [reflexivity | lia].
  - destruct fuel as [| fuel]; [lia |].
    cbn [cumulativeLoop]. rewrite cumulativeLoop_acc. cbn [levelLoop].
    destruct (Z.ltb_spec l MAX_LEVEL) as [_ | Hge]; [| lia].
    pose proof (cumulativeLoop_nonneg n (l + 1)) as Hrest.
    destruct (Z.ltb_spec (0 + xpRequiredForLevel l + cumulativeLoop n (l + 1) 0 + R)
                (xpRequiredForLevel l)) as [Hlt | _]; [lia |].
    replace (0 + xpRequiredForLevel l + cumulativeLoop n (l + 1) 0 + R
             - xpRequiredForLevel l)
      with (cumulativeLoop n (l + 1) 0 + R) by lia.
    replace (l + Z.of_nat (S n)) with (l + 1 + Z.of_nat n) in * by lia.
    apply IH; [lia | lia | lia | exact HR | exact Hstop].
Qed.

Lemma cumulativeLoop_app (n m : nat) (i : Z) :
  cumulativeLoop (n + m) i 0
  = cumulativeLoop n i 0 + cumulativeLoop m (i + Z.of_nat n) 0.
Proof.
  revert i.
  induction n as [| n IH]; intros i.
  - cbn [Nat.add cumulativeLoop]. replace (i + Z.of_nat 0) with i by lia. lia.
  - cbn [Nat.add cumulativeLoop].
    rewrite (cumulativeLoop_acc (n + m)), (cumulativeLoop_acc n), IH.
    replace (i + 1 + Z.of_nat n) with (i + Z.of_nat (S n)) by lia. lia.
Qed.

(** The level is [L] exactly on the XP from the cumulative XP of the levels
    below [L] up to, and excluding, that of the levels up to [L]. *)
Lemma levelFromXp_between (L xp : Z) :
  1 <= L -> L < MAX_LEVEL ->
  cumulativeXpForLevel (L - 1) <= xp < cumulativeXpForLevel L ->
  level (levelFromXp xp) = L
  /\ currentXp (levelFromXp xp) = xp - cumulativeXpForLevel (L - 1).
Proof.
  intros H1 Hmax Hxp. unfold cumulativeXpForLevel in Hxp.
  replace (Z.to_nat L) with (Z.to_nat (L - 1) + 1)%nat in Hxp by lia.
  rewrite cumulativeLoop_app in Hxp. cbn [cumulativeLoop] in Hxp.
  replace (1 + Z.of_nat (Z.to_nat (L - 1))) with L in Hxp by lia.
  unfold levelFromXp, cumulativeXpForLevel.
  replace xp with (cumulativeLoop (Z.to_nat (L - 1)) 1 0
                   + (xp - cumulativeLoop (Z.to_nat (L - 1)) 1 0)) at 1 2 by lia.
  rewrite levelLoop_cumulative; unfold MAX_LEVEL in *; try lia.
  - cbn [level currentXp]. split; lia.
  - right. replace (1 + Z.of_nat (Z.to_nat (L - 1))) with L by lia. lia.
Qed.

(** At the cap the level stays 100 and the XP beyond level 99 is kept. *)
Lemma levelFromXp_capped (xp : Z) :
  cumulativeXpForLevel (MAX_LEVEL - 1) <= xp ->
  level (levelFromXp xp) = MAX_LEVEL
  /\ currentXp (levelFromXp xp) = xp - cumulativeXpForLevel (MAX_LEVEL - 1).
Proof.
  intros Hxp. unfold levelFromXp, cumulativeXpForLevel in *.
  replace xp with (cumulativeLoop (Z.to_nat (MAX_LEVEL - 1)) 1 0
                   + (xp - cumulativeLoop (Z.to_nat (MAX_LEVEL - 1)) 1 0)) at 1 2 by lia.
  rewrite levelLoop_cumulative; unfold MAX_LEVEL in *; try lia.
  cbn [level currentXp]. split; lia.
Qed.

(** C2, as stated, fails at level 1: the 100 XP that complete level 1 put
    the child on level 2.  At the cap nothing is left to climb: the XP of
    the levels 1 .. 100 gives level 100 with the 100000 XP of level 100 as
    remainder. *)
Lemma levelFromXp_cumulative_level_1 :
  level (levelFromXp (cumulativeXpForLevel 1)) = 2
  /\ ~ (level (levelFromXp (cumulativeXpForLevel 1)) = 1
        /\ currentXp (levelFromXp (cumulativeXpForLevel 1)) = 0)
  /\ level (levelFromXp (cumulativeXpForLevel 100)) = 100
  /\ currentXp (levelFromXp (cumulativeXpForLevel 100)) = 100000.
Proof.
  split; [| split; [| split]].
  - vm_compute. reflexivity.
  - intros [H _]. vm_compute in H. discriminate H.
  - vm_compute. reflexivity.
  - vm_compute. reflexivity.
Qed.

(** C2 (amended): below the level cap, the cumulative XP of the levels
    [1 .. L] is exactly what completes level [L]: [levelFromXp] returns
    level [L + 1] with [currentXp = 0]. *)
Theorem levelFromXp_cumulativeXpForLevel (L : Z) :
  1 <= L -> L < MAX_LEVEL ->
  level (levelFromXp (cumulativeXpForLevel L)) = L + 1
  /\ currentXp (levelFromXp (cumulativeXpForLevel L)) = 0.
Proof.
  intros H1 Hmax. unfold MAX_LEVEL in Hmax.
  unfold levelFromXp, cumulativeXpForLevel.
  replace (cumulativeLoop (Z.to_nat L) 1 0)
    with (cumulativeLoop (Z.to_nat L) 1 0 + 0) by lia.
  rewrite (levelLoop_cumulative (Z.to_nat L) (Z.to_nat (MAX_LEVEL - 1)) 1 0);
    [| lia | unfold MAX_LEVEL; lia | unfold MAX_LEVEL; lia | lia |].
  - cbn [level currentXp]. split; lia.
  - right. apply xpRequiredForLevel_pos. lia.
Qed.

Lemma levelFromXp_cumulativeXpForLevel_witness :
  level (levelFromXp (cumulativeXpForLevel 3)) = 3 + 1
  /\ currentXp (levelFromXp (cumulativeXpForLevel 3)) = 0.
Proof.
  apply (levelFromXp_cumulativeXpForLevel 3); unfold MAX_LEVEL; lia.
Defined.

End LevelSystemFacts.

(** ** Bonus calculator *)

Section BonusCalculatorFacts.

Import BonusCalculator.

(** The literals and the rounding of the program's numbers, on examples:
    0.05 is the double 0x1.999999999999ap-5, [Math.round] takes 2.5 to 3,
    -2.5 to -2 and -0.25 to -0. *)
Example number_model_examples :
  STREAK_MULTIPLIER = S754_finite false 7205759403792794 (-57)
  /\ Math_round (dec 25 10) = num 3
  /\ Math_round (dec (-25) 10) = num (-2)
  /\ Math_round (dec (-1) 4) = S754_zero true
  /\ to_Z (num 35) = Some 35.
Proof. vm_compute. repeat split; reflexivity. Qed.

Lemma MAX_STREAK_BONUS_value :
  MAX_STREAK_BONUS = S754_finite false 5629499534213120 (-51).
Proof. vm_compute. reflexivity. Qed.

(** [Math.min (x, 2.5)] is never above 2.5. *)
Lemma Math_min_cap (x : number) :
  gt (Math_min x MAX_STREAK_BONUS) MAX_STREAK_BONUS = false.
Proof.
  rewrite MAX_STREAK_BONUS_value. unfold gt, Math_min.
  destruct x as [s | s | | s m e]; try reflexivity;
    match goal with
    | |- context [if SFltb ?a ?b then _ else _] =>
        destruct (SFltb a b) eqn:E; [reflexivity | exact E]
    end.
Qed.

Lemma includes_milestones (s : number) :
  includes STREAK_MILESTONES s = true
  <-> exists m, In m [3; 7; 14; 30; 60; 100] /\ strict_eq (num m) s = true.
Proof.
  unfold includes, STREAK_MILESTONES. rewrite existsb_exists. split.
  - intros [y [Hy Heq]]. apply in_map_iff in Hy as [m [<- Hm]].
    exists m. split; [exact Hm |].
    unfold sameValueZero in Heq.
    simpl in Hm.
    destruct Hm as [<- | [<- | [<- | [<- | [<- | [<- | []]]]]]]; exact Heq.
  - intros [m [Hm Heq]]. exists (num m). split; [apply in_map; exact Hm |].
    unfold sameValueZero.
    simpl in Hm.
    destruct Hm as [<- | [<- | [<- | [<- | [<- | [<- | []]]]]]]; exact Heq.
Qed.

Lemma range_check_all : forallb range_check streak_range = true.
Proof. vm_compute. reflexivity. Qed.

Lemma range_check_at (n : Z) : 0 <= n <= 200 -> range_check n = true.
Proof.
  intros Hn.
  pose proof range_check_all as H. rewrite forallb_forall in H.
  apply H. unfold streak_range. apply in_map_iff.
  exists (Z.to_nat n). split; [lia | apply in_seq; lia].
Qed.

Lemma exact_check_all :
  forallb (fun b => forallb (exact_check b) uncapped_range) base_range = true.
Proof. vm_compute. reflexivity. Qed.

Lemma exact_check_at (b n : Z) :
  0 <= b <= 100 -> 0 <= n <= 30 -> exact_check b n = true.
Proof.
  intros Hb Hn.
  pose proof exact_check_all as H. rewrite forallb_forall in H.
  assert (Hin : In b base_range).
  { unfold base_range. apply in_map_iff.
    exists (Z.to_nat b). split; [lia | apply in_seq; lia]. }
  specialize (H b Hin). rewrite forallb_forall in H.
  apply H. unfold uncapped_range. apply in_map_iff.
  exists (Z.to_nat n). split; [lia | apply in_seq; lia].
Qed.

Lemma cap_check_all : forallb cap_check streak_range = true.
Proof. vm_compute. reflexivity. Qed.

Lemma cap_check_at (n : Z) : 30 <= n <= 200 ->
  strict_eq (streakMultiplier (calculateStreakBonus (num 100) (num n)))
    (dec 25 10) = true.
Proof.
  intros Hn.
  pose proof cap_check_all as H. rewrite forallb_forall in H.
  assert (Hin : In n streak_range).
  { unfold streak_range. apply in_map_iff.
    exists (Z.to_nat n). split; [lia | apply in_seq; lia]. }
  specialize (H n Hin). unfold cap_check in H.
  apply orb_prop in H as [H | H]; [apply Z.ltb_lt in H; lia | exact H].
Qed.

(** C3: what [calculateStreakBonus] returns, against the formulas over exact
    numbers.  For all numbers: the milestone bonus is [streakDays * 5]
    exactly when [streakDays] is one of 3, 7, 14, 30, 60, 100 and 0
    otherwise, and the multiplier never exceeds 2.5.  At 100 base points
    every streak [n] in [0, 200] gives a total of at least 100, a
    multiplier of at most 2.5 (2.5 itself from 30 days on) and a milestone
    bonus of [5 n] on a milestone and 0 elsewhere, 35 at 7 and 0 at 8.  For
    integer base points [b] in [0, 100] and streaks up to the cap the
    multiplier is the exact one to the nearest hundredth and the total is
    the sum of the base and the two bonuses, but the streak bonus is the
    exact [round (b * (multiplier - 1))] or one less: 10 base points on a
    3-day streak earn a streak bonus of 1 and a total of 26, where the
    exact formulas give 2 and 27. *)
Theorem calculateStreakBonus_spec (basePoints streakDays : number) (b n : Z) :
  0 <= b <= 100 ->
  0 <= n <= 200 ->
  let r := calculateStreakBonus basePoints streakDays in
  let r100 := calculateStreakBonus (num 100) (num n) in
  let rb := calculateStreakBonus (num b) (num n) in
  ((exists m, In m [3; 7; 14; 30; 60; 100] /\ strict_eq (num m) streakDays = true)
      -> milestoneBonus r = (streakDays * num 5)%js)
  /\ (~ (exists m, In m [3; 7; 14; 30; 60; 100] /\ strict_eq (num m) streakDays = true)
      -> milestoneBonus r = num 0)
  /\ gt (streakMultiplier r) (dec 25 10) = false
  /\ le (num 100) (totalPoints r100) = true
  /\ gt (streakMultiplier r100) (dec 25 10) = false
  /\ (30 <= n -> strict_eq (streakMultiplier r100) (dec 25 10) = true)
  /\ to_Z (milestoneBonus r100) = Some (spec_milestoneBonus n)
  /\ milestoneBonus (calculateStreakBonus (num 100) (num 7)) = num 35
  /\ milestoneBonus (calculateStreakBonus (num 100) (num 8)) = num 0
  /\ (n <= 30 ->
      to_Z (Math_round (streakMultiplier rb * num 100)%js)
      = Some (spec_multiplier_percent n)
      /\ exists sb,
           to_Z (streakBonus rb) = Some sb
           /\ spec_streakBonus b n - 1 <= sb <= spec_streakBonus b n
           /\ to_Z (totalPoints rb) = Some (b + sb + spec_milestoneBonus n))
  /\ to_Z (streakBonus (calculateStreakBonus (num 10) (num 3))) = Some 1
  /\ spec_streakBonus 10 3 = 2
  /\ to_Z (totalPoints (calculateStreakBonus (num 10) (num 3))) = Some 26
  /\ spec_totalPoints 10 3 = 27.
Proof.
  intros Hb Hn r r100 rb.
  pose proof (range_check_at n Hn) as Hc. unfold range_check in Hc.
  apply andb_prop in Hc as [Hc Hm]. apply andb_prop in Hc as [Ht Hcap].
  split; [| split; [| split; [| split; [| split; [| split; [| split;
    [| split; [| split; [| split; [| split; [| split; [| split]]]]]]]]]]]].
  - intros Hin. apply includes_milestones in Hin.
    subst r. unfold calculateStreakBonus. cbn [milestoneBonus].
    rewrite Hin. reflexivity.
  - intros Hout.
    subst r. unfold calculateStreakBonus. cbn [milestoneBonus].
    destruct (includes STREAK_MILESTONES streakDays) eqn:E; [| reflexivity].
    apply includes_milestones in E. contradiction.
  - apply (Math_min_cap (num 1 + streakDays * STREAK_MULTIPLIER)%js).
  - exact Ht.
  - apply negb_true_iff in Hcap. exact Hcap.
  - intros H30. apply cap_check_at. lia.
  - subst r100.
    destruct (to_Z (milestoneBonus (calculateStreakBonus (num 100) (num n))))
      as [m |]; [| discriminate Hm].
    apply Z.eqb_eq in Hm. rewrite Hm. reflexivity.
  - vm_compute. reflexivity.
  - vm_compute. reflexivity.
  - intros H30.
    pose proof (exact_check_at b n Hb ltac:(lia)) as He.
    unfold exact_check in He. fold rb in He.
    destruct (to_Z (Math_round (streakMultiplier rb * num 100)%js))
      as [m |]; [| discriminate He].
    destruct (to_Z (streakBonus rb)) as [sb |]; [| discriminate He].
    destruct (to_Z (totalPoints rb)) as [t |]; [| discriminate He].
    apply andb_prop in He as [He Htot]. apply andb_prop in He as [He Hhi].
    apply andb_prop in He as [Hmul Hlo].
    apply Z.eqb_eq in Hmul, Htot. apply Z.leb_le in Hlo, Hhi.
    split; [rewrite Hmul; reflexivity |].
    exists sb. split; [reflexivity | split; [lia | rewrite Htot; reflexivity]].
  - vm_compute. reflexivity.
  - vm_compute. reflexivity.
  - vm_compute. reflexivity.
  - vm_compute. reflexivity.
Qed.

Lemma calculateStreakBonus_spec_witness :
  (exists sb,
     to_Z (streakBonus (calculateStreakBonus (num 30) (num 9))) = Some sb
     /\ 13 <= sb <= 14)
  /\ le (num 100) (totalPoints (calculateStreakBonus (num 100) (num 9))) = true.
Proof.
  destruct (calculateStreakBonus_spec (num 30) (num 9) 30 9 ltac:(lia) ltac:(lia))
    as (_ & _ & _ & Hge & _ & _ & _ & _ & _ & Hgrid & _).
  destruct (Hgrid ltac:(lia)) as (_ & sb & Hsb & Hbound & _).
  split; [| exact Hge].
  exists sb. split; [exact Hsb |].
  change (spec_streakBonus 30 9) with 14 in Hbound. lia.
Defined.

(** The rounding is that of the program's numbers: 30 base points on a
    9-day streak earn 13 bonus points (the product is just below 13.5). *)
Example calculateStreakBonus_30_9 :
  to_Z (streakBonus (calculateStreakBonus (num 30) (num 9))) = Some 13.
Proof. vm_compute. reflexivity. Qed.

(** C9, as stated, fails: negative arguments are not rejected. *)
Lemma negative_arguments_not_rejected :
  ~ rejects (returns (calculateStreakBonus (num (-100)) (num 3)))
  /\ ~ rejects (returns (calculateStreakBonus (num 100) (num (-3))))
  /\ ~ rejects (returns (calculateEarlyCompletionBonus
                            (num (-100)) (num (48 * 3600000)) (num 0)))
  /\ ~ rejects (returns (LevelSystem.xpRequiredForLevel (-1)))
  /\ ~ rejects (returns (LevelSystem.cumulativeXpForLevel (-1))).
Proof.
  repeat split; intros [e He]; discriminate He.
Qed.

(** C9 (amended): the core functions do not validate their numeric
    arguments.  For a level at or below 0, [xpRequiredForLevel] and
    [cumulativeXpForLevel] return 0; [calculateStreakBonus] and
    [calculateEarlyCompletionBonus] return a computed result for every
    argument, negative ones included: a negative base is passed through to
    the breakdown, and 100 negative base points on a 3-day streak total
    -100. *)
Theorem negative_arguments_are_computed
  (level : Z) (basePoints streakDays dueDate completedAt : number) :
  level <= 0 ->
  returns (LevelSystem.xpRequiredForLevel level) = Normal 0
  /\ returns (LevelSystem.cumulativeXpForLevel level) = Normal 0
  /\ ~ rejects (returns (calculateStreakBonus basePoints streakDays))
  /\ base (breakdown (calculateStreakBonus basePoints streakDays)) = basePoints
  /\ ~ rejects (returns (calculateEarlyCompletionBonus basePoints dueDate completedAt))
  /\ to_Z (totalPoints (calculateStreakBonus (num (-100)) (num 3))) = Some (-100)
  /\ to_Z (calculateEarlyCompletionBonus (num (-100)) (num (48 * 3600000)) (num 0))
     = Some (-25).
Proof.
  intros Hlevel.
  split; [| split; [| split; [| split; [| split; [| split]]]]].
  - unfold returns, LevelSystem.xpRequiredForLevel.
    destruct (Z.leb_spec level 0); [reflexivity | lia].
  - unfold returns, LevelSystem.cumulativeXpForLevel.
    replace (Z.to_nat level) with O by lia. reflexivity.
  - intros [e He]. discriminate He.
  - reflexivity.
  - intros [e He]. discriminate He.
  - vm_compute. reflexivity.
  - vm_compute. reflexivity.
Qed.

Lemma negative_arguments_are_computed_witness :
  returns (LevelSystem.xpRequiredForLevel (-2)) = Normal 0
  /\ returns (LevelSystem.cumulativeXpForLevel (-2)) = Normal 0.
Proof.
  destruct (negative_arguments_are_computed (-2) (num (-100)) (num (-1))
              (num 10) (num 0) ltac:(lia)) as (H1 & H2 & _).
  split; [exact H1 | exact H2].
Defined.

End BonusCalculatorFacts.

(** ** Streak system: streak-days *)

Section StreakDayFacts.

Import StreakSystem.

Lemma getStreakDay_previousDay (config : StreakConfig) (t : Z) :
  getStreakDay config (previousDay t) = getStreakDay config t - 1.
Proof.
  unfold getStreakDay, previousDay, utcDate.
  replace (t - MS_PER_DAY - gracePeriodHours config * 60 * 60 * 1000)
    with (t - gracePeriodHours config * 60 * 60 * 1000 + (-1) * MS_PER_DAY) by lia.
  rewrite Z.div_add by (unfold MS_PER_DAY, MS_PER_HOUR; lia).
  lia.
Qed.

(** The streak-day of the instant [ms] milliseconds into the UTC day [D]:
    the day before as long as the grace period has not run out. *)
Lemma getStreakDay_in_day (config : StreakConfig) (D ms : Z) :
  0 <= gracePeriodHours config <= 24 ->
  0 <= ms < MS_PER_DAY ->
  getStreakDay config (D * MS_PER_DAY + ms)
  = if ms <? gracePeriodHours config * MS_PER_HOUR then D - 1 else D.
Proof.
  intros Hg Hms. unfold getStreakDay, utcDate.
  unfold MS_PER_DAY, MS_PER_HOUR in *.
  destruct (Z.ltb_spec ms (gracePeriodHours config * (60 * 60 * 1000))) as [Hlt | Hge].
  - symmetry. apply (Z.div_unique _ _ _
      (ms - gracePeriodHours config * (60 * 60 * 1000) + 24 * (60 * 60 * 1000))); lia.
  - symmetry. apply (Z.div_unique _ _ _
      (ms - gracePeriodHours config * (60 * 60 * 1000))); lia.
Qed.

(** The streak-day of [t] is the day whose 24 hours contain the instant
    [gracePeriodHours] hours before [t]. *)
Lemma getStreakDay_bounds (config : StreakConfig) (t : Z) :
  getStreakDay config t * MS_PER_DAY
    <= t - gracePeriodHours config * MS_PER_HOUR
    < (getStreakDay config t + 1) * MS_PER_DAY.
Proof.
  unfold getStreakDay, utcDate, MS_PER_HOUR.
  replace (gracePeriodHours config * 60 * 60 * 1000)
    with (gracePeriodHours config * (60 * 60 * 1000)) by lia.
  set (a := t - gracePeriodHours config * (60 * 60 * 1000)).
  assert (Hpos : 0 < MS_PER_DAY) by (unfold MS_PER_DAY, MS_PER_HOUR; lia).
  pose proof (Z.mul_div_le a MS_PER_DAY Hpos).
  pose proof (Z.mul_succ_div_gt a MS_PER_DAY Hpos).
  lia.
Qed.

(** C5: the streak-day of [t] is the UTC calendar date of the instant
    [gracePeriodHours] hours before [t], that is the day whose 24 hours
    contain that instant; with a grace period of 4 hours, 01:30 on day [D]
    belongs to streak-day [D - 1] and 05:00 on day [D] to streak-day [D]. *)
Theorem getStreakDay_spec (config : StreakConfig) (t D : Z) :
  getStreakDay config t = utcDate (t - gracePeriodHours config * MS_PER_HOUR)
  /\ (getStreakDay config t * MS_PER_DAY
        <= t - gracePeriodHours config * MS_PER_HOUR
        < (getStreakDay config t + 1) * MS_PER_DAY)
  /\ (gracePeriodHours config = 4 ->
      getStreakDay config (D * MS_PER_DAY + 1 * MS_PER_HOUR + 30 * 60 * 1000) = D - 1
      /\ getStreakDay config (D * MS_PER_DAY + 5 * MS_PER_HOUR) = D).
Proof.
  split; [| split; [| intros Hg; split]].
  - unfold getStreakDay, MS_PER_HOUR. f_equal. lia.
  - apply getStreakDay_bounds.
  - replace (D * MS_PER_DAY + 1 * MS_PER_HOUR + 30 * 60 * 1000)
      with (D * MS_PER_DAY + (1 * MS_PER_HOUR + 30 * 60 * 1000)) by lia.
    rewrite getStreakDay_in_day;
      [| lia | unfold MS_PER_DAY, MS_PER_HOUR; lia].
    rewrite Hg. reflexivity.
  - rewrite getStreakDay_in_day;
      [| lia | unfold MS_PER_DAY, MS_PER_HOUR; lia].
    rewrite Hg. reflexivity.
Qed.

Lemma getStreakDay_spec_witness :
  getStreakDay DEFAULT_CONFIG (19000 * MS_PER_DAY + 1 * MS_PER_HOUR + 30 * 60 * 1000)
  = 19000 - 1
  /\ getStreakDay DEFAULT_CONFIG (19000 * MS_PER_DAY + 5 * MS_PER_HOUR) = 19000.
Proof.
  destruct (getStreakDay_spec DEFAULT_CONFIG 0 19000) as (_ & _ & H).
  apply H. reflexivity.
Defined.

(** C10: two configurations that differ only in [timezoneOffset] give the
    same streak-day to every timestamp and the same result of
    [calculateStreak] on every history: the field is never read. *)
Theorem timezoneOffset_is_ignored
  (config1 config2 : StreakConfig)
  (taskAssignments : list TaskAssignment.t) (now t : Z) (childId : string) :
  gracePeriodHours config1 = gracePeriodHours config2 ->
  minimumTasksPerDay config1 = minimumTasksPerDay config2 ->
  getStreakDay config1 t = getStreakDay config2 t
  /\ calculateStreak config1 taskAssignments now childId
     = calculateStreak config2 taskAssignments now childId.
Proof.
  destruct config1 as [g1 tz1 m1], config2 as [g2 tz2 m2].
  simpl. intros -> ->. split; reflexivity.
Qed.

Lemma timezoneOffset_is_ignored_witness :
  getStreakDay DEFAULT_CONFIG 5400000
  = getStreakDay {| gracePeriodHours := 4; timezoneOffset := -300;
                    minimumTasksPerDay := 1 |} 5400000
  /\ calculateStreak DEFAULT_CONFIG [] 5400000 "child"
     = calculateStreak {| gracePeriodHours := 4; timezoneOffset := -300;
                          minimumTasksPerDay := 1 |} [] 5400000 "child".
Proof.
  apply (timezoneOffset_is_ignored DEFAULT_CONFIG
           {| gracePeriodHours := 4; timezoneOffset := -300;
              minimumTasksPerDay := 1 |} [] 5400000 5400000 "child");
    reflexivity.
Defined.

End StreakDayFacts.

(** ** Streak system: the walk *)

Section StreakWalkFacts.

Import StreakSystem.

Lemma insert_desc_Permutation {A : Type} (key : A -> Z) (x : A) (l : list A) :
  Permutation (insert_desc key x l) (x :: l).
Proof.
  induction l as [| y l IH]; simpl.
  - reflexivity.
  - destruct (key y <=? key x).
    + reflexivity.
    + rewrite IH. apply perm_swap.
Qed.

Lemma sort_desc_Permutation {A : Type} (key : A -> Z) (l : list A) :
  Permutation (sort_desc key l) l.
Proof.
  induction l as [| x l IH]; simpl.
  - reflexivity.
  - rewrite insert_desc_Permutation. apply perm_skip. exact IH.
Qed.


Section WithConfig.

Variable config : StreakConfig.

Lemma groupByDay_acc (l : list Z) (m : gmap Z Z) (d : Z) :
  default 0
    (fold_left
       (fun (completionsByDay : gmap Z Z) approved_at =>
          <[getStreakDay config approved_at :=
              default 0 (completionsByDay !! getStreakDay config approved_at) + 1]>
            completionsByDay)
       l m !! d)
  = default 0 (m !! d) + on_day config l d.
Proof.
  unfold on_day. revert m.
  induction l as [| t l IH]; intros m; simpl.
  - lia.
  - rewrite IH.
    destruct (Z.eqb_spec (getStreakDay config t) d) as [-> | Hne].
    + rewrite lookup_insert_eq. simpl. lia.
    + rewrite lookup_insert_ne by exact Hne. lia.
Qed.

Lemma groupByDay_lookup (l : list Z) (d : Z) :
  default 0 (groupByDay config l !! d) = on_day config l d.
Proof.
  unfold groupByDay. rewrite groupByDay_acc. rewrite lookup_empty. simpl. lia.
Qed.



Lemma streakLoop_unfold (byDay : gmap Z Z) (now : Z) (fuel : nat) (s date d : Z) :
  streakLoop config byDay now (S fuel) s date d
  = if minimumTasksPerDay config <=? default 0 (byDay !! d)
    then streakLoop config byDay now fuel (s + 1) (previousDay date)
           (getStreakDay config (previousDay date))
    else if (s =? 0) && isToday config now d
         then streakLoop config byDay now fuel s (previousDay date)
                (getStreakDay config (previousDay date))
         else Some s.
Proof. reflexivity. Qed.

(** A walk that reaches the [break] is not changed by more iterations being
    allowed. *)
Lemma streakLoop_more_fuel (byDay : gmap Z Z) (now : Z) (fuel extra : nat)
  (s date d r : Z) :
  streakLoop config byDay now fuel s date d = Some r ->
  streakLoop config byDay now (fuel + extra) s date d = Some r.
Proof.
  revert s date d.
  induction fuel as [| fuel IH]; intros s date d Hrun; [discriminate Hrun |].
  replace (S fuel + extra)%nat with (S (fuel + extra)) by lia.
  rewrite streakLoop_unfold in Hrun |- *.
  destruct (minimumTasksPerDay config <=? default 0 (byDay !! d));
    [apply IH; exact Hrun |].
  destruct ((s =? 0) && isToday config now d); [apply IH; exact Hrun | exact Hrun].
Qed.





End WithConfig.







End StreakWalkFacts.

(** ** The balance trigger of the ledger *)

Section LedgerFacts.

Import PointsLedger.

(** The trigger accepts a row exactly when its [balance_after] is the sum
    of the rows already in the table. *)
Lemma insert_accepted_iff (points_ledger : list t) (row : t) :
  in_INT (sum_points_amount points_ledger (child_id row)) = true ->
  insert points_ledger row = (points_ledger ++ [row], None)
  <-> balance_after row = sum_points_amount points_ledger (child_id row).
Proof.
  intros Hint. unfold insert, validate_points_balance. rewrite Hint. cbn [negb].
  destruct (Z.eqb_spec (balance_after row)
              (sum_points_amount points_ledger (child_id row))) as [Heq | Hne];
    cbn [negb].
  - split; [intros _; exact Heq | reflexivity].
  - split; [intros H; discriminate H | intros H; contradiction].
Qed.

(** Whatever the outcome, the rows already in the table stay as they
    are. *)
Lemma insert_keeps_prior_rows (points_ledger : list t) (row : t) :
  exists added, fst (insert points_ledger row) = points_ledger ++ added.
Proof.
  unfold insert.
  destruct (validate_points_balance points_ledger row) as [e | NEW].
  - exists []. simpl. rewrite app_nil_r. reflexivity.
  - exists [NEW]. reflexivity.
Qed.

(** C1 on the code: an entry of a non-zero amount whose [balance_after] is
    the prior balance plus the amount, as the ledger contract asks, is
    rejected with 'Points balance mismatch' and the table is left as it
    was; the entry is accepted when [balance_after] repeats the prior
    balance.  The sum the trigger computes does not contain the new row. *)
Theorem insert_checks_prior_balance (points_ledger : list t) (row : t) :
  in_INT (sum_points_amount points_ledger (child_id row)) = true ->
  points_amount row <> 0 ->
  (balance_after row
     = sum_points_amount points_ledger (child_id row) + points_amount row ->
   insert points_ledger row = (points_ledger, Some Points_balance_mismatch))
  /\ (balance_after row = sum_points_amount points_ledger (child_id row) ->
      insert points_ledger row = (points_ledger ++ [row], None)).
Proof.
  intros Hint Hamount. split; intros Hbal.
  - unfold insert, validate_points_balance. rewrite Hint. cbn [negb].
    destruct (Z.eqb_spec (balance_after row)
                (sum_points_amount points_ledger (child_id row))) as [Heq | Hne];
      [lia | reflexivity].
  - apply insert_accepted_iff; assumption.
Qed.

(** The first entry of a child, 10 points with balance 10, is rejected. *)
Lemma insert_checks_prior_balance_witness :
  insert [] first_entry = ([], Some Points_balance_mismatch).
Proof.
  apply (insert_checks_prior_balance [] first_entry);
    [reflexivity | discriminate | reflexivity].
Defined.

End LedgerFacts.

(** ** Achievement engine: unlock criteria *)

Section CriteriaFacts.

Import AchievementEngine.

(** The number of approved completions of a child in a category. *)
Lemma count_category_value (childId category : string) (db : Db) :
  count_category childId (Some category) db
  = (Normal (Z.of_nat (length (List.filter
       (fun a => (TaskAssignment.child_id a =? childId)%string
                 && (TaskAssignment.status a =? "approved")%string
                 && (TaskAssignment.task_category a =? category)%string)
       (taskAssignments db)))), db).
Proof. reflexivity. Qed.

(** C6 on the code: the first four rows of the criteria table are evaluated
    as the table says and without changing the database; a [time_based]
    definition is never unlocked, whatever the completions before the
    cutoff. *)
Theorem checkUnlockCriteria_table
  (child : ChildProfile.t) (achievement : Achievement.t)
  (event : AchievementEvent) (db : Db) :
  let type := Achievement.unlock_criteria_type achievement in
  let value := Achievement.unlock_criteria_value achievement in
  (type = "streak_days" ->
   checkUnlockCriteria (Some child) achievement event db
   = (Normal (value <=? ChildProfile.current_streak_days child), db))
  /\ (type = "tasks_completed" ->
      checkUnlockCriteria (Some child) achievement event db
      = (Normal (value <=? ChildProfile.total_tasks_completed child), db))
  /\ (type = "points_earned" ->
      checkUnlockCriteria (Some child) achievement event db
      = (Normal (value <=? ChildProfile.total_points_earned child), db))
  /\ (type = "category_master" ->
      forall category before,
        Achievement.unlock_criteria_config achievement
        = Some {| Achievement.category := Some category;
                  Achievement.before_time := before |} ->
        checkUnlockCriteria (Some child) achievement event db
        = (Normal (value <=? Z.of_nat (length (List.filter
             (fun a => (TaskAssignment.child_id a =? ChildProfile.user_id child)%string
                       && (TaskAssignment.status a =? "approved")%string
                       && (TaskAssignment.task_category a =? category)%string)
             (taskAssignments db)))), db))
  /\ (type = "time_based" ->
      checkUnlockCriteria (Some child) achievement event db = (Normal false, db)).
Proof.
  intros type value. subst type value. unfold checkUnlockCriteria.
  repeat split.
  - intros ->. reflexivity.
  - intros ->. reflexivity.
  - intros ->. reflexivity.
  - intros -> category before ->. reflexivity.
  - intros ->. reflexivity.
Qed.

(** Ten approved completions at 07:00 meet the threshold of "Early Bird"
    (10 before 08:00), and the check answers [false]. *)
Lemma checkUnlockCriteria_table_witness :
  In early_bird SYSTEM_ACHIEVEMENTS
  /\ Achievement.unlock_criteria_value early_bird
     <= completionsBeforeCutoff (taskAssignments early_db) "child-1"
          (8 * StreakSystem.MS_PER_HOUR)
  /\ checkUnlockCriteria (Some early_child) early_bird task_approved early_db
     = (Normal false, early_db).
Proof.
  split; [| split].
  - do 4 right. left. reflexivity.
  - vm_compute. discriminate.
  - destruct (checkUnlockCriteria_table early_child early_bird task_approved early_db)
      as (_ & _ & _ & _ & H).
    apply H. reflexivity.
Defined.

End CriteriaFacts.

(** ** Achievement engine: unlocking *)

Section UnlockFacts.

Import AchievementEngine.

Lemma find_none_of_filter_nil {A : Type} (f : A -> bool) (l : list A) :
  List.filter f l = [] -> List.find f l = None.
Proof.
  induction l as [| x l IH]; simpl; [reflexivity |].
  destruct (f x); [discriminate | exact IH].
Qed.

Lemma find_some_of_filter_cons {A : Type} (f : A -> bool) (l : list A) (x : A) (r : list A) :
  List.filter f l = x :: r -> List.find f l = Some x.
Proof.
  induction l as [| y l IH]; simpl; [discriminate |].
  destruct (f y); [intros [= -> _]; reflexivity | exact IH].
Qed.

(** An unlock that finds a record changes nothing. *)
Lemma unlockAchievement_existing (db : Db) (now : Z) (childId achievementId : string)
  (r : ChildAchievement.t) (rest : list ChildAchievement.t) :
  unlockedRecords db childId achievementId = r :: rest ->
  unlockAchievement now childId achievementId db = (Normal tt, db).
Proof.
  intros Hrec. apply find_some_of_filter_cons in Hrec.
  unfold unlockAchievement, findOne_childAchievement, bind, get, ret.
  rewrite Hrec. reflexivity.
Qed.

Lemma unlock_calls_existing (db : Db) (times : list Z) (childId achievementId : string)
  (r : ChildAchievement.t) (rest : list ChildAchievement.t) :
  unlockedRecords db childId achievementId = r :: rest ->
  unlock_calls times childId achievementId db = (Normal tt, db).
Proof.
  intros Hrec.
  induction times as [| now later IH]; [reflexivity |].
  cbn [unlock_calls]. unfold bind at 1.
  rewrite (unlockAchievement_existing db now childId achievementId r rest Hrec).
  exact IH.
Qed.

(** An unlock that finds no record adds one, whether or not the rest of
    the method completes. *)
Lemma unlockAchievement_adds_record (db : Db) (now : Z) (childId achievementId : string) :
  unlockedRecords db childId achievementId = [] ->
  childAchievements (snd (unlockAchievement now childId achievementId db))
  = childAchievements db ++ [unlock_record now childId achievementId].
Proof.
  intros Hnone. apply find_none_of_filter_nil in Hnone.
  unfold unlockAchievement, findOne_childAchievement, insert_childAchievement,
    findById_achievement, awardPoints, send, throw, bind, get, put, ret.
  rewrite Hnone. cbn [achievements].
  destruct (List.find _ (achievements db)) as [achievement |]; [| reflexivity].
  destruct (0 <? Achievement.points_reward achievement); reflexivity.
Qed.

(** A call of [unlockAchievement] keeps the invariant of
    [child_achievements]: at most one record per child and achievement. *)
Lemma unlockAchievement_at_most_one (db : Db) (now : Z)
  (childId achievementId childId' achievementId' : string) :
  (length (unlockedRecords db childId' achievementId') <= 1)%nat ->
  (length (unlockedRecords (snd (unlockAchievement now childId achievementId db))
             childId' achievementId') <= 1)%nat.
Proof.
  intros Hone.
  destruct (unlockedRecords db childId achievementId) as [| r rest] eqn:Hrec.
  - unfold unlockedRecords at 1.
    rewrite (unlockAchievement_adds_record db now childId achievementId Hrec).
    rewrite List.filter_app, length_app. cbn [List.filter unlock_record
      ChildAchievement.child_id ChildAchievement.achievement_id].
    destruct (String.eqb_spec childId childId') as [<- | Hc];
      destruct (String.eqb_spec achievementId achievementId') as [<- | Ha];
      cbn [andb length]; fold (unlockedRecords db childId achievementId);
      try (unfold unlockedRecords in *; lia).
    rewrite Hrec. cbn [length]. lia.
  - rewrite (unlockAchievement_existing db now childId achievementId r rest Hrec).
    exact Hone.
Qed.

(** C7: from a database without a record for the child and the
    achievement, any number of calls of [unlockAchievement] (one at least)
    completes normally and leaves the database of the first call: one
    record for the pair, one more notification, and one more ledger entry,
    the bonus, exactly when the reward is positive.  Every call after that
    returns without changing anything. *)
Theorem unlockAchievement_idempotent
  (db : Db) (now : Z) (times : list Z) (childId achievementId : string)
  (achievement : Achievement.t) :
  List.find (fun a => (Achievement.id a =? achievementId)%string) (achievements db)
    = Some achievement ->
  unlockedRecords db childId achievementId = [] ->
  exists db',
    unlock_calls (now :: times) childId achievementId db = (Normal tt, db')
    /\ unlockAchievement now childId achievementId db = (Normal tt, db')
    /\ unlockedRecords db' childId achievementId
       = [unlock_record now childId achievementId]
    /\ pointsLedger db'
       = pointsLedger db
         ++ (if 0 <? Achievement.points_reward achievement
             then [unlock_bonus db now childId achievement] else [])
    /\ notifications db' = notifications db ++ [unlock_notification childId achievement]
    /\ (forall later, unlockAchievement later childId achievementId db' = (Normal tt, db')).
Proof.
  intros Hfound Hnone.
  pose proof (find_none_of_filter_nil _ _ Hnone) as Hfind.
  assert (Hfirst : exists db',
    unlockAchievement now childId achievementId db = (Normal tt, db')
    /\ childAchievements db'
       = childAchievements db ++ [unlock_record now childId achievementId]
    /\ pointsLedger db'
       = pointsLedger db
         ++ (if 0 <? Achievement.points_reward achievement
             then [unlock_bonus db now childId achievement] else [])
    /\ notifications db'
       = notifications db ++ [unlock_notification childId achievement]).
  { unfold unlockAchievement, findOne_childAchievement, insert_childAchievement,
      findById_achievement, awardPoints, send, bind, get, put, ret.
    rewrite Hfind. cbn [achievements]. rewrite Hfound.
    destruct (0 <? Achievement.points_reward achievement);
      eexists; (split; [reflexivity |]); cbn; rewrite ?app_nil_r; auto. }
  destruct Hfirst as (db' & Hcall & Hrecs & Hledger & Hnotes).
  assert (Hone : unlockedRecords db' childId achievementId
                 = [unlock_record now childId achievementId]).
  { unfold unlockedRecords in *. rewrite Hrecs, List.filter_app, Hnone.
    cbn. rewrite !String.eqb_refl. reflexivity. }
  exists db'.
  split; [| split; [exact Hcall | split; [exact Hone |
    split; [exact Hledger | split; [exact Hnotes |]]]]].
  - cbn [unlock_calls]. unfold bind at 1. rewrite Hcall.
    apply (unlock_calls_existing db' times childId achievementId _ [] Hone).
  - intros later.
    apply (unlockAchievement_existing db' later childId achievementId _ [] Hone).
Qed.

Lemma unlockAchievement_idempotent_witness :
  exists db',
    unlock_calls [100; 200; 300] "child-1" "first-steps" early_db = (Normal tt, db')
    /\ length (childAchievements db') = 1%nat
    /\ length (pointsLedger db') = 1%nat
    /\ length (notifications db') = 1%nat.
Proof.
  destruct (unlockAchievement_idempotent early_db 100 [200; 300]
              "child-1" "first-steps"
              (List.hd early_bird SYSTEM_ACHIEVEMENTS) eq_refl eq_refl)
    as (db' & Hcalls & Hfirst & _).
  exists db'. split; [exact Hcalls |].
  vm_compute in Hfirst. injection Hfirst as <-.
  repeat split; reflexivity.
Defined.

End UnlockFacts.

(** ** Leaderboard *)

Section LeaderboardFacts.

Import LeaderboardService.

Lemma insert_desc_sorted {A : Type} (key : A -> Z) (x : A) (l : list A) :
  StronglySorted Z.ge (map key l) ->
  StronglySorted Z.ge (map key (insert_desc key x l)).
Proof.
  induction l as [| y l IH]; intros Hsorted; cbn [insert_desc].
  - constructor; constructor.
  - cbn [map] in Hsorted. apply StronglySorted_inv in Hsorted as [Hl Hy].
    destruct (Z.leb_spec (key y) (key x)) as [Hle | Hgt]; cbn [map].
    + constructor.
      * constructor; assumption.
      * constructor; [lia |].
        rewrite List.Forall_forall in Hy |- *. intros z Hz.
        specialize (Hy z Hz). lia.
    + constructor; [apply IH; exact Hl |].
      rewrite List.Forall_forall in Hy |- *. intros z Hz.
      apply in_map_iff in Hz as (e & <- & He).
      apply (Permutation_in _ (insert_desc_Permutation key x l)) in He.
      destruct He as [<- | He]; [lia |].
      apply Hy. apply in_map. exact He.
Qed.

Lemma sort_desc_sorted {A : Type} (key : A -> Z) (l : list A) :
  StronglySorted Z.ge (map key (sort_desc key l)).
Proof.
  induction l as [| x l IH]; simpl.
  - constructor.
  - apply insert_desc_sorted. exact IH.
Qed.

(** The sort is stable: the entries of one score keep the order they had. *)
Lemma insert_desc_stable {A : Type} (key : A -> Z) (k : Z) (x : A) (l : list A) :
  List.filter (fun e => key e =? k) (insert_desc key x l)
  = List.filter (fun e => key e =? k) (x :: l).
Proof.
  induction l as [| y l IH]; [reflexivity |].
  cbn [insert_desc].
  destruct (Z.leb_spec (key y) (key x)) as [Hle | Hgt]; [reflexivity |].
  cbn [List.filter] in IH |- *. rewrite IH.
  destruct (Z.eqb_spec (key x) k) as [Hx | Hx];
    destruct (Z.eqb_spec (key y) k) as [Hy | Hy]; try reflexivity.
  lia.
Qed.

Lemma sort_desc_stable {A : Type} (key : A -> Z) (k : Z) (l : list A) :
  List.filter (fun e => key e =? k) (sort_desc key l)
  = List.filter (fun e => key e =? k) l.
Proof.
  induction l as [| x l IH]; [reflexivity |].
  cbn [sort_desc]. rewrite insert_desc_stable.
  cbn [List.filter]. rewrite IH. reflexivity.
Qed.

Lemma assignRanks_score (index : Z) (entries : list LeaderboardEntry) :
  map score (assignRanks index entries) = map score entries.
Proof.
  revert index.
  induction entries as [| e l IH]; intros index; simpl; [reflexivity |].
  rewrite IH. reflexivity.
Qed.

Lemma assignRanks_unranked (index : Z) (entries : list LeaderboardEntry) :
  map (fun e => set_rank e 0) (assignRanks index entries)
  = map (fun e => set_rank e 0) entries.
Proof.
  revert index.
  induction entries as [| e l IH]; intros index; simpl; [reflexivity |].
  rewrite IH. reflexivity.
Qed.

Lemma assignRanks_rank (index : Z) (entries : list LeaderboardEntry) :
  0 <= index ->
  map rank (assignRanks index entries)
  = map Z.of_nat (seq (S (Z.to_nat index)) (length entries)).
Proof.
  revert index.
  induction entries as [| e l IH]; intros index Hindex; simpl; [reflexivity |].
  rewrite IH by lia.
  replace (Z.to_nat (index + 1)) with (S (Z.to_nat index)) by lia.
  f_equal. lia.
Qed.

Lemma earned_points_filter (ledger : list PointsLedger.t) (r : DateRange)
  (child : string) :
  fold_right Z.add 0
    (map PointsLedger.points_amount
       (List.filter
          (fun row =>
             (PointsLedger.child_id row =? child)%string
             && PointsLedger.TransactionType_eqb
                  (PointsLedger.transaction_type row) PointsLedger.earned
             && in_range r (PointsLedger.created_at row))
          ledger))
  = earned_points ledger r child.
Proof.
  induction ledger as [| row rest IH]; [reflexivity |].
  cbn [List.filter earned_points].
  destruct (PointsLedger.transaction_type row);
    cbn [PointsLedger.TransactionType_eqb];
    rewrite ?andb_false_r; cbn [andb]; try exact IH.
  rewrite andb_true_r.
  destruct ((PointsLedger.child_id row =? child)%string
            && in_range r (PointsLedger.created_at row)); [| exact IH].
  cbn [map fold_right]. rewrite IH. reflexivity.
Qed.

Lemma approved_tasks_filter (assignments : list TaskAssignment.t)
  (r : DateRange) (child : string) :
  Z.of_nat (length
    (List.filter
       (fun a =>
          (TaskAssignment.child_id a =? child)%string
          && (TaskAssignment.status a =? "approved")%string
          && match TaskAssignment.approved_at a with
             | Some t => in_range r t
             | None => false
             end)
       assignments))
  = approved_tasks assignments r child.
Proof.
  induction assignments as [| a rest IH]; [reflexivity |].
  cbn [List.filter approved_tasks].
  destruct (TaskAssignment.approved_at a) as [t |].
  - destruct ((TaskAssignment.child_id a =? child)%string
              && (TaskAssignment.status a =? "approved")%string
              && in_range r t); [| exact IH].
    cbn [length]. rewrite Nat2Z.inj_succ, IH. lia.
  - rewrite andb_false_r. exact IH.
Qed.

Lemma streak_of_find (profiles : list ChildProfile.t) (child : string) :
  match List.find (fun p => (ChildProfile.user_id p =? child)%string) profiles with
  | Some p => ChildProfile.current_streak_days p
  | None => 0
  end = streak_of profiles child.
Proof.
  induction profiles as [| p rest IH]; [reflexivity |].
  cbn [List.find streak_of].
  destruct (ChildProfile.user_id p =? child)%string; [reflexivity | exact IH].
Qed.

Lemma achievement_count_filter (records : list ChildAchievement.t)
  (child : string) :
  Z.of_nat (length
    (List.filter (fun r => (ChildAchievement.child_id r =? child)%string) records))
  = achievement_count records child.
Proof.
  induction records as [| r rest IH]; [reflexivity |].
  cbn [List.filter achievement_count].
  destruct (ChildAchievement.child_id r =? child)%string; [| exact IH].
  cbn [length]. rewrite Nat2Z.inj_succ, IH. lia.
Qed.

(** What the body of the loop computes for one child. *)
Lemma entryOf_figures (weights : LeaderboardWeights) (db : Db)
  (r : DateRange) (child : User.t) :
  let e := entryOf weights db r child in
  childId e = User.id child
  /\ childName e = User.first_name child
  /\ avatarUrl e = User.avatar_url child
  /\ weeklyPoints e = earned_points (pointsLedger db) r (User.id child)
  /\ weeklyTasks e = approved_tasks (taskAssignments db) r (User.id child)
  /\ currentStreak e = streak_of (childProfiles db) (User.id child)
  /\ achievements e = achievement_count (childAchievements db) (User.id child)
  /\ score e = weeklyPoints e * weeklyPoints_weight weights
               + weeklyTasks e * weeklyTasks_weight weights
               + currentStreak e * streakBonus weights
               + achievements e * achievementBonus weights.
Proof.
  unfold entryOf.
  cbn [childId childName avatarUrl weeklyPoints weeklyTasks currentStreak
       achievements score].
  split; [reflexivity | split; [reflexivity | split; [reflexivity |]]].
  split; [apply earned_points_filter |].
  split; [apply approved_tasks_filter |].
  split; [apply streak_of_find |].
  split; [apply achievement_count_filter | reflexivity].
Qed.

(** C8: the leaderboard of a family holds one entry per user of the family
    that has the role [child] and is active, with the user's id, name and
    avatar.  The entry of a child carries the points of the child's
    [earned] ledger rows within the range of the period, the number of the
    child's assignments approved within the range, the streak of the
    child's profile and the number of the child's achievements; with the
    default weights its score is
    [weeklyPoints * 1 + weeklyTasks * 5 + currentStreak * 2 + achievements * 10].
    The scores are in non-increasing order and the ranks are 1, 2, ..., n in
    this order. *)
Theorem getFamilyLeaderboard_spec
  (getDateRange : Period -> DateRange) (db : Db) (familyId : string) (period : Period) :
  let board := getFamilyLeaderboard DEFAULT_WEIGHTS getDateRange db familyId period in
  let range := getDateRange period in
  let ranked := List.filter (is_ranked familyId) (users db) in
  Permutation
    (map (fun e => (childId e, childName e, avatarUrl e)) board)
    (map (fun u => (User.id u, User.first_name u, User.avatar_url u)) ranked)
  /\ Forall
       (fun e =>
          weeklyPoints e = earned_points (pointsLedger db) range (childId e)
          /\ weeklyTasks e
             = approved_tasks (taskAssignments db) range (childId e)
          /\ currentStreak e = streak_of (childProfiles db) (childId e)
          /\ achievements e
             = achievement_count (childAchievements db) (childId e)
          /\ score e = weeklyPoints e * 1 + weeklyTasks e * 5
                       + currentStreak e * 2 + achievements e * 10)
       board
  /\ StronglySorted Z.ge (map score board)
  /\ map rank board = map Z.of_nat (seq 1 (length ranked)).
Proof.
  intros board range ranked. subst board. unfold getFamilyLeaderboard.
  change (activeChildren db familyId) with ranked. fold range.
  set (entries := map (entryOf DEFAULT_WEIGHTS db range) ranked).
  assert (Hperm : Permutation
            (map (fun e => set_rank e 0) (assignRanks 0 (sort_desc score entries)))
            entries).
  { rewrite assignRanks_unranked.
    rewrite (Permutation_map _ (sort_desc_Permutation score entries)).
    subst entries. rewrite map_map. reflexivity. }
  split; [| split; [| split]].
  - apply (Permutation_map (fun e => (childId e, childName e, avatarUrl e)))
      in Hperm.
    rewrite map_map in Hperm. cbn [set_rank childId childName avatarUrl] in Hperm.
    rewrite Hperm. subst entries. rewrite map_map.
    erewrite map_ext; [reflexivity |].
    intros child.
    destruct (entryOf_figures DEFAULT_WEIGHTS db range child)
      as (-> & -> & -> & _).
    reflexivity.
  - rewrite List.Forall_forall. intros e He.
    assert (Hin : In (set_rank e 0) entries).
    { apply (Permutation_in _ Hperm).
      apply (in_map (fun e => set_rank e 0)). exact He. }
    subst entries. apply in_map_iff in Hin as (child & Heq & _).
    destruct (entryOf_figures DEFAULT_WEIGHTS db range child)
      as (Hid & _ & _ & Hpoints & Htasks & Hstreak & Hach & Hscore).
    rewrite Heq in Hid, Hpoints, Htasks, Hstreak, Hach, Hscore.
    cbn [set_rank childId weeklyPoints weeklyTasks currentStreak achievements
         score] in Hid, Hpoints, Htasks, Hstreak, Hach, Hscore.
    rewrite Hid.
    split; [exact Hpoints | split; [exact Htasks | split; [exact Hstreak |
      split; [exact Hach | exact Hscore]]]].
  - rewrite assignRanks_score. apply sort_desc_sorted.
  - rewrite assignRanks_rank by lia.
    rewrite (Permutation_length (sort_desc_Permutation score entries)).
    subst entries. rewrite length_map. reflexivity.
Qed.

Lemma getFamilyLeaderboard_spec_witness :
  map (fun e => (childId e, childName e, score e, rank e))
    (getFamilyLeaderboard DEFAULT_WEIGHTS family_range family_db "family-1" weekly)
  = [("child-1", "Ada", 51, 1); ("child-2", "Ben", 44, 2)]
  /\ Forall
       (fun e =>
          weeklyPoints e
          = earned_points (pointsLedger family_db) (family_range weekly) (childId e)
          /\ weeklyTasks e
             = approved_tasks (taskAssignments family_db) (family_range weekly)
                 (childId e)
          /\ currentStreak e = streak_of (childProfiles family_db) (childId e)
          /\ achievements e
             = achievement_count (childAchievements family_db) (childId e)
          /\ score e = weeklyPoints e * 1 + weeklyTasks e * 5
                       + currentStreak e * 2 + achievements e * 10)
       (getFamilyLeaderboard DEFAULT_WEIGHTS family_range family_db "family-1" weekly).
Proof.
  split; [vm_compute; reflexivity |].
  exact (proj1 (proj2 (getFamilyLeaderboard_spec family_range family_db
                         "family-1" weekly))).
Defined.

End LeaderboardFacts.

(** * Further properties *)

(** ** Level system: bounds, conservation, monotonicity *)

Section LevelSystemMoreFacts.

Import LevelSystem.

Lemma levelLoop_level_bounds (n : nat) (l xp : Z) :
  l <= MAX_LEVEL ->
  l <= fst (levelLoop n l xp) <= MAX_LEVEL.
Proof.
  revert l xp.
  induction n as [| n IH]; intros l xp Hl; cbn [levelLoop].
  - cbn [fst]. lia.
  - destruct (Z.ltb_spec l MAX_LEVEL) as [Hlt | Hge]; [| cbn [fst]; lia].
    destruct (xp <? xpRequiredForLevel l); [cbn [fst]; lia |].
    specialize (IH (l + 1) (xp - xpRequiredForLevel l) ltac:(lia)). lia.
Qed.

Lemma cumulativeXpForLevel_succ (l : Z) :
  1 <= l ->
  cumulativeXpForLevel l = cumulativeXpForLevel (l - 1) + xpRequiredForLevel l.
Proof.
  intros Hl. unfold cumulativeXpForLevel.
  replace (Z.to_nat l) with (Z.to_nat (l - 1) + 1)%nat by lia.
  rewrite cumulativeLoop_app. cbn [cumulativeLoop].
  replace (1 + Z.of_nat (Z.to_nat (l - 1))) with l by lia. lia.
Qed.

(** The loop moves XP from the remainder into completed levels and loses
    none; a non-negative remainder stays non-negative. *)
Lemma levelLoop_conserves (n : nat) (l xp : Z) :
  1 <= l ->
  cumulativeXpForLevel (fst (levelLoop n l xp) - 1) + snd (levelLoop n l xp)
  = cumulativeXpForLevel (l - 1) + xp
  /\ (0 <= xp -> 0 <= snd (levelLoop n l xp)).
Proof.
  revert l xp.
  induction n as [| n IH]; intros l xp Hl; cbn [levelLoop].
  - cbn [fst snd]. split; [reflexivity | trivial].
  - destruct (l <? MAX_LEVEL); [| cbn [fst snd]; split; [reflexivity | trivial]].
    destruct (Z.ltb_spec xp (xpRequiredForLevel l)) as [Hlt | Hge];
      [cbn [fst snd]; split; [reflexivity | trivial] |].
    destruct (IH (l + 1) (xp - xpRequiredForLevel l) ltac:(lia)) as [Hsum Hpos].
    split.
    + rewrite Hsum. replace (l + 1 - 1) with l by lia.
      rewrite (cumulativeXpForLevel_succ l Hl). lia.
    + intros _. apply Hpos. lia.
Qed.

Lemma levelLoop_monotone (n : nat) (l xp1 xp2 : Z) :
  l <= MAX_LEVEL ->
  xp1 <= xp2 ->
  fst (levelLoop n l xp1) <= fst (levelLoop n l xp2).
Proof.
  revert l xp1 xp2.
  induction n as [| n IH]; intros l xp1 xp2 Hl Hxp; cbn [levelLoop].
  - cbn [fst]. lia.
  - destruct (Z.ltb_spec l MAX_LEVEL) as [Hlt | Hge]; [| cbn [fst]; lia].
    destruct (Z.ltb_spec xp1 (xpRequiredForLevel l)) as [H1 | H1].
    + cbn [fst].
      destruct (Z.ltb_spec xp2 (xpRequiredForLevel l)) as [H2 | H2];
        [cbn [fst]; lia |].
      pose proof (levelLoop_level_bounds n (l + 1) (xp2 - xpRequiredForLevel l)
                    ltac:(lia)).
      lia.
    + destruct (Z.ltb_spec xp2 (xpRequiredForLevel l)) as [H2 | H2]; [lia |].
      apply IH; lia.
Qed.

Lemma levelFromXp_fields (totalXp : Z) :
  level (levelFromXp totalXp)
  = fst (levelLoop (Z.to_nat (MAX_LEVEL - 1)) 1 totalXp)
  /\ currentXp (levelFromXp totalXp)
     = snd (levelLoop (Z.to_nat (MAX_LEVEL - 1)) 1 totalXp)
  /\ xpToNext (levelFromXp totalXp)
     = xpRequiredForLevel (level (levelFromXp totalXp)).
Proof.
  unfold levelFromXp.
  destruct (levelLoop (Z.to_nat (MAX_LEVEL - 1)) 1 totalXp) as [l xp].
  cbn [level currentXp xpToNext fst snd]. repeat split.
Qed.

Lemma xpRequiredForLevel_step (l : Z) :
  1 <= l -> xpRequiredForLevel l < xpRequiredForLevel (l + 1).
Proof.
  intros Hl. unfold xpRequiredForLevel, BASE_XP.
  destruct (Z.leb_spec l 0); [lia |].
  destruct (Z.leb_spec (l + 1) 0); [lia |].
  replace (100 ^ 2 * l ^ 3) with (10000 * (l * l * l)) by ring.
  replace (100 ^ 2 * (l + 1) ^ 3)
    with (10000 * ((l + 1) * (l + 1) * (l + 1))) by ring.
  set (a := 10000 * (l * l * l)).
  assert (Ha : 0 <= a) by (subst a; nia).
  pose proof (Z.sqrt_spec a Ha) as [Hlow _].
  set (s := Z.sqrt a) in *.
  assert (Hs0 : 0 <= s) by apply Z.sqrt_nonneg.
  assert (Hs : s <= 100 * l * l).
  { destruct (Z.le_gt_cases s (100 * l * l)) as [H' | H']; [exact H' |].
    assert (100 * l * l * (100 * l * l) < s * s) by nia.
    subst a. nia. }
  assert (Hnext : s + 1 <= Z.sqrt (10000 * ((l + 1) * (l + 1) * (l + 1)))).
  { apply Z.sqrt_le_square; [nia | lia |]. subst a. nia. }
  lia.
Qed.

(** X1: whatever the XP, negative amounts included, the level returned by
    [levelFromXp] lies between 1 and [MAX_LEVEL] (100); more XP never gives a
    lower level. *)
Theorem levelFromXp_level_range (xp1 xp2 : Z) :
  xp1 <= xp2 ->
  1 <= level (levelFromXp xp1) <= MAX_LEVEL
  /\ level (levelFromXp xp1) <= level (levelFromXp xp2).
Proof.
  intros Hxp.
  destruct (levelFromXp_fields xp1) as (-> & _ & _).
  destruct (levelFromXp_fields xp2) as (-> & _ & _).
  split.
  - apply levelLoop_level_bounds. unfold MAX_LEVEL. lia.
  - apply levelLoop_monotone; [unfold MAX_LEVEL; lia | exact Hxp].
Qed.

Lemma levelFromXp_level_range_witness :
  1 <= level (levelFromXp (-50)) <= MAX_LEVEL
  /\ level (levelFromXp (-50)) <= level (levelFromXp 5000).
Proof.
  apply (levelFromXp_level_range (-50) 5000). lia.
Defined.

(** X2: for a total XP that is a non-negative integer up to
    [Number.MAX_SAFE_INTEGER], where the subtractions of the loop are
    exact, [levelFromXp] splits the total without loss: the cumulative XP
    of the levels below the returned level plus [currentXp] is the total,
    and [xpToNext] is the requirement of the returned level; [currentXp] is
    non-negative, and below the cap it is less than [xpToNext]. *)
Theorem levelFromXp_conserves_xp (totalXp : Z) :
  0 <= totalXp ->
  totalXp <= MAX_SAFE_INTEGER ->
  cumulativeXpForLevel (level (levelFromXp totalXp) - 1)
    + currentXp (levelFromXp totalXp) = totalXp
  /\ xpToNext (levelFromXp totalXp)
     = xpRequiredForLevel (level (levelFromXp totalXp))
  /\ 0 <= currentXp (levelFromXp totalXp)
  /\ (level (levelFromXp totalXp) < MAX_LEVEL ->
      currentXp (levelFromXp totalXp) < xpToNext (levelFromXp totalXp)).
Proof.
  intros Hxp Hsafe.
  destruct (levelFromXp_fields totalXp) as (Hl & Hc & Hn).
  destruct (levelLoop_conserves (Z.to_nat (MAX_LEVEL - 1)) 1 totalXp ltac:(lia))
    as [Hsum Hpos].
  pose proof (levelLoop_exit (Z.to_nat (MAX_LEVEL - 1)) 1 totalXp
                ltac:(unfold MAX_LEVEL; lia)) as Hexit.
  rewrite Hn, Hl, Hc.
  destruct (levelLoop (Z.to_nat (MAX_LEVEL - 1)) 1 totalXp) as [l xp].
  cbn [fst snd] in *.
  split; [| split; [reflexivity | split; [apply Hpos; exact Hxp |]]].
  - rewrite Hsum. reflexivity.
  - intros Hlt. destruct Hexit as [Hcap | Hrem]; [lia | exact Hrem].
Qed.

Lemma levelFromXp_conserves_xp_witness :
  cumulativeXpForLevel (level (levelFromXp 1000) - 1)
    + currentXp (levelFromXp 1000) = 1000.
Proof.
  apply (levelFromXp_conserves_xp 1000); [lia | unfold MAX_SAFE_INTEGER; lia].
Defined.

(** X3: over the levels of the program, 1 to [MAX_LEVEL], each level
    requires strictly more XP than every level below it, and at least 100
    times the level. *)
Theorem xpRequiredForLevel_increasing (l l' : Z) :
  1 <= l -> l < l' -> l' <= MAX_LEVEL ->
  xpRequiredForLevel l < xpRequiredForLevel l'
  /\ 100 * l <= xpRequiredForLevel l.
Proof.
  intros Hl Hlt Hmax. clear Hmax. split.
  - replace l' with (l + Z.of_nat (Z.to_nat (l' - l))) by lia.
    assert (Hk : (0 < Z.to_nat (l' - l))%nat) by lia.
    induction (Z.to_nat (l' - l)) as [| k IH]; [lia |].
    destruct k as [| k].
    + apply xpRequiredForLevel_step. exact Hl.
    + apply Z.lt_trans with (xpRequiredForLevel (l + Z.of_nat (S k)));
        [apply IH; lia |].
      replace (l + Z.of_nat (S (S k))) with (l + Z.of_nat (S k) + 1) by lia.
      apply xpRequiredForLevel_step. lia.
  - unfold xpRequiredForLevel, BASE_XP.
    destruct (Z.leb_spec l 0); [lia |].
    replace (100 ^ 2 * l ^ 3) with (10000 * (l * l * l)) by ring.
    apply Z.sqrt_le_square; nia.
Qed.

Lemma xpRequiredForLevel_increasing_witness :
  xpRequiredForLevel 4 < xpRequiredForLevel 9 /\ 100 * 4 <= xpRequiredForLevel 4.
Proof.
  apply (xpRequiredForLevel_increasing 4 9); unfold MAX_LEVEL; lia.
Defined.

End LevelSystemMoreFacts.

(** ** Streak system: window, order of the rows, empty history *)

Section StreakMoreFacts.

Import StreakSystem.

Lemma getStreakDay_monotone (config : StreakConfig) (t t' : Z) :
  t <= t' -> getStreakDay config t <= getStreakDay config t'.
Proof.
  intros Ht. unfold getStreakDay, utcDate.
  apply Z.div_le_mono; [unfold MS_PER_DAY, MS_PER_HOUR; lia | lia].
Qed.

Lemma getStreakDay_shift (config : StreakConfig) (t k : Z) :
  getStreakDay config (t + k * MS_PER_DAY) = getStreakDay config t + k.
Proof.
  unfold getStreakDay, utcDate.
  replace (t + k * MS_PER_DAY - gracePeriodHours config * 60 * 60 * 1000)
    with (t - gracePeriodHours config * 60 * 60 * 1000 + k * MS_PER_DAY) by lia.
  apply Z.div_add. unfold MS_PER_DAY, MS_PER_HOUR. lia.
Qed.





(** The sorted list of timestamps does not depend on the order of the
    rows. *)
Lemma find_approved_since_Permutation
  (ta ta' : list TaskAssignment.t) (childId : string) (since : Z) :
  Permutation ta ta' ->
  find_approved_since ta childId since = find_approved_since ta' childId since.
Proof.
  intros Hperm. unfold find_approved_since.
  apply (StronglySorted_unique_strong Z.ge).
  - intros x1 x2 _ _ H1 H2. lia.
  - rewrite <- (map_id (sort_desc _ _)). apply (sort_desc_sorted (fun t => t)).
  - rewrite <- (map_id (sort_desc _ _)). apply (sort_desc_sorted (fun t => t)).
  - rewrite !sort_desc_Permutation. apply omap_Permutation. exact Hperm.
Qed.

(** X5: the result of [calculateStreak] does not depend on the order in
    which the store holds the rows, and it ignores every row that belongs to
    another child, is not approved, or has no approval time. *)
Theorem calculateStreak_rows (config : StreakConfig)
  (ta ta' before after : list TaskAssignment.t) (row : TaskAssignment.t)
  (now : Z) (childId : string) :
  Permutation ta ta' ->
  TaskAssignment.child_id row <> childId
    \/ TaskAssignment.status row <> "approved"
    \/ TaskAssignment.approved_at row = None ->
  calculateStreak config ta now childId = calculateStreak config ta' now childId
  /\ calculateStreak config (before ++ row :: after) now childId
     = calculateStreak config (before ++ after) now childId.
Proof.
  intros Hperm Hrow. split.
  - unfold calculateStreak.
    rewrite (find_approved_since_Permutation ta ta' childId _ Hperm). reflexivity.
  - unfold calculateStreak.
    replace (find_approved_since (before ++ row :: after) childId
               (now - 90 * MS_PER_DAY))
      with (find_approved_since (before ++ after) childId (now - 90 * MS_PER_DAY));
      [reflexivity |].
    unfold find_approved_since. f_equal.
    rewrite !omap_app. f_equal. cbn [omap list_omap].
    destruct Hrow as [Hc | [Hs | Ha]].
    + apply String.eqb_neq in Hc. rewrite Hc. reflexivity.
    + apply String.eqb_neq in Hs. rewrite Hs, andb_false_r. reflexivity.
    + rewrite Ha. destruct (_ && _); reflexivity.
Qed.

Lemma calculateStreak_rows_witness :
  calculateStreak DEFAULT_CONFIG three_day_history evening_of_19000 "child-1"
  = calculateStreak DEFAULT_CONFIG (rev three_day_history) evening_of_19000 "child-1"
  /\ calculateStreak DEFAULT_CONFIG
       ([] ++ approved "child-2" evening_of_19000 "cleaning" :: three_day_history)
       evening_of_19000 "child-1"
     = calculateStreak DEFAULT_CONFIG ([] ++ three_day_history)
         evening_of_19000 "child-1".
Proof.
  apply (calculateStreak_rows DEFAULT_CONFIG three_day_history
           (rev three_day_history) [] three_day_history
           (approved "child-2" evening_of_19000 "cleaning")
           evening_of_19000 "child-1").
  - apply Permutation_rev.
  - left. discriminate.
Defined.

(** X6: for a child without any approved completion, [calculateStreak]
    returns a streak of 0 that is not at risk, with nothing completed
    today. *)
Theorem calculateStreak_no_completions (config : StreakConfig)
  (taskAssignments : list TaskAssignment.t) (now : Z) (childId : string) :
  1 <= minimumTasksPerDay config ->
  (forall a, In a taskAssignments ->
             TaskAssignment.child_id a = childId ->
             TaskAssignment.status a <> "approved") ->
  calculateStreak config taskAssignments now childId
  = Some {| currentStreak := 0;
            streakAtRisk := false;
            completedToday := 0;
            requiredDaily := minimumTasksPerDay config |}.
Proof.
  intros Hmin Hnone.
  assert (Hfind : find_approved_since taskAssignments childId (now - 90 * MS_PER_DAY)
                  = []).
  { unfold find_approved_since.
    replace (omap _ taskAssignments) with (@nil Z); [reflexivity |].
    symmetry. induction taskAssignments as [| a l IH]; [reflexivity |].
    cbn [omap list_omap].
    rewrite IH by (intros a' Ha'; apply Hnone; right; exact Ha').
    destruct (String.eqb_spec (TaskAssignment.child_id a) childId) as [Hc | Hc];
      [| reflexivity].
    specialize (Hnone a (or_introl eq_refl) Hc).
    apply String.eqb_neq in Hnone. rewrite Hnone. reflexivity. }
  unfold calculateStreak. rewrite Hfind.
  cbn [length groupByDay fold_left]. rewrite !streakLoop_unfold.
  rewrite !lookup_empty. cbn [default].
  destruct (Z.leb_spec (minimumTasksPerDay config) 0) as [H | _]; [lia |].
  unfold isToday. rewrite getStreakDay_previousDay.
  rewrite !Z.eqb_refl. cbn [andb].
  destruct (Z.eqb_spec (getStreakDay config now - 1) (getStreakDay config now));
    [lia |].
  cbn [andb Z.ltb Z.compare].
  destruct (Z.ltb_spec 0 (minimumTasksPerDay config)); [reflexivity | lia].
Qed.

Lemma calculateStreak_no_completions_witness :
  calculateStreak DEFAULT_CONFIG three_day_history evening_of_19000 "child-2"
  = Some {| currentStreak := 0; streakAtRisk := false;
            completedToday := 0; requiredDaily := 1 |}.
Proof.
  apply (calculateStreak_no_completions DEFAULT_CONFIG three_day_history
           evening_of_19000 "child-2").
  - simpl. lia.
  - intros a Ha Hc. simpl in Ha.
    destruct Ha as [<- | [<- | [<- | []]]]; discriminate Hc.
Defined.

(** X7: streak-days follow time: a later timestamp never has an earlier
    streak-day, 24 hours later is the next streak-day, a longer grace period
    never gives a later streak-day, and with a grace period between 0 and 12
    hours (the range the settings accept) the streak-day of an instant is
    its UTC date or the day before. *)
Theorem getStreakDay_order (config config' : StreakConfig) (t t' : Z) :
  t <= t' ->
  gracePeriodHours config <= gracePeriodHours config' ->
  0 <= gracePeriodHours config <= 12 ->
  getStreakDay config t <= getStreakDay config t'
  /\ getStreakDay config (t + 24 * MS_PER_HOUR) = getStreakDay config t + 1
  /\ getStreakDay config' t <= getStreakDay config t
  /\ utcDate t - 1 <= getStreakDay config t <= utcDate t.
Proof.
  intros Ht Hg Hrange.
  assert (Hday : 0 < MS_PER_DAY) by (unfold MS_PER_DAY, MS_PER_HOUR; lia).
  split; [apply getStreakDay_monotone; exact Ht |].
  split.
  { replace (24 * MS_PER_HOUR) with (1 * MS_PER_DAY) by reflexivity.
    apply getStreakDay_shift. }
  split.
  { unfold getStreakDay, utcDate. apply Z.div_le_mono; lia. }
  unfold getStreakDay, utcDate. split.
  - replace (t / MS_PER_DAY - 1) with ((t + (-1) * MS_PER_DAY) / MS_PER_DAY)
      by (rewrite Z.div_add by lia; lia).
    apply Z.div_le_mono; [lia |]. unfold MS_PER_DAY, MS_PER_HOUR. lia.
  - apply Z.div_le_mono; lia.
Qed.

Lemma getStreakDay_order_witness :
  getStreakDay DEFAULT_CONFIG 0 <= getStreakDay DEFAULT_CONFIG 5400000
  /\ getStreakDay DEFAULT_CONFIG (0 + 24 * MS_PER_HOUR) = getStreakDay DEFAULT_CONFIG 0 + 1
  /\ getStreakDay DEFAULT_CONFIG 0 <= getStreakDay DEFAULT_CONFIG 0
  /\ utcDate 0 - 1 <= getStreakDay DEFAULT_CONFIG 0 <= utcDate 0.
Proof.
  apply (getStreakDay_order DEFAULT_CONFIG DEFAULT_CONFIG 0 5400000);
    simpl; lia.
Defined.

(** X8: with a minimum of zero tasks per day (or less) every day qualifies,
    so the walk never reaches its [break], however many iterations it is
    given, and [calculateStreak] produces no result. *)
Theorem calculateStreak_zero_minimum (config : StreakConfig)
  (taskAssignments : list TaskAssignment.t) (completions : list Z)
  (now : Z) (childId : string) (fuel : nat) (s date d : Z) :
  minimumTasksPerDay config <= 0 ->
  streakLoop config (groupByDay config completions) now fuel s date d = None
  /\ calculateStreak config taskAssignments now childId = None.
Proof.
  intros Hmin.
  assert (Hloop : forall l fuel s date d,
            streakLoop config (groupByDay config l) now fuel s date d = None).
  { intros l fuel'. induction fuel' as [| fuel' IH]; intros s' date' d';
      [reflexivity |].
    rewrite streakLoop_unfold, groupByDay_lookup.
    destruct (Z.leb_spec (minimumTasksPerDay config) (on_day config l d'))
      as [_ | Hlt]; [apply IH |].
    unfold on_day in Hlt. lia. }
  split; [apply Hloop |].
  unfold calculateStreak. rewrite Hloop. reflexivity.
Qed.

Lemma calculateStreak_zero_minimum_witness :
  calculateStreak {| gracePeriodHours := 4; timezoneOffset := 0;
                     minimumTasksPerDay := 0 |}
    three_day_history evening_of_19000 "child-1" = None.
Proof.
  apply (calculateStreak_zero_minimum
           {| gracePeriodHours := 4; timezoneOffset := 0; minimumTasksPerDay := 0 |}
           three_day_history [] evening_of_19000 "child-1" O 0 0 0).
  simpl. lia.
Defined.

End StreakMoreFacts.

(** ** Bonus calculator: the early-completion bonus *)

Section EarlyBonusFacts.

Import BonusCalculator.

Lemma shr_1_nonneg (mrs : shr_record) :
  0 <= shr_m mrs -> 0 <= shr_m (shr_1 mrs).
Proof.
  destruct mrs as [m r s]. cbn [shr_m].
  destruct m as [| p | p]; [| destruct p | lia]; cbn; lia.
Qed.

Lemma iter_shr_1_nonneg (p : positive) (mrs : shr_record) :
  0 <= shr_m mrs -> 0 <= shr_m (SpecFloat.iter_pos shr_1 p mrs).
Proof.
  revert mrs.
  induction p as [p IH | p IH |]; intros mrs Hm; cbn [SpecFloat.iter_pos].
  - apply IH, IH, shr_1_nonneg, Hm.
  - apply IH, IH, Hm.
  - apply shr_1_nonneg, Hm.
Qed.

Lemma shr_fexp_nonneg (m e : Z) (l : location) :
  0 <= m -> 0 <= shr_m (fst (shr_fexp prec emax m e l)).
Proof.
  intros Hm. unfold shr_fexp, shr.
  assert (Hrec : 0 <= shr_m (shr_record_of_loc m l))
    by (destruct l as [| []]; exact Hm).
  destruct (fexp prec emax (Zdigits2 m + e) - e) as [| p | p]; cbn [fst];
    [exact Hrec | apply iter_shr_1_nonneg; exact Hrec | exact Hrec].
Qed.

Lemma round_nearest_even_nonneg (m : Z) (l : location) :
  0 <= m -> 0 <= round_nearest_even m l.
Proof.
  intros Hm. destruct l as [| []]; cbn [round_nearest_even]; try lia.
  destruct (Z.even m); lia.
Qed.

(** Rounding a non-negative mantissa gives a number of the requested
    sign. *)
Lemma binary_round_aux_sign (sx : bool) (mx ex : Z) (lx : location) :
  0 <= mx ->
  match binary_round_aux prec emax sx mx ex lx with
  | S754_zero s | S754_infinity s | S754_finite s _ _ => s = sx
  | S754_nan => False
  end.
Proof.
  intros Hm. unfold binary_round_aux.
  pose proof (shr_fexp_nonneg mx ex lx Hm) as H1.
  destruct (shr_fexp prec emax mx ex lx) as [mrs' e']. cbn [fst] in H1.
  pose proof (shr_fexp_nonneg _ e' loc_Exact
                (round_nearest_even_nonneg _ (loc_of_shr_record mrs') H1)) as H2.
  destruct (shr_fexp prec emax _ e' loc_Exact) as [mrs'' e'']. cbn [fst] in H2.
  destruct (shr_m mrs'') as [| p | p]; [reflexivity | | lia].
  destruct (e'' <=? emax - prec); reflexivity.
Qed.

Lemma num_positive_nonnegative (n : Z) : 0 < n -> nonnegative (num n).
Proof.
  intros Hn. destruct n as [| p | p]; [lia | | lia].
  unfold num, binary_normalize, binary_round.
  destruct (shl_align p 0 _) as [mz ez].
  pose proof (binary_round_aux_sign false (Z.pos mz) ez loc_Exact ltac:(lia)) as H.
  destruct (binary_round_aux prec emax false (Z.pos mz) ez loc_Exact);
    cbn [nonnegative]; auto.
Qed.

Lemma Math_round_nonnegative (x : number) :
  nonnegative x -> nonnegative (Math_round x).
Proof.
  destruct x as [s | s | | s m e]; cbn [nonnegative Math_round]; auto.
  intros ->. destruct (Z.leb_spec 0 e) as [_ | He]; [reflexivity |].
  cbn [cond_Zopp].
  set (n := (2 * Z.pos m + 2 ^ (- e)) / 2 ^ (1 - e)).
  assert (Hn : 0 <= n).
  { subst n. apply Z.div_pos.
    - pose proof (Z.pow_nonneg 2 (- e) ltac:(lia)). lia.
    - apply Z.pow_pos_nonneg; lia. }
  destruct (Z.eqb_spec n 0); [exact I |].
  apply num_positive_nonnegative. lia.
Qed.

Lemma mul_nonnegative (x c : number) (m : positive) (e : Z) :
  nonnegative x -> c = S754_finite false m e -> nonnegative (x * c)%js.
Proof.
  intros Hx ->. unfold mul.
  destruct x as [s | s | | s mx ex]; cbn [nonnegative SFmul] in *;
    [exact I | subst s; reflexivity | contradiction |].
  subst s. cbn [xorb].
  pose proof (binary_round_aux_sign false (Z.pos (mx * m)) (ex + e) loc_Exact
                ltac:(lia)) as H.
  destruct (binary_round_aux prec emax false (Z.pos (mx * m)) (ex + e) loc_Exact);
    cbn [nonnegative]; auto.
Qed.

Lemma ge_zero_nonnegative (x : number) : (x >= num 0)%js = true -> nonnegative x.
Proof.
  unfold ge, SFleb. change (num 0) with (S754_zero false).
  destruct x as [s | s | | s m e]; cbn [SFcompare nonnegative]; auto.
  - destruct s; [discriminate | reflexivity].
  - discriminate.
  - destruct s; [discriminate | reflexivity].
Qed.

Lemma nonnegative_not_below_zero (x : number) :
  nonnegative x -> x <> S754_nan /\ SFltb x (num 0) = false.
Proof.
  change (num 0) with (S754_zero false).
  destruct x as [s | s | | s m e]; cbn [nonnegative]; intros H;
    try contradiction; (split; [discriminate |]).
  - reflexivity.
  - subst s. reflexivity.
  - subst s. reflexivity.
Qed.

(** X9: for non-negative base points the early-completion bonus is a number
    and is never negative, whatever the two dates (invalid ones included). *)
Theorem calculateEarlyCompletionBonus_nonnegative
  (basePoints dueDate completedAt : number) :
  (basePoints >= num 0)%js = true ->
  calculateEarlyCompletionBonus basePoints dueDate completedAt <> S754_nan
  /\ SFltb (calculateEarlyCompletionBonus basePoints dueDate completedAt) (num 0)
     = false.
Proof.
  intros Hbase. apply nonnegative_not_below_zero.
  apply ge_zero_nonnegative in Hbase.
  assert (Hzero : nonnegative (num 0)) by exact I.
  assert (Htier : forall n, In n [25; 15; 10; 5] ->
            nonnegative (Math_round (basePoints * dec n 100)%js)).
  { intros n Hn. apply Math_round_nonnegative.
    cbn [In] in Hn.
    destruct Hn as [<- | [<- | [<- | [<- | []]]]];
      eapply mul_nonnegative; try exact Hbase; vm_compute; reflexivity. }
  unfold calculateEarlyCompletionBonus.
  repeat match goal with
         | |- nonnegative (if ?c then _ else _) => destruct c
         end;
    try exact Hzero; apply Htier; cbn [In]; auto.
Qed.

Lemma calculateEarlyCompletionBonus_nonnegative_witness :
  SFltb (calculateEarlyCompletionBonus (num 100) (num (48 * 3600000)) (num 0)) (num 0)
  = false.
Proof.
  apply (calculateEarlyCompletionBonus_nonnegative
           (num 100) (num (48 * 3600000)) (num 0)).
  vm_compute. reflexivity.
Defined.

(** X10: the early-completion bonus is 0 when the task is completed at or
    after the due date, and also when either date is invalid (its time value
    is [NaN]), whatever the base points. *)
Theorem calculateEarlyCompletionBonus_zero
  (basePoints dueDate completedAt : number) :
  (completedAt >= dueDate)%js = true
    \/ dueDate = S754_nan \/ completedAt = S754_nan ->
  calculateEarlyCompletionBonus basePoints dueDate completedAt = num 0.
Proof.
  unfold calculateEarlyCompletionBonus.
  intros [Hlate | [-> | ->]].
  - rewrite Hlate. reflexivity.
  - destruct completedAt; reflexivity.
  - destruct dueDate; reflexivity.
Qed.

Lemma calculateEarlyCompletionBonus_zero_witness :
  calculateEarlyCompletionBonus (num 100) (num 5000) (num 5000) = num 0.
Proof.
  apply (calculateEarlyCompletionBonus_zero (num 100) (num 5000) (num 5000)).
  left. vm_compute. reflexivity.
Defined.

End EarlyBonusFacts.

(** ** Leaderboard: ties and the ledger rows that count *)

Section LeaderboardMoreFacts.

Import LeaderboardService.

Lemma assignRanks_filter_score (k index : Z) (entries : list LeaderboardEntry) :
  map childId (List.filter (fun e => score e =? k) (assignRanks index entries))
  = map childId (List.filter (fun e => score e =? k) entries).
Proof.
  revert index.
  induction entries as [| e l IH]; intros index; [reflexivity |].
  cbn [assignRanks List.filter]. cbn [set_rank score].
  destruct (score e =? k); cbn [map]; rewrite IH; reflexivity.
Qed.

(** X11: children with the same score appear on the leaderboard in the
    order in which the query returned them, and no two entries share a rank,
    tied or not. *)
Theorem getFamilyLeaderboard_ties
  (weights : LeaderboardWeights) (getDateRange : Period -> DateRange)
  (db : Db) (familyId : string) (period : Period) (k : Z) :
  let board := getFamilyLeaderboard weights getDateRange db familyId period in
  map childId (List.filter (fun e => score e =? k) board)
  = map User.id
      (List.filter
         (fun child => score (entryOf weights db (getDateRange period) child) =? k)
         (activeChildren db familyId))
  /\ NoDup (map rank board).
Proof.
  intros board. subst board. unfold getFamilyLeaderboard. split.
  - rewrite assignRanks_filter_score, sort_desc_stable.
    induction (activeChildren db familyId) as [| child l IH]; [reflexivity |].
    cbn [map List.filter].
    destruct (score (entryOf weights db (getDateRange period) child) =? k);
      cbn [map]; rewrite IH; reflexivity.
  - rewrite assignRanks_rank by lia.
    apply NoDup_fmap_2; [intros x y; lia | apply NoDup_ListNoDup, seq_NoDup].
Qed.

Lemma entryOf_ledger_app (weights : LeaderboardWeights) (db : Db)
  (dateRange : DateRange) (child : User.t)
  (before after : list PointsLedger.t) (row : PointsLedger.t) :
  let counts :=
    (PointsLedger.child_id row =? User.id child)%string
    && PointsLedger.TransactionType_eqb
         (PointsLedger.transaction_type row) PointsLedger.earned
    && in_range dateRange (PointsLedger.created_at row) in
  entryOf weights (set_pointsLedger db (before ++ row :: after)) dateRange child
  = let e := entryOf weights (set_pointsLedger db (before ++ after)) dateRange child in
    if counts
    then {| childId := childId e; childName := childName e;
            avatarUrl := avatarUrl e;
            score := score e
                     + PointsLedger.points_amount row * weeklyPoints_weight weights;
            rank := rank e;
            weeklyPoints := weeklyPoints e + PointsLedger.points_amount row;
            weeklyTasks := weeklyTasks e;
            currentStreak := currentStreak e;
            achievements := achievements e |}
    else e.
Proof.
  intros counts. subst counts. unfold entryOf.
  cbn [set_pointsLedger pointsLedger taskAssignments childProfiles childAchievements].
  rewrite !List.filter_app. cbn [List.filter].
  destruct ((PointsLedger.child_id row =? User.id child)%string
            && PointsLedger.TransactionType_eqb
                 (PointsLedger.transaction_type row) PointsLedger.earned
            && in_range dateRange (PointsLedger.created_at row)).
  - rewrite !map_app, !fold_right_app. cbn [map fold_right].
    set (rest := fold_right Z.add 0 (map PointsLedger.points_amount
                   (List.filter _ after))).
    assert (Hfold : forall (l : list Z) (a : Z),
              fold_right Z.add a l = fold_right Z.add 0 l + a).
    { intros l a. induction l as [| x l IH]; cbn [fold_right]; lia. }
    rewrite (Hfold _ (PointsLedger.points_amount row + rest)), (Hfold _ rest).
    cbn [childId childName avatarUrl score rank weeklyPoints weeklyTasks
         currentStreak achievements].
    unfold calculateScore.
    cbn [data_weeklyPoints data_weeklyTasks data_currentStreak data_achievements].
    f_equal; lia.
  - reflexivity.
Qed.

(** X12: a ledger row that is not of type [earned], or whose creation time
    lies outside the range of the period, changes no leaderboard: bonus
    points, redemptions, penalties and adjustments do not count. *)
Theorem getFamilyLeaderboard_ignores_row
  (weights : LeaderboardWeights) (getDateRange : Period -> DateRange)
  (db : Db) (familyId : string) (period : Period)
  (before after : list PointsLedger.t) (row : PointsLedger.t) :
  PointsLedger.transaction_type row <> PointsLedger.earned
    \/ in_range (getDateRange period) (PointsLedger.created_at row) = false ->
  getFamilyLeaderboard weights getDateRange
    (set_pointsLedger db (before ++ row :: after)) familyId period
  = getFamilyLeaderboard weights getDateRange
      (set_pointsLedger db (before ++ after)) familyId period.
Proof.
  intros Hrow. unfold getFamilyLeaderboard, activeChildren.
  cbn [set_pointsLedger users]. do 2 f_equal.
  apply map_ext. intros child. rewrite entryOf_ledger_app.
  replace (_ && _ && _) with false; [reflexivity |].
  symmetry. destruct Hrow as [Htype | Hrange].
  - apply andb_false_iff. left. apply andb_false_iff. right.
    destruct (PointsLedger.transaction_type row); try reflexivity.
    contradiction.
  - apply andb_false_iff. right. exact Hrange.
Qed.

Lemma getFamilyLeaderboard_ignores_row_witness :
  getFamilyLeaderboard DEFAULT_WEIGHTS family_range
    (set_pointsLedger family_db
       (family_ledger_before ++ family_bonus_row :: family_ledger_after))
    "family-1" weekly
  = getFamilyLeaderboard DEFAULT_WEIGHTS family_range
      (set_pointsLedger family_db (family_ledger_before ++ family_ledger_after))
      "family-1" weekly
  /\ map (fun e => (childId e, weeklyPoints e, score e))
       (getFamilyLeaderboard DEFAULT_WEIGHTS family_range
          (set_pointsLedger family_db
             (family_ledger_before ++ family_bonus_row :: family_ledger_after))
          "family-1" weekly)
     = [("child-1", 30, 51); ("child-2", 20, 44)].
Proof.
  split; [| vm_compute; reflexivity].
  apply (getFamilyLeaderboard_ignores_row DEFAULT_WEIGHTS family_range
           family_db "family-1" weekly family_ledger_before family_ledger_after
           family_bonus_row).
  left. discriminate.
Defined.

(** X13: an [earned] row created within the range of the period adds its
    amount to the points of its child on the leaderboard, and the amount
    times the points weight to the child's score; the figures of every other
    child stay as they are. *)
Theorem entryOf_earned_row
  (weights : LeaderboardWeights) (db : Db) (dateRange : DateRange)
  (child : User.t) (before after : list PointsLedger.t) (row : PointsLedger.t) :
  PointsLedger.transaction_type row = PointsLedger.earned ->
  in_range dateRange (PointsLedger.created_at row) = true ->
  let e' := entryOf weights (set_pointsLedger db (before ++ row :: after))
              dateRange child in
  let e := entryOf weights (set_pointsLedger db (before ++ after)) dateRange child in
  (PointsLedger.child_id row = User.id child ->
   weeklyPoints e' = weeklyPoints e + PointsLedger.points_amount row
   /\ score e' = score e
                 + PointsLedger.points_amount row * weeklyPoints_weight weights)
  /\ (PointsLedger.child_id row <> User.id child -> e' = e).
Proof.
  intros Htype Hrange e' e. subst e' e. rewrite entryOf_ledger_app.
  rewrite Htype, Hrange. cbn [PointsLedger.TransactionType_eqb andb].
  rewrite andb_true_r. split.
  - intros Hchild. apply String.eqb_eq in Hchild. rewrite Hchild.
    cbn [weeklyPoints score]. split; reflexivity.
  - intros Hchild. apply String.eqb_neq in Hchild. rewrite Hchild. reflexivity.
Qed.

Lemma entryOf_earned_row_witness :
  score (entryOf DEFAULT_WEIGHTS (set_pointsLedger early_db ([] ++ first_entry :: []))
           {| range_start := 0; range_end := 1000 |}
           {| User.id := "child-1"; User.family_id := "family-1";
              User.role := "child"; User.is_active := true;
              User.first_name := "Ada"; User.avatar_url := None |})
  = score (entryOf DEFAULT_WEIGHTS (set_pointsLedger early_db ([] ++ []))
             {| range_start := 0; range_end := 1000 |}
             {| User.id := "child-1"; User.family_id := "family-1";
                User.role := "child"; User.is_active := true;
                User.first_name := "Ada"; User.avatar_url := None |})
    + PointsLedger.points_amount first_entry * weeklyPoints_weight DEFAULT_WEIGHTS.
Proof.
  destruct (entryOf_earned_row DEFAULT_WEIGHTS early_db
              {| range_start := 0; range_end := 1000 |}
              {| User.id := "child-1"; User.family_id := "family-1";
                 User.role := "child"; User.is_active := true;
                 User.first_name := "Ada"; User.avatar_url := None |}
              [] [] first_entry eq_refl eq_refl) as [H _].
  apply H. reflexivity.
Defined.

End LeaderboardMoreFacts.

(** ** Achievement engine: what a check changes *)

Section AchievementMoreFacts.

Import AchievementEngine.

Lemma appends_only_refl (db : Db) : appends_only db db.
Proof.
  repeat split; try reflexivity; exists []; rewrite app_nil_r; reflexivity.
Qed.

Lemma appends_only_trans (db1 db2 db3 : Db) :
  appends_only db1 db2 -> appends_only db2 db3 -> appends_only db1 db3.
Proof.
  intros (Hu & Ht & Ha & [r1 Hr1] & [l1 Hl1] & [n1 Hn1])
         (Hu' & Ht' & Ha' & [r2 Hr2] & [l2 Hl2] & [n2 Hn2]).
  repeat split; try congruence.
  - exists (r1 ++ r2). rewrite Hr2, Hr1, app_assoc. reflexivity.
  - exists (l1 ++ l2). rewrite Hl2, Hl1, app_assoc. reflexivity.
  - exists (n1 ++ n2). rewrite Hn2, Hn1, app_assoc. reflexivity.
Qed.

(** The check of the criteria reads the database and leaves it as it is;
    what it reads is the table of task assignments. *)
Lemma checkUnlockCriteria_db (child : option ChildProfile.t)
  (achievement : Achievement.t) (event : AchievementEvent) (db : Db) :
  snd (checkUnlockCriteria child achievement event db) = db.
Proof.
  unfold checkUnlockCriteria, read, count_category, bind, get, ret, throw.
  repeat match goal with
         | |- context [if ?c then _ else _] => destruct c
         end;
    destruct child as [profile |]; try reflexivity;
    destruct (Achievement.unlock_criteria_config achievement); reflexivity.
Qed.

Lemma checkUnlockCriteria_reads (child : option ChildProfile.t)
  (achievement : Achievement.t) (event : AchievementEvent) (db db' : Db) :
  taskAssignments db' = taskAssignments db ->
  fst (checkUnlockCriteria child achievement event db')
  = fst (checkUnlockCriteria child achievement event db).
Proof.
  intros Hta.
  unfold checkUnlockCriteria, read, count_category, bind, get, ret, throw.
  repeat match goal with
         | |- context [if ?c then _ else _] => destruct c
         end;
    destruct child as [profile |]; try reflexivity;
    destruct (Achievement.unlock_criteria_config achievement);
    cbn [fst]; rewrite ?Hta; reflexivity.
Qed.

Lemma unlockAchievement_appends (db : Db) (now : Z) (childId achievementId : string) :
  appends_only db (snd (unlockAchievement now childId achievementId db)).
Proof.
  unfold unlockAchievement, findOne_childAchievement, insert_childAchievement,
    findById_achievement, awardPoints, send, throw, bind, get, put, ret.
  destruct (List.find _ (childAchievements db)); [apply appends_only_refl |].
  cbn [achievements].
  destruct (List.find _ (achievements db)) as [achievement |].
  - destruct (0 <? Achievement.points_reward achievement); cbn;
      repeat split; try reflexivity; eauto;
      exists []; rewrite app_nil_r; reflexivity.
  - cbn. repeat split; try reflexivity; eauto;
      exists []; rewrite app_nil_r; reflexivity.
Qed.

Lemma checkEach_cons (now : Z) (childId : string) (child : option ChildProfile.t)
  (event : AchievementEvent) (achievement : Achievement.t)
  (l : list Achievement.t) (db : Db) :
  checkEach now childId child event (achievement :: l) db
  = match checkUnlockCriteria child achievement event db with
    | (Normal true, db1) =>
        match unlockAchievement now childId (Achievement.id achievement) db1 with
        | (Normal _, db2) => checkEach now childId child event l db2
        | (Throw e, db2) => (Throw e, db2)
        end
    | (Normal false, db1) => checkEach now childId child event l db1
    | (Throw e, db1) => (Throw e, db1)
    end.
Proof.
  cbn [checkEach]. unfold bind at 1.
  destruct (checkUnlockCriteria child achievement event db) as [[[|] | e] db1];
    reflexivity.
Qed.

Lemma checkEach_appends (now : Z) (childId : string) (child : option ChildProfile.t)
  (event : AchievementEvent) (l : list Achievement.t) (db : Db) :
  appends_only db (snd (checkEach now childId child event l db)).
Proof.
  revert db.
  induction l as [| achievement l IH]; intros db; [apply appends_only_refl |].
  rewrite checkEach_cons.
  pose proof (checkUnlockCriteria_db child achievement event db) as Hdb.
  destruct (checkUnlockCriteria child achievement event db) as [[[|] | e] db1];
    cbn [snd] in Hdb; subst db1.
  - pose proof (unlockAchievement_appends db now childId (Achievement.id achievement))
      as Hunlock.
    destruct (unlockAchievement now childId (Achievement.id achievement) db)
      as [[[] | e] db2]; cbn [snd] in Hunlock |- *.
    + eapply appends_only_trans; [exact Hunlock | apply IH].
    + exact Hunlock.
  - apply IH.
  - apply appends_only_refl.
Qed.

Lemma checkAchievements_unfold (now : Z) (childId : string)
  (event : AchievementEvent) (db : Db) :
  checkAchievements now childId event db
  = checkEach now childId
      (List.find (fun p => (ChildProfile.user_id p =? childId)%string)
         (childProfiles db))
      event (system_achievements db) db.
Proof. reflexivity. Qed.

(** X14: whether they complete or throw, [unlockAchievement] and
    [checkAchievements] only append: the rows of [child_achievements], the
    ledger and the notifications that were there stay, in their order, and
    users, task assignments and the achievement catalog are left
    untouched. *)
Theorem achievement_engine_appends_only
  (db : Db) (now : Z) (childId achievementId : string) (event : AchievementEvent) :
  appends_only db (snd (unlockAchievement now childId achievementId db))
  /\ appends_only db (snd (checkAchievements now childId event db)).
Proof.
  split.
  - apply unlockAchievement_appends.
  - rewrite checkAchievements_unfold. apply checkEach_appends.
Qed.

Lemma checkEach_at_most_one (now : Z) (childId : string)
  (child : option ChildProfile.t) (event : AchievementEvent)
  (l : list Achievement.t) (db : Db) :
  (forall c a, (length (unlockedRecords db c a) <= 1)%nat) ->
  forall c a,
    (length (unlockedRecords (snd (checkEach now childId child event l db)) c a)
     <= 1)%nat.
Proof.
  revert db.
  induction l as [| achievement l IH]; intros db Hone; [exact Hone |].
  rewrite checkEach_cons.
  pose proof (checkUnlockCriteria_db child achievement event db) as Hdb.
  destruct (checkUnlockCriteria child achievement event db) as [[[|] | e] db1];
    cbn [snd] in Hdb; subst db1.
  - pose proof (fun c a =>
        unlockAchievement_at_most_one db now childId (Achievement.id achievement)
          c a (Hone c a)) as Hunlock.
    destruct (unlockAchievement now childId (Achievement.id achievement) db)
      as [[[] | e] db2]; cbn [snd] in Hunlock |- *.
    + apply IH. exact Hunlock.
    + exact Hunlock.
  - apply IH. exact Hone.
  - exact Hone.
Qed.

(** X15: [checkAchievements] keeps the invariant of [child_achievements]:
    if no child has two records for one achievement before the call, none
    has after it, whether the call completes or throws. *)
Theorem checkAchievements_at_most_one
  (db : Db) (now : Z) (childId : string) (event : AchievementEvent) :
  (forall c a, (length (unlockedRecords db c a) <= 1)%nat) ->
  forall c a,
    (length (unlockedRecords (snd (checkAchievements now childId event db)) c a)
     <= 1)%nat.
Proof.
  intros Hone. rewrite checkAchievements_unfold.
  apply checkEach_at_most_one. exact Hone.
Qed.

Lemma checkAchievements_at_most_one_witness :
  (length (unlockedRecords
             (snd (checkAchievements 100 "child-1" task_approved early_db))
             "child-1" "first-steps") <= 1)%nat.
Proof.
  apply (checkAchievements_at_most_one early_db 100 "child-1" task_approved).
  intros c a. cbn. lia.
Defined.

Lemma checkUnlockCriteria_None (achievement : Achievement.t)
  (event : AchievementEvent) (db : Db) :
  checkUnlockCriteria None achievement event db
  = (if reads_profile achievement then Throw TypeError else Normal false, db).
Proof.
  unfold checkUnlockCriteria, reads_profile, read, bind, throw, ret.
  cbn [existsb].
  destruct (Achievement.unlock_criteria_type achievement =? "streak_days")%string;
    [reflexivity |].
  destruct (Achievement.unlock_criteria_type achievement =? "tasks_completed")%string;
    [reflexivity |].
  destruct (Achievement.unlock_criteria_type achievement =? "points_earned")%string;
    [reflexivity |].
  destruct (Achievement.unlock_criteria_type achievement =? "category_master")%string;
    reflexivity.
Qed.

Lemma checkEach_None (now : Z) (childId : string) (event : AchievementEvent)
  (l : list Achievement.t) (db : Db) :
  checkEach now childId None event l db
  = (if existsb reads_profile l then Throw TypeError else Normal tt, db).
Proof.
  induction l as [| achievement l IH]; [reflexivity |].
  rewrite checkEach_cons, checkUnlockCriteria_None. cbn [existsb].
  destruct (reads_profile achievement); [reflexivity | exact IH].
Qed.

(** X17: for a child without a profile, [checkAchievements] never changes
    the database; it throws a [TypeError] exactly when some system
    achievement has a criteria type that reads the profile, and completes
    without unlocking anything otherwise. *)
Theorem checkAchievements_without_profile
  (db : Db) (now : Z) (childId : string) (event : AchievementEvent) :
  List.find (fun p => (ChildProfile.user_id p =? childId)%string) (childProfiles db)
    = None ->
  checkAchievements now childId event db
  = (if existsb reads_profile (system_achievements db)
     then Throw TypeError else Normal tt, db).
Proof.
  intros Hnone. rewrite checkAchievements_unfold, Hnone. apply checkEach_None.
Qed.

Lemma checkAchievements_without_profile_witness :
  checkAchievements 100 "child-9" task_approved early_db
  = (Throw TypeError, early_db).
Proof.
  apply (checkAchievements_without_profile early_db 100 "child-9" task_approved).
  reflexivity.
Defined.

Lemma unlockAchievement_records (db : Db) (now : Z) (childId achievementId : string) :
  (exists added,
     childAchievements (snd (unlockAchievement now childId achievementId db))
     = childAchievements db ++ added
     /\ (added = [] \/ added = [unlock_record now childId achievementId]))
  /\ unlockedRecords (snd (unlockAchievement now childId achievementId db))
       childId achievementId <> [].
Proof.
  destruct (unlockedRecords db childId achievementId) as [| r rest] eqn:Hrec.
  - pose proof (unlockAchievement_adds_record db now childId achievementId Hrec)
      as Hadd.
    split.
    + exists [unlock_record now childId achievementId]. split; [exact Hadd | auto].
    + unfold unlockedRecords in *. rewrite Hadd, List.filter_app, Hrec.
      cbn. rewrite !String.eqb_refl. discriminate.
  - rewrite (unlockAchievement_existing db now childId achievementId r rest Hrec).
    cbn [snd]. split.
    + exists []. rewrite app_nil_r. auto.
    + rewrite Hrec. discriminate.
Qed.

Lemma unlockedRecords_persist (db db' : Db) (childId achievementId : string)
  (added : list ChildAchievement.t) :
  childAchievements db' = childAchievements db ++ added ->
  unlockedRecords db childId achievementId <> [] ->
  unlockedRecords db' childId achievementId <> [].
Proof.
  unfold unlockedRecords. intros -> Hrec. rewrite List.filter_app.
  destruct (List.filter _ (childAchievements db)); [contradiction | discriminate].
Qed.

(** The loop over the catalog, seen from the database [db0] in which the
    criteria are evaluated. *)
Lemma checkEach_unlocks (now : Z) (childId : string) (child : ChildProfile.t)
  (event : AchievementEvent) (db0 : Db) (l : list Achievement.t) (db : Db) :
  taskAssignments db = taskAssignments db0 ->
  (exists added,
     childAchievements (snd (checkEach now childId (Some child) event l db))
     = childAchievements db ++ added
     /\ List.Forall
          (fun r =>
             ChildAchievement.child_id r = childId
             /\ exists a,
                  In a l
                  /\ ChildAchievement.achievement_id r = Achievement.id a
                  /\ fst (checkUnlockCriteria (Some child) a event db0) = Normal true)
          added)
  /\ (fst (checkEach now childId (Some child) event l db) = Normal tt ->
      forall a,
        In a l ->
        fst (checkUnlockCriteria (Some child) a event db0) = Normal true ->
        unlockedRecords (snd (checkEach now childId (Some child) event l db))
          childId (Achievement.id a) <> []).
Proof.
  revert db.
  induction l as [| a0 l IH]; intros db Hta.
  - cbn [checkEach ret snd fst]. split.
    + exists []. rewrite app_nil_r. split; [reflexivity | constructor].
    + intros _ a [].
  - rewrite checkEach_cons.
    pose proof (checkUnlockCriteria_db (Some child) a0 event db) as Hdb.
    pose proof (checkUnlockCriteria_reads (Some child) a0 event db0 db Hta) as Hfst.
    destruct (checkUnlockCriteria (Some child) a0 event db) as [[[|] | e] db1];
      cbn [snd fst] in Hdb, Hfst; subst db1.
    + destruct (unlockAchievement_records db now childId (Achievement.id a0))
        as [(added1 & Hrec1 & Hadded1) Hhas].
      pose proof (unlockAchievement_appends db now childId (Achievement.id a0))
        as (_ & Hta2 & _).
      destruct (unlockAchievement now childId (Achievement.id a0) db)
        as [[[] | e] db2]; cbn [snd fst] in Hrec1, Hhas, Hta2 |- *.
      * destruct (IH db2 ltac:(congruence)) as [(added2 & Hrec2 & Hall2) Hcomplete].
        split.
        -- exists (added1 ++ added2). split;
             [rewrite Hrec2, Hrec1, app_assoc; reflexivity |].
           apply List.Forall_app. split.
           ++ destruct Hadded1 as [-> | ->]; [constructor |].
              constructor; [| constructor].
              split; [reflexivity |].
              exists a0. split; [left; reflexivity | split; [reflexivity | symmetry; exact Hfst]].
           ++ eapply List.Forall_impl; [| exact Hall2].
              intros r (Hc & a & Ha & Hid & Hcrit).
              split; [exact Hc |]. exists a. split; [right; exact Ha | auto].
        -- intros Hnormal a [<- | Ha] Hcrit.
           ++ eapply unlockedRecords_persist; [exact Hrec2 | exact Hhas].
           ++ apply Hcomplete; assumption.
      * split.
        -- exists added1. split; [exact Hrec1 |].
           destruct Hadded1 as [-> | ->]; [constructor |].
           constructor; [| constructor].
           split; [reflexivity |].
           exists a0. split; [left; reflexivity | split; [reflexivity | symmetry; exact Hfst]].
        -- intros Hnormal. discriminate Hnormal.
    + destruct (IH db Hta) as [(added & Hrec & Hall) Hcomplete]. split.
      * exists added. split; [exact Hrec |].
        eapply List.Forall_impl; [| exact Hall].
        intros r (Hc & a & Ha & Hid & Hcrit).
        split; [exact Hc |]. exists a. split; [right; exact Ha | auto].
      * intros Hnormal a [<- | Ha] Hcrit; [congruence |].
        apply Hcomplete; assumption.
    + cbn [snd fst]. split.
      * exists []. rewrite app_nil_r. split; [reflexivity | constructor].
      * intros Hnormal. discriminate Hnormal.
Qed.

(** X18: for a child with a profile, every record that [checkAchievements]
    adds belongs to that child and to a system achievement whose criteria
    hold for the profile; and when the call completes normally, every system
    achievement whose criteria hold has a record for the child afterwards. *)
Theorem checkAchievements_unlocks
  (db : Db) (now : Z) (childId : string) (child : ChildProfile.t)
  (event : AchievementEvent) :
  List.find (fun p => (ChildProfile.user_id p =? childId)%string) (childProfiles db)
    = Some child ->
  (exists added,
     childAchievements (snd (checkAchievements now childId event db))
     = childAchievements db ++ added
     /\ List.Forall
          (fun r =>
             ChildAchievement.child_id r = childId
             /\ exists a,
                  In a (system_achievements db)
                  /\ ChildAchievement.achievement_id r = Achievement.id a
                  /\ fst (checkUnlockCriteria (Some child) a event db) = Normal true)
          added)
  /\ (fst (checkAchievements now childId event db) = Normal tt ->
      forall a,
        In a (system_achievements db) ->
        fst (checkUnlockCriteria (Some child) a event db) = Normal true ->
        unlockedRecords (snd (checkAchievements now childId event db))
          childId (Achievement.id a) <> []).
Proof.
  intros Hchild. rewrite checkAchievements_unfold, Hchild.
  apply checkEach_unlocks. reflexivity.
Qed.

Lemma checkAchievements_unlocks_witness :
  unlockedRecords (snd (checkAchievements 100 "child-1" task_approved early_db))
    "child-1" "first-steps" <> [].
Proof.
  destruct (checkAchievements_unlocks early_db 100 "child-1" early_child
              task_approved eq_refl) as [_ Hcomplete].
  apply (Hcomplete eq_refl (List.hd early_bird SYSTEM_ACHIEVEMENTS)).
  - left. reflexivity.
  - reflexivity.
Defined.

End AchievementMoreFacts.

(** ** The balance trigger: the tables it lets through *)

Section LedgerMoreFacts.

Import PointsLedger.

Lemma ledger_invariant_step (table : list t) (new : t) :
  (forall before row after,
     table = before ++ row :: after ->
     balance_after row = sum_points_amount before (child_id row)) ->
  forall before row after,
    fst (insert table new) = before ++ row :: after ->
    balance_after row = sum_points_amount before (child_id row).
Proof.
  intros Hinv before row after. unfold insert, validate_points_balance.
  destruct (negb (in_INT (sum_points_amount table (child_id new))));
    [cbn [fst]; apply Hinv |].
  destruct (Z.eqb_spec (balance_after new)
              (sum_points_amount table (child_id new))) as [Hbal | Hbal];
    cbn [negb fst]; [| apply Hinv].
  destruct after as [| x after _] using rev_ind.
  - intros Heq. apply app_inj_tail in Heq as [-> ->]. exact Hbal.
  - rewrite app_comm_cons, app_assoc. intros Heq.
    apply app_inj_tail in Heq as [Heq _]. apply (Hinv _ _ _ Heq).
Qed.

(** X19: in every ledger built by inserts under the trigger, each row
    carries as [balance_after] the sum of the amounts of the same child's
    rows before it, without its own amount; in particular the first row of
    every child has [balance_after = 0]. *)
Theorem ledger_of_balances (rows before after : list t) (row : t) :
  ledger_of rows = before ++ row :: after ->
  balance_after row = sum_points_amount before (child_id row).
Proof.
  unfold ledger_of.
  assert (Hgen : forall table,
    (forall before row after,
       table = before ++ row :: after ->
       balance_after row = sum_points_amount before (child_id row)) ->
    forall before row after,
      fold_left (fun table row => fst (insert table row)) rows table
      = before ++ row :: after ->
      balance_after row = sum_points_amount before (child_id row)).
  { induction rows as [| new rows IH]; intros table Hinv; [exact Hinv |].
    cbn [fold_left]. apply IH. apply ledger_invariant_step. exact Hinv. }
  apply Hgen. intros b r a Heq. destruct b; discriminate Heq.
Qed.

Lemma ledger_of_balances_witness :
  balance_after
    {| child_id := "child-1"; transaction_type := earned; points_amount := 10;
       balance_after := 0; reference_type := None; created_at := 1 |}
  = sum_points_amount [] "child-1".
Proof.
  apply (ledger_of_balances
           [first_entry;
            {| child_id := "child-1"; transaction_type := earned;
               points_amount := 10; balance_after := 0;
               reference_type := None; created_at := 1 |}]
           [] []).
  reflexivity.
Defined.

Lemma sum_points_amount_other (before after : list t) (other : t) (childId : string) :
  child_id other <> childId ->
  sum_points_amount (before ++ other :: after) childId
  = sum_points_amount (before ++ after) childId.
Proof.
  intros Hother. unfold sum_points_amount.
  rewrite !List.filter_app. cbn [List.filter].
  apply String.eqb_neq in Hother. rewrite Hother. reflexivity.
Qed.

(** X20: the check of a row depends only on the rows of its own child: a
    row of another child anywhere in the table does not change whether the
    trigger accepts it, nor the error it raises. *)
Theorem validate_points_balance_per_child
  (before after : list t) (other NEW : t) :
  child_id other <> child_id NEW ->
  validate_points_balance (before ++ other :: after) NEW
  = validate_points_balance (before ++ after) NEW.
Proof.
  intros Hother. unfold validate_points_balance.
  rewrite (sum_points_amount_other before after other (child_id NEW) Hother).
  reflexivity.
Qed.

Lemma validate_points_balance_per_child_witness :
  validate_points_balance
    ([] ++ {| child_id := "child-2"; transaction_type := earned;
              points_amount := 7; balance_after := 0;
              reference_type := None; created_at := 1 |} :: [])
    first_entry
  = validate_points_balance ([] ++ []) first_entry.
Proof.
  apply (validate_points_balance_per_child [] []
           {| child_id := "child-2"; transaction_type := earned;
              points_amount := 7; balance_after := 0;
              reference_type := None; created_at := 1 |}
           first_entry).
  discriminate.
Defined.

End LedgerMoreFacts.

(** ** The XP of a task *)

Section TaskXpFacts.

Import TaskXp.

(** X21: the XP of a task is one of three values fixed by its difficulty:
    the base XP (10, 20, 35, or 15 without a difficulty), the base with the
    10% bonus (11, 22, 39, 17) or the base with the 25% bonus (13, 25, 44,
    19); the two bonuses never add up.  A task without a due date, or whose
    due date is not after the current time, gives the base XP. *)
Theorem calculateTaskXp_values (now : number) (task : Task) :
  let '(base, with10, with25) := taskXp_values (difficulty task) in
  (calculateTaskXp now task = num base
   \/ calculateTaskXp now task = num with10
   \/ calculateTaskXp now task = num with25)
  /\ (dueDate task = None -> calculateTaskXp now task = num base)
  /\ (forall due, dueDate task = Some due -> SFltb now due = false ->
      calculateTaskXp now task = num base).
Proof.
  destruct task as [d due]. unfold calculateTaskXp. cbn [difficulty dueDate].
  destruct d as [[| |] |]; cbn [taskXp_values baseXp].
  all: split; [| split; [intros ->; vm_compute; reflexivity
                        | intros due' -> ->; vm_compute; reflexivity]].
  all: destruct due as [due |]; [| left; vm_compute; reflexivity].
  all: destruct (SFltb now due); [| left; vm_compute; reflexivity].
  all: destruct (gt _ (num 24));
    [right; right; vm_compute; reflexivity |].
  all: destruct (gt _ (num 6));
    [right; left; vm_compute; reflexivity | left; vm_compute; reflexivity].
Qed.

Lemma calculateTaskXp_values_witness :
  calculateTaskXp (num 1000) {| difficulty := Some hard; dueDate := None |} = num 35.
Proof.
  destruct (calculateTaskXp_values (num 1000)
              {| difficulty := Some hard; dueDate := None |}) as (_ & H & _).
  apply H. reflexivity.
Defined.

End TaskXpFacts.

(** ** Age groups *)

Section AgeGroupFacts.

Import AgeGroups.

Variable years_since : Z -> Z.

Lemma refresh_row_cases (r : row) :
  (match sql_neq (age_group r) (age_group_of years_since (date_of_birth r)) with
   | Some true =>
       update_age_group years_since
         {| user_id := user_id r; date_of_birth := date_of_birth r;
            age_group := age_group_of years_since (date_of_birth r) |}
   | _ => r
   end)
  = match age_group r, age_group_of years_since (date_of_birth r) with
    | Some _, Some g =>
        {| user_id := user_id r; date_of_birth := date_of_birth r;
           age_group := Some g |}
    | _, _ => r
    end.
Proof.
  destruct r as [u dob g]. cbn [age_group date_of_birth user_id].
  unfold update_age_group. cbn [age_group date_of_birth user_id].
  destruct g as [g |], (age_group_of years_since dob) as [g' |];
    cbn [sql_neq]; try reflexivity.
  destruct g, g'; reflexivity.
Qed.

(** X22: [refresh_all_age_groups] leaves every row whose stored age group
    is null as it is, and every row whose child is no longer (or not yet)
    between 10 and 16: a profile that has no group never gets one from the
    refresh, and a child who turns 17 keeps the group '13-16'.  The rows it
    does rewrite are those with a stored group and a current age between 10
    and 16; they end with the group of the current age, and a second
    refresh changes nothing. *)
Theorem refresh_all_age_groups_nulls (child_profiles : list row) (r : row) :
  In r child_profiles ->
  (age_group r = None \/ age_group_of years_since (date_of_birth r) = None ->
   In r (refresh_all_age_groups years_since child_profiles))
  /\ (forall g g',
        age_group r = Some g ->
        age_group_of years_since (date_of_birth r) = Some g' ->
        In {| user_id := user_id r; date_of_birth := date_of_birth r;
              age_group := Some g' |}
           (refresh_all_age_groups years_since child_profiles))
  /\ refresh_all_age_groups years_since
       (refresh_all_age_groups years_since child_profiles)
     = refresh_all_age_groups years_since child_profiles.
Proof.
  intros Hin. unfold refresh_all_age_groups.
  split; [| split].
  - intros Hnull. apply in_map_iff. exists r. split; [| exact Hin].
    rewrite refresh_row_cases.
    destruct Hnull as [-> | ->]; [reflexivity |].
    destruct (age_group r); reflexivity.
  - intros g g' Hg Hg'. apply in_map_iff. exists r. split; [| exact Hin].
    rewrite refresh_row_cases, Hg, Hg'. reflexivity.
  - rewrite map_map. apply map_ext. intros x.
    rewrite !refresh_row_cases.
    destruct x as [u dob gx]. cbn [age_group date_of_birth user_id].
    destruct gx as [gx |], (age_group_of years_since dob) as [g' |] eqn:Hdob;
      cbn [age_group date_of_birth user_id]; rewrite ?Hdob; reflexivity.
Qed.

(** X23: whatever age group an inserted row declares, the trigger stores
    the group of the child's age: '10-12' for 10 to 12 full years, '13-16'
    for 13 to 16, and null for every other age. *)
Theorem insert_sets_age_group (child_profiles : list row) (NEW : row) :
  exists stored,
    insert years_since child_profiles NEW = child_profiles ++ [stored]
    /\ user_id stored = user_id NEW
    /\ date_of_birth stored = date_of_birth NEW
    /\ (age_group stored = Some group_10_12
        <-> 10 <= years_since (date_of_birth NEW) <= 12)
    /\ (age_group stored = Some group_13_16
        <-> 13 <= years_since (date_of_birth NEW) <= 16)
    /\ (age_group stored = None
        <-> years_since (date_of_birth NEW) < 10
            \/ 16 < years_since (date_of_birth NEW)).
Proof.
  exists (update_age_group years_since NEW).
  split; [reflexivity | split; [reflexivity | split; [reflexivity |]]].
  unfold update_age_group, age_group_of. cbn [age_group date_of_birth].
  set (y := years_since (date_of_birth NEW)).
  destruct (Z.leb_spec 10 y), (Z.leb_spec y 12), (Z.leb_spec 13 y),
    (Z.leb_spec y 16); cbn [andb];
    (split; [| split]); split; intros Hgoal; try discriminate Hgoal; try lia;
    try reflexivity.
Qed.

End AgeGroupFacts.

Lemma refresh_all_age_groups_nulls_witness :
  In {| AgeGroups.user_id := "child-1"; AgeGroups.date_of_birth := 16000;
        AgeGroups.age_group := None |}
     (AgeGroups.refresh_all_age_groups sample_years_since
        [ {| AgeGroups.user_id := "child-1"; AgeGroups.date_of_birth := 16000;
             AgeGroups.age_group := None |} ]).
Proof.
  destruct (refresh_all_age_groups_nulls sample_years_since
              [ {| AgeGroups.user_id := "child-1"; AgeGroups.date_of_birth := 16000;
                   AgeGroups.age_group := None |} ]
              {| AgeGroups.user_id := "child-1"; AgeGroups.date_of_birth := 16000;
                 AgeGroups.age_group := None |}
              (or_introl eq_refl)) as [H _].
  apply H. left. reflexivity.
Defined.

(** ** Leaderboard: the range of each period *)

Section DateRangeFacts.

Import JsDate LeaderboardService LeaderboardDates.

Lemma DayFromYear_bounds (y : Z) :
  146097 * (y - 1970) - 506 <= 400 * DayFromYear y
  <= 146097 * (y - 1970) + 593.
Proof.
  unfold DayFromYear.
  pose proof (Z.div_mod (y - 1969) 4 ltac:(lia)).
  pose proof (Z.mod_pos_bound (y - 1969) 4 ltac:(lia)).
  pose proof (Z.div_mod (y - 1901) 100 ltac:(lia)).
  pose proof (Z.mod_pos_bound (y - 1901) 100 ltac:(lia)).
  pose proof (Z.div_mod (y - 1601) 400 ltac:(lia)).
  pose proof (Z.mod_pos_bound (y - 1601) 400 ltac:(lia)).
  lia.
Qed.

Lemma YearFromDay_spec (day : Z) :
  DayFromYear (YearFromDay day) <= day < DayFromYear (YearFromDay day + 1).
Proof.
  unfold YearFromDay.
  set (y := 1970 + 400 * day / 146097).
  assert (Hy : 146097 * (y - 1970) <= 400 * day
               < 146097 * (y - 1970) + 146097).
  { unfold y. pose proof (Z.div_mod (400 * day) 146097 ltac:(lia)).
    pose proof (Z.mod_pos_bound (400 * day) 146097 ltac:(lia)). lia. }
  clearbody y.
  pose proof (DayFromYear_bounds (y - 1)).
  pose proof (DayFromYear_bounds (y + 1 + 1)).
  destruct (Z.leb_spec (DayFromYear (y + 1)) day) as [H1|H1].
  - lia.
  - destruct (Z.leb_spec (DayFromYear y) day) as [H2|H2].
    + lia.
    + replace (y - 1 + 1) with y by lia. lia.
Qed.

Lemma DayFromYear_succ (y : Z) :
  DayFromYear (y + 1) = DayFromYear y + DaysInYear y.
Proof.
  assert (E4 : (y + 1 - 1969) / 4
               = (y - 1969) / 4 + (if y mod 4 =? 0 then 1 else 0))
    by (destruct (Z.eqb_spec (y mod 4) 0); Z.div_mod_to_equations; lia).
  assert (E100 : (y + 1 - 1901) / 100
                 = (y - 1901) / 100 + (if y mod 100 =? 0 then 1 else 0))
    by (destruct (Z.eqb_spec (y mod 100) 0); Z.div_mod_to_equations; lia).
  assert (E400 : (y + 1 - 1601) / 400
                 = (y - 1601) / 400 + (if y mod 400 =? 0 then 1 else 0))
    by (destruct (Z.eqb_spec (y mod 400) 0); Z.div_mod_to_equations; lia).
  assert (D4 : y mod 100 = 0 -> y mod 4 = 0)
    by (Z.div_mod_to_equations; lia).
  assert (D100 : y mod 400 = 0 -> y mod 100 = 0)
    by (Z.div_mod_to_equations; lia).
  unfold DayFromYear, DaysInYear. rewrite E4, E100, E400.
  destruct (Z.eqb_spec (y mod 4) 0), (Z.eqb_spec (y mod 100) 0),
    (Z.eqb_spec (y mod 400) 0); simpl; lia.
Qed.

Lemma DayFromYear_le (y1 y2 : Z) :
  y1 <= y2 -> DayFromYear y1 <= DayFromYear y2.
Proof.
  intros H. destruct (Z.eq_dec y1 y2) as [->|Hne]; [lia|].
  pose proof (DayFromYear_bounds y1). pose proof (DayFromYear_bounds y2).
  lia.
Qed.

(** [YearFromDay] is the largest year that starts on the day or before. *)
Lemma YearFromDay_largest (day y : Z) :
  DayFromYear y <= day <-> y <= YearFromDay day.
Proof.
  pose proof (YearFromDay_spec day) as [Hlo Hhi]. split; intros H.
  - destruct (Z.le_gt_cases y (YearFromDay day)) as [|Hgt]; [assumption|].
    pose proof (DayFromYear_le (YearFromDay day + 1) y ltac:(lia)). lia.
  - pose proof (DayFromYear_le y (YearFromDay day) H). lia.
Qed.

Lemma YearFromDay_unique (day y : Z) :
  DayFromYear y <= day < DayFromYear (y + 1) -> YearFromDay day = y.
Proof.
  intros [Hlo Hhi].
  apply YearFromDay_largest in Hlo.
  destruct (Z.eq_dec (YearFromDay day) y) as [|Hne]; [assumption|].
  assert (Hle : DayFromYear (y + 1) <= day)
    by (apply YearFromDay_largest; lia).
  lia.
Qed.

Lemma DaysInYear_cases (y : Z) : DaysInYear y = 365 \/ DaysInYear y = 366.
Proof.
  unfold DaysInYear.
  destruct (y mod 4 =? 0), (y mod 100 =? 0), (y mod 400 =? 0); simpl; auto.
Qed.

Lemma InLeapYear_cases (t : Z) :
  (InLeapYear t = 0 /\ DaysInYear (YearFromTime t) = 365)
  \/ (InLeapYear t = 1 /\ DaysInYear (YearFromTime t) = 366).
Proof.
  unfold InLeapYear.
  destruct (DaysInYear_cases (YearFromTime t)) as [H|H]; rewrite H; simpl;
    auto.
Qed.

Lemma DayWithinYear_bounds (t : Z) :
  0 <= DayWithinYear t < 365 + InLeapYear t.
Proof.
  unfold DayWithinYear.
  pose proof (YearFromDay_spec (Day t)) as Hs.
  fold (YearFromTime t) in Hs.
  rewrite DayFromYear_succ in Hs.
  destruct (InLeapYear_cases t) as [[-> H]|[-> H]]; lia.
Qed.

Ltac month_cases mn H :=
  assert (Hcases : mn = 0 \/ mn = 1 \/ mn = 2 \/ mn = 3 \/ mn = 4 \/ mn = 5
                   \/ mn = 6 \/ mn = 7 \/ mn = 8 \/ mn = 9 \/ mn = 10
                   \/ mn = 11) by lia;
  clear H;
  repeat (destruct Hcases as [->|Hcases]); [..|subst mn].

Ltac split_ltb :=
  repeat match goal with
         | |- context [?a <? ?b] => destruct (Z.ltb_spec a b)
         end.

Lemma InLeapYear_bounds (t : Z) : 0 <= InLeapYear t <= 1.
Proof. destruct (InLeapYear_cases t) as [[-> _]|[-> _]]; lia. Qed.

Lemma DayFromMonth_bounds (mn leap : Z) :
  0 <= mn <= 11 ->
  0 <= leap <= 1 ->
  0 <= DayFromMonth mn leap
  /\ DayFromMonth mn leap + month_length mn leap <= 365 + leap.
Proof.
  intros Hmn Hleap. month_cases mn Hmn; cbn; lia.
Qed.

Lemma month_length_leap (mn leap : Z) :
  0 <= leap <= 1 -> month_length mn leap <= month_length mn 1.
Proof.
  intros Hleap. unfold month_length.
  repeat match goal with
         | |- context [match ?x with _ => _ end] => destruct x
         end; lia.
Qed.

(** Month and date of a day within the year, read off the table. *)
Lemma month_date_of_day (t mn k : Z) :
  0 <= mn <= 11 ->
  0 <= k < month_length mn (InLeapYear t) ->
  DayWithinYear t = DayFromMonth mn (InLeapYear t) + k ->
  MonthFromTime t = mn /\ DateFromTime t = k + 1.
Proof.
  intros Hmn Hk Hd.
  unfold DateFromTime, MonthFromTime. rewrite Hd.
  destruct (InLeapYear_cases t) as [[Hl _]|[Hl _]]; rewrite Hl in *;
    month_cases mn Hmn; cbn [DayFromMonth month_length] in *;
    split_ltb; try lia; split; lia.
Qed.

(** Conversely, the month and the date of a time give its day within the
    year. *)
Lemma day_of_month_date (t : Z) :
  0 <= MonthFromTime t <= 11
  /\ 1 <= DateFromTime t <= month_length (MonthFromTime t) (InLeapYear t)
  /\ DayWithinYear t
     = DayFromMonth (MonthFromTime t) (InLeapYear t) + (DateFromTime t - 1).
Proof.
  pose proof (DayWithinYear_bounds t) as Hb.
  unfold DateFromTime, MonthFromTime.
  destruct (InLeapYear_cases t) as [[Hl _]|[Hl _]]; rewrite Hl in *;
    split_ltb; cbn [DayFromMonth month_length]; lia.
Qed.

Lemma MakeDay_of_time (t date : Z) :
  MakeDay (YearFromTime t) (MonthFromTime t) date
  = Day t - DateFromTime t + date.
Proof.
  destruct (day_of_month_date t) as (Hm & _ & Hd).
  unfold MakeDay.
  rewrite (Z.div_small (MonthFromTime t) 12) by lia.
  rewrite (Z.mod_small (MonthFromTime t) 12) by lia.
  rewrite Z.add_0_r. fold (InLeapYear t).
  unfold DayWithinYear in Hd. lia.
Qed.

Lemma MS_PER_DAY_value : StreakSystem.MS_PER_DAY = 86400000.
Proof. reflexivity. Qed.

Lemma Day_MakeDate (d tm : Z) :
  0 <= tm < StreakSystem.MS_PER_DAY ->
  Day (MakeDate d tm) = d /\ TimeWithinDay (MakeDate d tm) = tm.
Proof.
  intros H. unfold Day, TimeWithinDay, MakeDate.
  rewrite MS_PER_DAY_value in *. split.
  - symmetry. apply (Z.div_unique _ _ d tm); lia.
  - symmetry. apply (Z.mod_unique _ _ d tm); lia.
Qed.

Lemma TimeWithinDay_bounds (t : Z) :
  0 <= TimeWithinDay t < StreakSystem.MS_PER_DAY.
Proof.
  unfold TimeWithinDay. apply Z.mod_pos_bound. rewrite MS_PER_DAY_value. lia.
Qed.

Lemma Day_TimeWithinDay (t : Z) :
  t = Day t * StreakSystem.MS_PER_DAY + TimeWithinDay t.
Proof.
  unfold Day, TimeWithinDay. rewrite MS_PER_DAY_value.
  pose proof (Z.div_mod t 86400000 ltac:(lia)). lia.
Qed.

Section Host.

Variable LocalTZA : Z.

Lemma LocalTime_UTC (t : Z) : LocalTime LocalTZA (UTC LocalTZA t) = t.
Proof. unfold LocalTime, UTC. lia. Qed.

(** [setHours(0, 0, 0, 0)]: local midnight of the same local day. *)
Lemma setHours_midnight (t : Z) :
  local_midnight LocalTZA (setHours LocalTZA t 0 0 0 0)
  /\ local_day LocalTZA (setHours LocalTZA t 0 0 0 0) = local_day LocalTZA t
  /\ setHours LocalTZA t 0 0 0 0 <= t
     < setHours LocalTZA t 0 0 0 0 + StreakSystem.MS_PER_DAY.
Proof.
  unfold local_midnight, local_day, setHours.
  rewrite LocalTime_UTC.
  destruct (Day_MakeDate (Day (LocalTime LocalTZA t)) (MakeTime 0 0 0 0))
    as [Hd Ht].
  { rewrite MS_PER_DAY_value. change (MakeTime 0 0 0 0) with 0. lia. }
  rewrite Hd, Ht. split; [reflexivity|]. split; [reflexivity|].
  pose proof (Day_TimeWithinDay (LocalTime LocalTZA t)) as Heq.
  pose proof (TimeWithinDay_bounds (LocalTime LocalTZA t)) as Hb.
  unfold UTC, MakeDate. change (MakeTime 0 0 0 0) with 0.
  unfold LocalTime in *. lia.
Qed.

(** [setDate]: the same time of day, on the day that is [date - getDate]
    days away. *)
Lemma setDate_shift (t date : Z) :
  setDate LocalTZA t date
  = t + (date - getDate LocalTZA t) * StreakSystem.MS_PER_DAY.
Proof.
  unfold setDate, getDate. rewrite MakeDay_of_time.
  pose proof (Day_TimeWithinDay (LocalTime LocalTZA t)) as Heq.
  unfold UTC, MakeDate. unfold LocalTime in *. lia.
Qed.

Lemma local_day_shift (t n : Z) :
  local_day LocalTZA (t + n * StreakSystem.MS_PER_DAY)
  = local_day LocalTZA t + n.
Proof.
  unfold local_day, LocalTime, Day.
  replace (t + n * StreakSystem.MS_PER_DAY + LocalTZA)
    with (t + LocalTZA + n * StreakSystem.MS_PER_DAY) by lia.
  apply Z.div_add. rewrite MS_PER_DAY_value. lia.
Qed.

(** X24: the daily range starts at the local midnight of the day on which
    the clock is read for [start], and ends at the reading for [end]: a
    time is in the range exactly when it is on that local day or later and
    not after [end]. *)
Theorem getDateRange_daily (clock_end clock_start t : Z) :
  let r := getDateRange LocalTZA clock_end clock_start daily in
  local_midnight LocalTZA (range_start r)
  /\ local_day LocalTZA (range_start r) = local_day LocalTZA clock_start
  /\ (in_range r t = true
      <-> local_day LocalTZA clock_start <= local_day LocalTZA t
          /\ t <= clock_end).
Proof.
  cbv zeta. unfold in_range. cbn [getDateRange range_start range_end].
  destruct (setHours_midnight clock_start) as (Hm & Hd & Hle & Hlt).
  split; [exact Hm|]. split; [exact Hd|].
  rewrite andb_true_iff, !Z.leb_le.
  set (s := setHours LocalTZA clock_start 0 0 0 0) in *. clearbody s.
  assert (Hs : s + LocalTZA
               = local_day LocalTZA clock_start * StreakSystem.MS_PER_DAY).
  { pose proof (Day_TimeWithinDay (LocalTime LocalTZA s)) as Heq.
    unfold local_midnight in Hm. rewrite Hm in Heq.
    rewrite <- Hd. unfold local_day. unfold LocalTime in *.
    rewrite Z.add_0_r in Heq. exact Heq. }
  pose proof (Day_TimeWithinDay (LocalTime LocalTZA t)) as Heqt.
  pose proof (TimeWithinDay_bounds (LocalTime LocalTZA t)) as Hbt.
  fold (local_day LocalTZA t) in Heqt.
  rewrite MS_PER_DAY_value in *. unfold LocalTime in *.
  split; intros [H1 H2]; (split; [|exact H2]); lia.
Qed.

(** X25: the weekly range starts at local midnight on a Sunday, the last
    one on or before the day on which the clock is read, so it covers
    between one and seven local days. *)
Theorem getDateRange_weekly (clock_end clock_start : Z) :
  let r := getDateRange LocalTZA clock_end clock_start weekly in
  range_end r = clock_end
  /\ local_midnight LocalTZA (range_start r)
  /\ getDay LocalTZA (range_start r) = 0
  /\ local_day LocalTZA (range_start r)
     = local_day LocalTZA clock_start - getDay LocalTZA clock_start
  /\ 0 <= getDay LocalTZA clock_start <= 6
  /\ range_start r <= clock_start
     < range_start r + 7 * StreakSystem.MS_PER_DAY.
Proof.
  cbv zeta. cbn [getDateRange range_start range_end].
  rewrite setDate_shift.
  replace (getDate LocalTZA clock_start - getDay LocalTZA clock_start
           - getDate LocalTZA clock_start)
    with (- getDay LocalTZA clock_start) by lia.
  set (wd := getDay LocalTZA clock_start).
  set (t' := clock_start + - wd * StreakSystem.MS_PER_DAY).
  destruct (setHours_midnight t') as (Hm & Hd & Hle & Hlt).
  assert (Hwd : 0 <= wd <= 6).
  { unfold wd, getDay, WeekDay.
    pose proof (Z.mod_pos_bound (Day (LocalTime LocalTZA clock_start) + 4) 7
                  ltac:(lia)). lia. }
  assert (Hday : local_day LocalTZA t' = local_day LocalTZA clock_start - wd).
  { unfold t'. rewrite local_day_shift. lia. }
  split; [reflexivity|]. split; [exact Hm|]. split.
  - unfold getDay, WeekDay. fold (local_day LocalTZA
                                    (setHours LocalTZA t' 0 0 0 0)).
    rewrite Hd, Hday. unfold wd, getDay, WeekDay.
    fold (local_day LocalTZA clock_start).
    set (D := local_day LocalTZA clock_start).
    pose proof (Z.div_mod (D + 4) 7 ltac:(lia)) as Hdm.
    replace (D - (D + 4) mod 7 + 4) with (0 + (D + 4) / 7 * 7) by lia.
    rewrite Z.mod_add by lia. reflexivity.
  - split; [rewrite Hd; exact Hday|]. split; [exact Hwd|].
    assert (Ht' : clock_start = t' + wd * StreakSystem.MS_PER_DAY)
      by (unfold t'; lia).
    clearbody t' wd. rewrite MS_PER_DAY_value in *. lia.
Qed.

(** X26: the monthly range starts at local midnight on the first day of
    the month and year in which the clock is read. *)
Theorem getDateRange_monthly (clock_end clock_start : Z) :
  let r := getDateRange LocalTZA clock_end clock_start monthly in
  range_end r = clock_end
  /\ local_midnight LocalTZA (range_start r)
  /\ getDate LocalTZA (range_start r) = 1
  /\ getMonth LocalTZA (range_start r) = getMonth LocalTZA clock_start
  /\ getFullYear LocalTZA (range_start r) = getFullYear LocalTZA clock_start
  /\ range_start r <= clock_start.
Proof.
  cbv zeta. cbn [getDateRange range_start range_end].
  rewrite setDate_shift.
  set (t' := clock_start
             + (1 - getDate LocalTZA clock_start) * StreakSystem.MS_PER_DAY).
  destruct (setHours_midnight t') as (Hm & Hd & Hle & Hlt).
  set (s := setHours LocalTZA t' 0 0 0 0) in *.
  set (lt := LocalTime LocalTZA clock_start).
  destruct (day_of_month_date lt) as (Hmn & Hdt & Hdwy).
  pose proof (DayWithinYear_bounds lt) as Hb.
  assert (Hday : Day (LocalTime LocalTZA s) = Day lt - (DateFromTime lt - 1)).
  { fold (local_day LocalTZA s). rewrite Hd. unfold t'.
    rewrite local_day_shift. unfold local_day, getDate. fold lt. lia. }
  assert (Hyear : YearFromTime (LocalTime LocalTZA s) = YearFromTime lt).
  { unfold YearFromTime at 1. apply YearFromDay_unique.
    pose proof (YearFromDay_spec (Day lt)) as Hs.
    fold (YearFromTime lt) in Hs. rewrite Hday.
    unfold DayWithinYear in *.
    pose proof (DayFromMonth_bounds (MonthFromTime lt) (InLeapYear lt) Hmn
                  (InLeapYear_bounds lt)).
    lia. }
  assert (Hleap : InLeapYear (LocalTime LocalTZA s) = InLeapYear lt).
  { unfold InLeapYear. rewrite Hyear. reflexivity. }
  destruct (month_date_of_day (LocalTime LocalTZA s) (MonthFromTime lt) 0)
    as [HM HD].
  - exact Hmn.
  - rewrite Hleap. lia.
  - unfold DayWithinYear in *. rewrite Hyear, Hleap, Hday. lia.
  - split; [reflexivity|]. split; [exact Hm|].
    unfold getDate, getMonth, getFullYear. fold lt.
    split; [rewrite HD; reflexivity|]. split; [exact HM|].
    split; [exact Hyear|].
    unfold t' in Hle. unfold getDate in Hle. fold lt in Hle.
    rewrite MS_PER_DAY_value in *. nia.
Qed.

(** X27: the all-time range does not start on a fixed date: it starts in
    the year 2020 on the month, day of the month and time of day at which
    the clock is read. *)
Theorem getDateRange_all_time (clock_end clock_start : Z) :
  let r := getDateRange LocalTZA clock_end clock_start all_time in
  range_end r = clock_end
  /\ getFullYear LocalTZA (range_start r) = 2020
  /\ getMonth LocalTZA (range_start r) = getMonth LocalTZA clock_start
  /\ getDate LocalTZA (range_start r) = getDate LocalTZA clock_start
  /\ TimeWithinDay (LocalTime LocalTZA (range_start r))
     = TimeWithinDay (LocalTime LocalTZA clock_start).
Proof.
  cbv zeta. cbn [getDateRange range_start range_end].
  unfold setFullYear, getFullYear, getMonth, getDate.
  rewrite LocalTime_UTC.
  set (lt := LocalTime LocalTZA clock_start).
  destruct (day_of_month_date lt) as (Hmn & Hdt & Hdwy).
  set (M := MonthFromTime lt) in *. set (D := DateFromTime lt) in *.
  destruct (Day_MakeDate (MakeDay 2020 M D) (TimeWithinDay lt)
              (TimeWithinDay_bounds lt)) as [Hday Htime].
  set (s := MakeDate (MakeDay 2020 M D) (TimeWithinDay lt)) in *.
  assert (Hmake : MakeDay 2020 M D = 18262 + DayFromMonth M 1 + D - 1).
  { unfold MakeDay. rewrite (Z.div_small M 12), (Z.mod_small M 12) by lia.
    reflexivity. }
  pose proof (DayFromMonth_bounds M 1 Hmn ltac:(lia)) as Hlen.
  pose proof (month_length_leap M (InLeapYear lt) (InLeapYear_bounds lt))
    as Hlen'.
  assert (Hyear : YearFromTime s = 2020).
  { unfold YearFromTime. apply YearFromDay_unique. rewrite Hday, Hmake.
    change (DayFromYear 2020) with 18262.
    change (DayFromYear (2020 + 1)) with 18628. lia. }
  assert (Hleap : InLeapYear s = 1).
  { unfold InLeapYear. rewrite Hyear. reflexivity. }
  destruct (month_date_of_day s M (D - 1)) as [HM HD].
  - exact Hmn.
  - rewrite Hleap. lia.
  - unfold DayWithinYear. rewrite Hyear, Hleap, Hday, Hmake.
    change (DayFromYear 2020) with 18262. lia.
  - split; [reflexivity|]. split; [exact Hyear|]. split; [exact HM|].
    split; [rewrite HD; lia|exact Htime].
Qed.

End Host.

End DateRangeFacts.
